(** * HAL cost estimation: the cost engine of the backend, embedded in Rocq

    The development follows
    [backend/services/cost_calculation_service.py] (class
    [CostCalculationService]), the request validator of
    [backend/schemas/cost_schemas.py] and the [/cost-estimation/calculate]
    route of [backend/routes/cost_estimation.py].

    Modelling conventions.
    - Python [float] values are exact rationals ([Q]); the arithmetic of the
      service is carried out without binary rounding error, and
      [round(x, n)] rounds the exact value, ties to even.
    - Python [int] values are [Z].
    - Python [str] values are [string]s of ASCII characters; a statement
      that relies on a law of the ASCII case mappings says so in a
      hypothesis.
    - Numbers are finite and dictionaries hold numbers: [OverflowError] and
      [TypeError] have no counterpart here, and the statements on errors
      speak of the exceptions of [exn] and of [ZeroDivisionError] only.
    - A raised exception is a value [Raise e] of the [result] type; a
      [try ... except] block is a [match] on it.
    - The relational store behind the SQLAlchemy [Session] is a record of
      tables (lists of rows, in table order) together with the set of
      queries that currently fail. *)

From Stdlib Require Import ZArith QArith Qround Qabs Bool List Ascii String.
From Stdlib Require Import Lia Lqa.
Import ListNotations.

Local Open Scope string_scope.

(** ** Exceptions and fallible computations *)

Inductive exn : Type :=
| ValueError (msg : string)
| KeyError (key : string)
| OperationalError
| HTTPException (status : Z) (detail : string).

Inductive result (A : Type) : Type :=
| Ok (a : A)
| Raise (e : exn).

Arguments Ok {A} a.
Arguments Raise {A} e.

Definition bind {A B : Type} (m : result A) (k : A -> result B) : result B :=
  match m with
  | Ok a => k a
  | Raise e => Raise e
  end.

Notation "x <- m ;; k" := (bind m (fun x => k))
  (at level 61, m at next level, right associativity).

(** ** Python string methods used by the service *)

Module PyStr.

(** [str.isspace] on one ASCII character: TAB..CR, FS..US and the blank. *)
Definition isspace (c : ascii) : bool :=
  let n := nat_of_ascii c in
  ((9 <=? n)%nat && (n <=? 13)%nat) || ((28 <=? n)%nat && (n <=? 32)%nat).

Definition isupper (c : ascii) : bool :=
  let n := nat_of_ascii c in (65 <=? n)%nat && (n <=? 90)%nat.

Definition islower (c : ascii) : bool :=
  let n := nat_of_ascii c in (97 <=? n)%nat && (n <=? 122)%nat.

Definition lower_char (c : ascii) : ascii :=
  if isupper c then ascii_of_nat (nat_of_ascii c + 32) else c.

Definition upper_char (c : ascii) : ascii :=
  if islower c then ascii_of_nat (nat_of_ascii c - 32) else c.

(** [s.lower()] *)
Fixpoint lower (s : string) : string :=
  match s with
  | EmptyString => EmptyString
  | String c r => String (lower_char c) (lower r)
  end.

(** [s.upper()] *)
Fixpoint upper (s : string) : string :=
  match s with
  | EmptyString => EmptyString
  | String c r => String (upper_char c) (upper r)
  end.

(** Stripping the characters that satisfy [p] from the left and from the
    right of a string. *)
Fixpoint lstrip_by (p : ascii -> bool) (s : string) : string :=
  match s with
  | EmptyString => EmptyString
  | String c r => if p c then lstrip_by p r else s
  end.

Fixpoint rstrip_by (p : ascii -> bool) (s : string) : string :=
  match s with
  | EmptyString => EmptyString
  | String c r =>
      match rstrip_by p r with
      | EmptyString => if p c then EmptyString else String c EmptyString
      | r' => String c r'
      end
  end.

(** [s.strip()] *)
Definition strip (s : string) : string :=
  rstrip_by isspace (lstrip_by isspace s).

(** [s.startswith(p)] *)
Definition startswith (s p : string) : bool := String.prefix p s.

(** [s.endswith(p)] *)
Definition endswith (s p : string) : bool :=
  (String.length p <=? String.length s)%nat
  && String.eqb (String.substring (String.length s - String.length p)
                                  (String.length p) s) p.

(** [needle in hay] *)
Fixpoint contains (needle hay : string) : bool :=
  match hay with
  | EmptyString => String.eqb needle EmptyString
  | String _ r => String.prefix needle hay || contains needle r
  end.

(** [s.replace(a, b)] for one-character [a] and [b] *)
Fixpoint replace_char (a b : ascii) (s : string) : string :=
  match s with
  | EmptyString => EmptyString
  | String c r =>
      String (if Ascii.eqb c a then b else c) (replace_char a b r)
  end.

(** [s.split()]: the maximal runs of non-space characters. *)
Fixpoint split_from (cur s : string) : list string :=
  match s with
  | EmptyString => if String.eqb cur EmptyString then [] else [cur]
  | String c r =>
      if isspace c
      then (if String.eqb cur EmptyString then split_from EmptyString r
            else cur :: split_from EmptyString r)
      else split_from (cur ++ String c EmptyString) r
  end.

Definition split (s : string) : list string := split_from EmptyString s.

(** [sep.join(parts)] *)
Definition join (sep : string) (parts : list string) : string :=
  String.concat sep parts.

(** Python truthiness of a string. *)
Definition truthy (s : string) : bool := negb (String.eqb s EmptyString).

End PyStr.

(** ** Numbers *)

Definition Qltb (x y : Q) : bool := negb (Qle_bool y x).

Infix "<?" := Qltb : Q_scope.
Infix "<=?" := Qle_bool : Q_scope.

(** [max(a, b, c)] of Python: the first of the largest arguments. *)
Definition py_max3 (a b c : Q) : Q :=
  let m := if (a <? b)%Q then b else a in
  if (m <? c)%Q then c else m.

(** The integer nearest to [q], ties to the even neighbour. *)
Definition round_half_even (q : Q) : Z :=
  let f := Qfloor q in
  match (q - inject_Z f ?= 1 # 2)%Q with
  | Lt => f
  | Gt => (f + 1)%Z
  | Eq => if Z.even f then f else (f + 1)%Z
  end.

Fixpoint pow10 (n : nat) : positive :=
  match n with
  | O => 1%positive
  | S m => (10 * pow10 m)%positive
  end.

(** [round(x, ndigits)] of Python on an exact value. *)
Definition py_round (x : Q) (ndigits : nat) : Q :=
  let s := pow10 ndigits in
  Qmake (round_half_even (x * inject_Z (Zpos s))) s.

(** ** Python dictionaries with string keys and numeric values *)

Definition dict : Type := list (string * Q).

Fixpoint dict_get (k : string) (d : dict) : option Q :=
  match d with
  | [] => None
  | (k', v) :: r => if String.eqb k k' then Some v else dict_get k r
  end.

(** [k in d] *)
Definition dict_in (k : string) (d : dict) : bool :=
  match dict_get k d with Some _ => true | None => false end.

(** [d[k]], raising [KeyError] on a missing key *)
Definition subscript (d : dict) (k : string) : result Q :=
  match dict_get k d with
  | Some v => Ok v
  | None => Raise (KeyError k)
  end.

(** [d.get(k, default)] on a table of the service *)
Definition get_default {A : Type} (table : list (string * A)) (k : string)
    (default : A) : A :=
  match find (fun kv => String.eqb k (fst kv)) table with
  | Some kv => snd kv
  | None => default
  end.

(** [all(k in d for k in keys)] *)
Definition all_in (keys : list string) (d : dict) : bool :=
  forallb (fun k => dict_in k d) keys.

(** ** The duty order of the service: [order = ["light", "medium", "heavy"]] *)

Inductive DutyCategory : Type := light | medium | heavy.

Definition duty_value (d : DutyCategory) : string :=
  match d with
  | light => "light"
  | medium => "medium"
  | heavy => "heavy"
  end.

Definition duty_index (d : DutyCategory) : Z :=
  match d with
  | light => 0
  | medium => 1
  | heavy => 2
  end.

Definition duty_eqb (a b : DutyCategory) : bool :=
  Z.eqb (duty_index a) (duty_index b).

Definition duty_le (a b : DutyCategory) : Prop :=
  (duty_index a <= duty_index b)%Z.

(** [x in {...}] on a set literal of strings *)
Definition str_in (x : string) (l : list string) : bool :=
  existsb (String.eqb x) l.

(** * [CostCalculationService] *)

Module CostCalculationService.

Import PyStr.
Local Open Scope Q_scope.

Definition CONVENTIONAL_OPERATOR_MONTHLY_WAGE : Q := 15000.
Definition CNC_OPERATOR_MONTHLY_WAGE : Q := 20000.
Definition HOURS_PER_MONTH_FOR_WAGE : Q := 200.

Definition ANNUAL_DEPRECIATION_RATE : Q := 0.10.
Definition MAINTENANCE_RATE : Q := 0.05.
Definition POWER_RATE_PER_UNIT : Q := 5.
Definition CONVENTIONAL_DOWNTIME_RATE : Q := 0.07.
Definition CNC_DOWNTIME_RATE : Q := 0.15.
Definition ANNUAL_WORKING_HOURS : Q := 2400.

(** *** [determine_duty_category] (lines 38-163) *)

(** The local helper [_bump]: [order[min(len(order) - 1, max(0, idx + steps))]].
    The argument is always one of the three entries of [order], so
    [order.index] finds it. *)
Definition _bump (d : DutyCategory) (steps : Z) : DutyCategory :=
  let order := [light; medium; heavy] in
  let idx := duty_index d in
  nth (Z.to_nat (Z.min (Z.of_nat (List.length order) - 1)
                       (Z.max 0 (idx + steps))))
      order light.

(** Lines 61-119: the thresholds by geometry; [None] is the [base is None]
    of the source. *)
Definition base_by_geometry (shape : string) (dimensions : dict)
    (op mat : string) : result (option DutyCategory) :=
  if (shape =? "rectangular")%string
     && all_in ["length"; "breadth"; "height"]%string dimensions
  then
    length <- subscript dimensions "length" ;;
    breadth <- subscript dimensions "breadth" ;;
    height <- subscript dimensions "height" ;;
    let max_dim := py_max3 length breadth height in
    Ok (Some (if max_dim <=? 750 then light
              else if max_dim <=? 1500 then medium
              else heavy))
  else if (shape =? "round")%string
          && all_in ["diameter"; "length"]%string dimensions
  then
    diameter <- subscript dimensions "diameter" ;;
    length <- subscript dimensions "length" ;;
    Ok (Some (
      if str_in op ["turning"; "boring"]%string then
        if (mat =? "aluminium")%string then
          if (diameter <? 80) && (length <? 500) then light
          else if (diameter <=? 150) && (length <=? 1000) then medium
          else heavy
        else if (mat =? "steel")%string then
          if (diameter <? 50) && (length <? 200) then light
          else if (diameter <=? 100) && (length <=? 500) then medium
          else heavy
        else if (mat =? "titanium")%string then
          if (diameter <? 30) && (length <? 150) then light
          else if (diameter <=? 60) && (length <=? 300) then medium
          else heavy
        else
          if (diameter <? 80) && (length <? 500) then light
          else if (diameter <=? 150) && (length <=? 1000) then medium
          else heavy
      else
        if (diameter <=? 100) && (length <=? 300) then light
        else if (diameter <=? 300) && (length <=? 1200) then medium
        else heavy))
  else Ok None.

Definition material_factor_table : list (string * Q) :=
  [("aluminium", 1.0); ("steel", 3.0); ("titanium", 1.7)]%string.

Definition operation_factor_table : list (string * Q) :=
  [("turning", 1.0); ("milling", 1.5); ("drilling", 0.8);
   ("grinding", 1.2); ("boring", 1.3); ("heat_treatment", 2.0);
   ("welding", 1.8); ("surface_treatment", 1.0)]%string.

(** Lines 121-152: the volume heuristic taken when no threshold rule
    applied. *)
Definition base_by_volume (shape : string) (dimensions : dict)
    (op mat : string) : result DutyCategory :=
  volume <-
    (if (shape =? "round")%string then
       diameter <- subscript dimensions "diameter" ;;
       length <- subscript dimensions "length" ;;
       Ok (3.14159 * (diameter / 2) ^ 2 * length)
     else
       length <- subscript dimensions "length" ;;
       breadth <- subscript dimensions "breadth" ;;
       height <- subscript dimensions "height" ;;
       Ok (length * breadth * height)) ;;
  let material_factor := get_default material_factor_table mat 1.0 in
  let operation_factor := get_default operation_factor_table op 1.0 in
  let score := (volume / 1000000) * material_factor * operation_factor in
  Ok (if score <? 5 then light
      else if score <? 20 then medium
      else heavy).

(** Lines 154-161: the material and operation adjustments. *)
Definition adjust_duty (base : DutyCategory) (op mat : string)
    : DutyCategory :=
  let base :=
    if str_in mat ["steel"; "titanium"]%string then
      let base := _bump base (if duty_eqb base light then 1 else 0) in
      if (mat =? "titanium")%string && duty_eqb base medium
      then _bump base 1
      else base
    else base in
  if str_in op ["heat_treatment"; "welding"]%string
  then _bump base 1
  else base.

Definition determine_duty_category (shape : string) (dimensions : dict)
    (material operation : string) : result DutyCategory :=
  let op := lower (strip operation) in
  let mat := lower (strip material) in
  geo <- base_by_geometry shape dimensions op mat ;;
  base <- match geo with
          | Some b => Ok b
          | None => base_by_volume shape dimensions op mat
          end ;;
  Ok (adjust_duty base op mat).

(** *** [determine_machine_category] (lines 244-258) *)
Definition determine_machine_category (machine_name : string) : string :=
  let name_lower := lower machine_name in
  if contains "cnc" name_lower || contains "precision" name_lower then
    if contains "5" name_lower || contains "five" name_lower
       || contains "5 axis" name_lower || contains "5-axis" name_lower
    then "cnc_5axis"
    else "cnc_3axis"
  else if contains "spm" name_lower || contains "special" name_lower then
    "spm"
  else "conventional".

(** *** [get_wage_rate] (lines 260-272) *)
Definition get_wage_rate (machine_name : string) : Q :=
  let category := determine_machine_category machine_name in
  let monthly :=
    if (category =? "conventional")%string
    then CONVENTIONAL_OPERATOR_MONTHLY_WAGE
    else CNC_OPERATOR_MONTHLY_WAGE in
  monthly / HOURS_PER_MONTH_FOR_WAGE.

(** *** [calculate_complete_machine_hour_rate] (lines 274-315) *)
Definition calculate_complete_machine_hour_rate (investment_cost : Q)
    (power_rating_kw : Q) (machine_category : string)
    (available_hours_per_annum : option Q) : Q :=
  let available_hours_per_annum :=
    match available_hours_per_annum with
    | None => ANNUAL_WORKING_HOURS
    | Some h => h
    end in
  let downtime_rate :=
    if (lower machine_category =? "conventional")%string
    then CONVENTIONAL_DOWNTIME_RATE
    else CNC_DOWNTIME_RATE in
  let utilization_hours := available_hours_per_annum * (1 - downtime_rate) in
  let power_charges_per_hour := power_rating_kw * POWER_RATE_PER_UNIT in
  let depreciation_cost_per_hour :=
    (investment_cost * ANNUAL_DEPRECIATION_RATE) / utilization_hours in
  let machine_utilization_cost_per_hour :=
    depreciation_cost_per_hour + power_charges_per_hour in
  let total_machine_hour_rate :=
    machine_utilization_cost_per_hour * (1 + MAINTENANCE_RATE) in
  total_machine_hour_rate.


(** *** The reference store ([backend/models/models.py])

    Only the columns the service reads are kept. The text columns of
    [MHR] are nullable strings. *)

Record OperationTypeModel : Type := {
  OperationType_id : Z;
  OperationType_operation_name : string
}.

Record Machine : Type := {
  Machine_id : Z;
  Machine_name : string;
  Machine_op_id : option Z
}.

Record Duty : Type := {
  Duty_id : Z;
  Duty_name : string
}.

Record MHR : Type := {
  MHR_op_type_id : option Z;
  MHR_duty_id : option Z;
  MHR_machine_id : option Z;
  MHR_investment_cost : option string;
  MHR_elect_power_rating : option string;
  MHR_available_hrs_per_annum : option string;
  MHR_machine_hr_rate : option string
}.

(** The relationship attributes of an [MHR] row. *)
Inductive relationship : Type :=
| operation_type_of
| duty_of
| machine_of.

(** The queries the service issues. *)
Inductive query : Type :=
| MachineByName (name : string)
    (* db.query(Machine).filter(Machine.name == name).first() *)
| OperationByName (key : string)
    (* db.query(OperationTypeModel).filter(... == key).first() *)
| AllDuties
    (* db.query(Duty).all() *)
| MHRByIds (op_id du_id m_id : Z)
    (* db.query(MHR).filter(...).first() *)
| MHRCandidates (key : string)
    (* db.query(MHR).join(...).filter(... == key).all() *)
| Relationship (which : relationship) (rec : MHR).
    (* rec.operation_type, rec.duty, rec.machine *)

Record Session : Type := {
  operation_type_table : list OperationTypeModel;
  machines_table : list Machine;
  duties_table : list Duty;
  mhr_table : list MHR;
  fails : query -> bool
}.

(** A query either raises the driver's error or delivers its answer. *)
Definition run {A : Type} (db : Session) (q : query) (answer : A)
    : result A :=
  if fails db q then Raise OperationalError else Ok answer.

Definition opt_Z_eqb (a : option Z) (b : Z) : bool :=
  match a with
  | Some x => Z.eqb x b
  | None => false
  end.

(** SQL [trim] removes blanks, SQL [lower] folds the ASCII letters. *)
Definition sql_trim (s : string) : string :=
  rstrip_by (Ascii.eqb " ") (lstrip_by (Ascii.eqb " ") s).

Definition sql_lower (s : string) : string := lower s.

Definition operation_by_id (db : Session) (i : option Z)
    : option OperationTypeModel :=
  find (fun r => opt_Z_eqb i (OperationType_id r)) (operation_type_table db).

Definition duty_by_id (db : Session) (i : option Z) : option Duty :=
  find (fun r => opt_Z_eqb i (Duty_id r)) (duties_table db).

Definition machine_by_id (db : Session) (i : option Z) : option Machine :=
  find (fun r => opt_Z_eqb i (Machine_id r)) (machines_table db).

(** [db.query(Machine).filter(Machine.name == machine_name).first()] *)
Definition query_machine_by_name (db : Session) (machine_name : string)
    : result (option Machine) :=
  run db (MachineByName machine_name)
    (find (fun m => (Machine_name m =? machine_name)%string)
          (machines_table db)).

(** [db.query(OperationTypeModel)
       .filter(func.lower(func.trim(operation_name)) == key).first()] *)
Definition query_operation_by_name (db : Session) (key : string)
    : result (option OperationTypeModel) :=
  run db (OperationByName key)
    (find (fun r =>
             (sql_lower (sql_trim (OperationType_operation_name r)) =? key)%string)
          (operation_type_table db)).

(** [db.query(Duty).all()] *)
Definition query_all_duties (db : Session) : result (list Duty) :=
  run db AllDuties (duties_table db).

(** [db.query(MHR).filter(MHR.op_type_id == op_id, MHR.duty_id == du_id,
                          MHR.machine_id == m_id).first()] *)
Definition query_mhr_by_ids (db : Session) (op_id du_id m_id : Z)
    : result (option MHR) :=
  run db (MHRByIds op_id du_id m_id)
    (find (fun r => opt_Z_eqb (MHR_op_type_id r) op_id
                    && opt_Z_eqb (MHR_duty_id r) du_id
                    && opt_Z_eqb (MHR_machine_id r) m_id)
          (mhr_table db)).

(** [db.query(MHR).join(OperationTypeModel, ...).join(Duty, ...)
      .join(Machine, ...).filter(func.lower(func.trim(operation_name)) == key)
      .all()]: the inner joins keep the rows whose three foreign keys
    resolve. *)
Definition query_mhr_candidates (db : Session) (key : string)
    : result (list MHR) :=
  run db (MHRCandidates key)
    (filter (fun r =>
               match operation_by_id db (MHR_op_type_id r),
                     duty_by_id db (MHR_duty_id r),
                     machine_by_id db (MHR_machine_id r) with
               | Some ot, Some _, Some _ =>
                   (sql_lower (sql_trim (OperationType_operation_name ot))
                    =? key)%string
               | _, _, _ => false
               end)
            (mhr_table db)).

(** The relationship attributes [rec.operation_type], [rec.duty] and
    [rec.machine]. *)
Definition rel_operation_type (db : Session) (rec : MHR)
    : result (option OperationTypeModel) :=
  run db (Relationship operation_type_of rec)
    (operation_by_id db (MHR_op_type_id rec)).

Definition rel_duty (db : Session) (rec : MHR) : result (option Duty) :=
  run db (Relationship duty_of rec) (duty_by_id db (MHR_duty_id rec)).

Definition rel_machine (db : Session) (rec : MHR)
    : result (option Machine) :=
  run db (Relationship machine_of rec)
    (machine_by_id db (MHR_machine_id rec)).

(** *** [get_machine_hour_rate] (lines 317-531) *)

(** The static table of [_methodology_inputs]:
    (investment, kW, available hours, downtime rate). *)
Definition methodology_table
    : list ((string * string * string) * (Q * Q * Q * Q)) :=
  [ (("turning", "light", "conventional"), (2000000, 5, 3600, CONVENTIONAL_DOWNTIME_RATE));
    (("turning", "light", "cnc"), (5000000, 12, 4500, CNC_DOWNTIME_RATE));
    (("turning", "medium", "conventional"), (3000000, 8, 3600, CONVENTIONAL_DOWNTIME_RATE));
    (("turning", "medium", "cnc"), (6000000, 15, 4500, CNC_DOWNTIME_RATE));
    (("turning", "heavy", "conventional"), (5000000, 12, 3600, CONVENTIONAL_DOWNTIME_RATE));
    (("turning", "heavy", "cnc"), (10000000, 20, 4500, CNC_DOWNTIME_RATE));
    (("milling", "light", "conventional"), (3000000, 8, 3600, CONVENTIONAL_DOWNTIME_RATE));
    (("milling", "light", "cnc"), (6000000, 15, 4500, CNC_DOWNTIME_RATE));
    (("milling", "medium", "conventional"), (5000000, 10, 3600, CONVENTIONAL_DOWNTIME_RATE));
    (("milling", "medium", "cnc"), (7000000, 20, 4500, CNC_DOWNTIME_RATE));
    (("milling", "heavy", "conventional"), (6000000, 15, 3600, CONVENTIONAL_DOWNTIME_RATE));
    (("milling", "heavy", "cnc"), (12000000, 30, 4500, CNC_DOWNTIME_RATE)) ]%string.

Definition key_eqb (a b : string * string * string) : bool :=
  let '(a1, a2, a3) := a in
  let '(b1, b2, b3) := b in
  ((a1 =? b1) && (a2 =? b2) && (a3 =? b3))%string.

Definition _category_bucket (cat : string) : string :=
  let c := lower (strip cat) in
  if startswith c "cnc" then "cnc"
  else if (c =? "spm")%string then "spm"
  else "conventional".

Definition _methodology_inputs (op du machine_cat : string)
    : option (Q * Q * Q * Q) :=
  let op_key := lower (strip op) in
  let du_key := lower (strip du) in
  let cat_key := _category_bucket machine_cat in
  option_map snd
    (find (fun kv => key_eqb (op_key, du_key, cat_key) (fst kv))
          methodology_table).

Definition _to_str (v : option string) : string :=
  match v with
  | None => ""
  | Some s => strip s
  end.

Definition _norm (s : option string) : string :=
  match s with
  | None => ""
  | Some s =>
      let out := lower (strip s) in
      let out := replace_char "_" " " out in
      let out := replace_char "-" " " out in
      let out := join " " (split out) in
      if endswith out " duty"
      then String.substring 0 (String.length out - String.length " duty") out
      else out
  end.

Definition MHR_NOT_CONFIGURED : string :=
  "MHR not configured for the selected operation, duty, and machine. "
  ++ "Please add a matching row in the MHR configuration table.".

Section MachineHourRate.

(** [float(s)] of Python on text: [None] stands for its [ValueError]. *)
Variable py_float : string -> option Q.

Variable db : Session.

Definition _to_float (v : option string) : option Q :=
  match v with
  | None => None
  | Some s => py_float (strip s)
  end.

Definition _to_float_or_none (v : option string) : option Q :=
  match v with
  | None => None
  | Some s => py_float (strip s)
  end.

Definition _calculate_mhr_from_record (machine_name : string) (rec : MHR)
    : option Q :=
  let inv := _to_float (MHR_investment_cost rec) in
  let kw := _to_float (MHR_elect_power_rating rec) in
  let avail := _to_float (MHR_available_hrs_per_annum rec) in
  let category := determine_machine_category machine_name in
  match inv, kw with
  | Some inv, Some kw =>
      let avail :=
        match avail with
        | None => ANNUAL_WORKING_HOURS
        | Some a => if a <=? 0 then ANNUAL_WORKING_HOURS else a
        end in
      let downtime_rate :=
        if (lower category =? "conventional")%string
        then CONVENTIONAL_DOWNTIME_RATE
        else CNC_DOWNTIME_RATE in
      let utilization_hours := avail * (1 - downtime_rate) in
      let power_charges_per_hour := kw * POWER_RATE_PER_UNIT in
      let depreciation_cost_per_hour :=
        (inv * ANNUAL_DEPRECIATION_RATE) / utilization_hours in
      let machine_utilization_cost_per_hour :=
        depreciation_cost_per_hour + power_charges_per_hour in
      let total_machine_hour_rate := machine_utilization_cost_per_hour in
      Some total_machine_hour_rate
  | _, _ => None
  end.

(** [_resolve_duty_id]: its own [try ... except] turns a failing query
    into [None]. *)
Definition _resolve_duty_id (d : string) : option Z :=
  let d_norm := _norm (Some d) in
  if negb (truthy d_norm) then None
  else
    match query_all_duties db with
    | Raise _ => None
    | Ok duties =>
        option_map Duty_id
          (find (fun du => (_norm (Some (Duty_name du)) =? d_norm)%string)
                duties)
    end.

(** What a found record yields (lines 465-471 and 517-523): the rate
    computed from its cost drivers, else its stored rate. *)
Definition rate_of_record (machine_name : string) (rec : MHR)
    : option Q :=
  match _calculate_mhr_from_record machine_name rec with
  | Some computed => Some computed
  | None => _to_float_or_none (MHR_machine_hr_rate rec)
  end.

(** Lines 433-441: the static methodology table. *)
Definition methodology_rate (operation duty machine_name : string)
    : option Q :=
  let machine_category := determine_machine_category machine_name in
  match _methodology_inputs operation duty machine_category with
  | Some (inv, kw, avail_hours, downtime_rate) =>
      let utilization_hours := avail_hours * (1 - downtime_rate) in
      let power_charges_per_hour := kw * POWER_RATE_PER_UNIT in
      let depreciation_cost_per_hour :=
        (inv * ANNUAL_DEPRECIATION_RATE) / utilization_hours in
      let machine_hour_rate :=
        depreciation_cost_per_hour + power_charges_per_hour in
      Some machine_hour_rate
  | None => None
  end.

(** Lines 443-471: the record with the three resolved identifiers. *)
Definition exact_record_rate (operation duty machine_name : string)
    (machine_id op_type_id duty_id : option Z) : result (option Q) :=
  op_id <-
    match op_type_id with
    | Some i => Ok (Some i)
    | None =>
        if truthy operation then
          op_row <- query_operation_by_name db (lower (strip operation)) ;;
          Ok (option_map OperationType_id op_row)
        else Ok None
    end ;;
  let du_id :=
    match duty_id with
    | Some i => Some i
    | None => _resolve_duty_id duty
    end in
  let m_id := machine_id in
  match op_id, du_id, m_id with
  | Some op_id, Some du_id, Some m_id =>
      rec <- query_mhr_by_ids db op_id du_id m_id ;;
      match rec with
      | Some rec => Ok (rate_of_record machine_name rec)
      | None => Ok None
      end
  | _, _, _ => Ok None
  end.

(** The body of the first [try] (lines 433-471): [Ok (Some b)] is
    [return b], [Ok None] is falling out of the block and [Raise e] an
    exception for its [except Exception]. *)
Definition first_try (operation duty machine_name : string)
    (machine_id op_type_id duty_id : option Z) : result (option Q) :=
  match methodology_rate operation duty machine_name with
  | Some b => Ok (Some b)
  | None =>
      exact_record_rate operation duty machine_name
                        machine_id op_type_id duty_id
  end.

(** The loop of lines 493-515 over the remaining candidates. *)
Fixpoint scan_candidates (op_norm duty_norm machine_norm : string)
    (candidates : list MHR) (best : option MHR) (best_score : Z)
    : result (option MHR) :=
  match candidates with
  | [] => Ok best
  | rec :: rest =>
      ot <- rel_operation_type db rec ;;
      let rec_op := _norm (option_map OperationType_operation_name ot) in
      du <- rel_duty db rec ;;
      let rec_duty := _norm (option_map Duty_name du) in
      if negb (rec_op =? op_norm)%string
         || negb (rec_duty =? duty_norm)%string
      then scan_candidates op_norm duty_norm machine_norm rest
                           best best_score
      else
        m <- rel_machine db rec ;;
        let rec_machine := _norm (option_map Machine_name m) in
        let score :=
          if (rec_machine =? machine_norm)%string then 2%Z
          else if truthy rec_machine && truthy machine_norm
                  && (contains rec_machine machine_norm
                      || contains machine_norm rec_machine)
          then 1%Z
          else 0%Z in
        let '(best, best_score) :=
          if (score >? best_score)%Z then (Some rec, score)
          else (best, best_score) in
        if (best_score =? 2)%Z then Ok best
        else scan_candidates op_norm duty_norm machine_norm rest
                             best best_score
  end.

(** The body of the second [try] (lines 478-523). *)
Definition second_try (operation duty machine_name : string)
    : result (option Q) :=
  let op_norm := _norm (Some operation) in
  let duty_norm := _norm (Some duty) in
  let machine_norm := _norm (Some machine_name) in
  candidates <- query_mhr_candidates db (lower (strip operation)) ;;
  best <- scan_candidates op_norm duty_norm machine_norm candidates
                          None (-1) ;;
  match best with
  | Some best => Ok (rate_of_record machine_name best)
  | None => Ok None
  end.

Definition get_machine_hour_rate (operation duty machine_name : string)
    (machine_id op_type_id duty_id : option Z) : result Q :=
  match first_try operation duty machine_name
                  machine_id op_type_id duty_id with
  | Ok (Some b) => Ok b
  | Ok None | Raise _ =>
      match second_try operation duty machine_name with
      | Ok (Some b) => Ok b
      | Ok None | Raise _ => Raise (ValueError MHR_NOT_CONFIGURED)
      end
  end.

(** *** [get_machine_hour_rate_with_fallback] (lines 533-570) *)
Definition get_machine_hour_rate_with_fallback
    (operation duty machine_name : string) : result Q :=
  match get_machine_hour_rate operation duty machine_name
                              None None None with
  | Ok b => Ok b
  | Raise (ValueError _) =>
      let machine_category := determine_machine_category machine_name in
      let '(investment_cost, power_rating_kw) :=
        if (machine_category =? "conventional")%string
        then (1000000, 15)
        else if (machine_category =? "cnc_3axis")%string
        then (3000000, 20)
        else (5000000, 25) in
      Ok (calculate_complete_machine_hour_rate
            investment_cost power_rating_kw machine_category None)
  | Raise e => Raise e
  end.

End MachineHourRate.

(** *** [get_machine_details] (lines 230-242) *)

Record MachineDetails : Type := {
  details_id : Z;
  details_name : string;
  details_operation_type_id : option Z
}.

Definition get_machine_details (db : Session) (machine_name : string)
    : result MachineDetails :=
  machine <- query_machine_by_name db machine_name ;;
  match machine with
  | None =>
      Raise (ValueError ("Machine with name '" ++ machine_name
                         ++ "' not found"))
  | Some machine =>
      Ok {| details_id := Machine_id machine;
            details_name := Machine_name machine;
            details_operation_type_id := Machine_op_id machine |}
  end.

(** *** [calculate_nrc_amortization] (lines 586-628) *)

Record NRCResult : Type := {
  total_nrc : Q;
  nrc_per_unit : Q;
  amortization_quantity : Z;
  tooling_cost : Q;
  development_cost : Q;
  cnc_programming_cost : Q;
  special_process_cost : Q;
  other_nrc_cost : Q
}.

Definition calculate_nrc_amortization
    (tooling development cnc_programming special_process other_nrc : Q)
    (ordered_quantity : Z) (amortize_over_quantity : option Z)
    : NRCResult :=
  let total := tooling + development + cnc_programming
               + special_process + other_nrc in
  let quantity :=
    (* [amortize_over_quantity if amortize_over_quantity else
       ordered_quantity]: [None] and [0] are the false values *)
    match amortize_over_quantity with
    | Some n => if (n =? 0)%Z then ordered_quantity else n
    | None => ordered_quantity
    end in
  let per_unit :=
    if (quantity >? 0)%Z then total / inject_Z quantity else 0 in
  {| total_nrc := py_round total 2;
     nrc_per_unit := py_round per_unit 2;
     amortization_quantity := quantity;
     tooling_cost := py_round tooling 2;
     development_cost := py_round development 2;
     cnc_programming_cost := py_round cnc_programming 2;
     special_process_cost := py_round special_process 2;
     other_nrc_cost := py_round other_nrc 2 |}.

(** *** [calculate_material_cost] (lines 630-686) *)

Record MaterialCost : Type := {
  material_cost_per_unit : Q;
  material_weight_kg : Q;
  volume_cm3 : option Q;
  density_g_cm3 : option Q;
  is_free_issue : bool
}.

Definition densities : list (string * Q) :=
  [("aluminium", 2.70); ("steel", 7.85); ("titanium", 4.51);
   ("copper", 8.96); ("brass", 8.50)]%string.

Definition calculate_material_cost (material : string) (dimensions : dict)
    (shape : string) (material_cost_per_kg : Q) (is_hal_free_issue : bool)
    : result MaterialCost :=
  if is_hal_free_issue then
    Ok {| material_cost_per_unit := 0;
          material_weight_kg := 0;
          volume_cm3 := None;
          density_g_cm3 := None;
          is_free_issue := true |}
  else
    volume_mm3 <-
      (if (shape =? "round")%string
          && all_in ["diameter"; "length"]%string dimensions
       then
         diameter <- subscript dimensions "diameter" ;;
         length <- subscript dimensions "length" ;;
         Ok (3.14159 * (diameter / 2) ^ 2 * length)
       else if (shape =? "rectangular")%string
               && all_in ["length"; "breadth"; "height"]%string dimensions
       then
         length <- subscript dimensions "length" ;;
         breadth <- subscript dimensions "breadth" ;;
         height <- subscript dimensions "height" ;;
         Ok (length * breadth * height)
       else Ok 0) ;;
    let volume := volume_mm3 / 1000 in
    let density := get_default densities (lower material) 7.85 in
    let weight_kg := (volume * density) / 1000 in
    let cost_per_unit := weight_kg * material_cost_per_kg in
    Ok {| material_cost_per_unit := py_round cost_per_unit 2;
          material_weight_kg := py_round weight_kg 3;
          volume_cm3 := Some (py_round volume 3);
          density_g_cm3 := Some density;
          is_free_issue := false |}.

(** *** [calculate_costs] (lines 782-844) *)

Record Costs : Type := {
  man_hours_per_unit : Q;
  machine_hour_rate : Q;
  wage_rate : Q;
  basic_cost_per_unit : Q;
  overheads_per_unit : Q;
  profit_per_unit : Q;
  packing_forwarding_per_unit : Q;
  unit_cost : Q;
  total_unit_cost_with_misc : Q;
  total_cost : Q;
  outsourcing_mhr : Q;
  miscellaneous_amount : Q
}.

(** Lines 808-829: the local variables of [calculate_costs], before the
    returned dictionary rounds them. *)
Definition cost_components (man_hours machine_hour_rate wage_rate : Q)
    (quantity : Z) (miscellaneous_amount : Q) : Costs :=
  let basic_cost := man_hours * (machine_hour_rate + wage_rate) in
  let overheads := wage_rate * man_hours in
  let profit := 0.10 * (basic_cost + overheads) in
  let packing_forwarding := 0.02 * basic_cost in
  let unit_cost := basic_cost + overheads + profit + packing_forwarding in
  let total_unit_cost_with_misc := unit_cost + miscellaneous_amount in
  let total_cost := total_unit_cost_with_misc * inject_Z quantity in
  let outsourcing_mhr := machine_hour_rate + (2 * wage_rate) in
  {| man_hours_per_unit := man_hours;
     machine_hour_rate := machine_hour_rate;
     wage_rate := wage_rate;
     basic_cost_per_unit := basic_cost;
     overheads_per_unit := overheads;
     profit_per_unit := profit;
     packing_forwarding_per_unit := packing_forwarding;
     unit_cost := unit_cost;
     total_unit_cost_with_misc := total_unit_cost_with_misc;
     total_cost := total_cost;
     outsourcing_mhr := outsourcing_mhr;
     miscellaneous_amount := miscellaneous_amount |}.

(** Lines 831-844: the returned dictionary. *)
Definition rounded (c : Costs) : Costs :=
  {| man_hours_per_unit := py_round (man_hours_per_unit c) 4;
     machine_hour_rate := py_round (machine_hour_rate c) 2;
     wage_rate := py_round (wage_rate c) 2;
     basic_cost_per_unit := py_round (basic_cost_per_unit c) 2;
     overheads_per_unit := py_round (overheads_per_unit c) 2;
     profit_per_unit := py_round (profit_per_unit c) 2;
     packing_forwarding_per_unit :=
       py_round (packing_forwarding_per_unit c) 2;
     unit_cost := py_round (unit_cost c) 2;
     total_unit_cost_with_misc :=
       py_round (total_unit_cost_with_misc c) 2;
     total_cost := py_round (total_cost c) 2;
     outsourcing_mhr := py_round (outsourcing_mhr c) 2;
     miscellaneous_amount := py_round (miscellaneous_amount c) 2 |}.

Definition calculate_costs (man_hours machine_hour_rate wage_rate : Q)
    (quantity : Z) (miscellaneous_amount : Q) : Costs :=
  rounded (cost_components man_hours machine_hour_rate wage_rate
                           quantity miscellaneous_amount).

(** *** [select_machine] (lines 165-228) *)

Definition machine_names : list (string * list (string * string)) :=
  [ ("turning",
     [ ("conventional", "Conventional Lathe");
       ("cnc_3axis", "CNC Lathe");
       ("cnc_5axis", "CNC Lathe");
       ("spm", "Special Purpose Lathe") ]);
    ("milling",
     [ ("conventional", "Conv.Milling");
       ("cnc_3axis", "CNC Mill");
       ("cnc_5axis", "5 axis cnc");
       ("spm", "Special Purpose Machine (SPM)") ]);
    ("drilling",
     [ ("conventional", "Conventional Drill Press");
       ("cnc_3axis", "CNC Drilling Machine");
       ("cnc_5axis", "CNC Multi-Axis Drill");
       ("spm", "Special Purpose Drill") ]);
    ("grinding",
     [ ("conventional", "Conventional");
       ("cnc_3axis", "CNC");
       ("cnc_5axis", "Special Purpose Machine(SPM)");
       ("spm", "Special Purpose Grinder") ]);
    ("boring",
     [ ("conventional", "Small (less than 650 MMX 650 MM)");
       ("cnc_3axis", "CNC");
       ("cnc_5axis", "Medium (more than 650 MMX 650 MM)");
       ("spm", "Special Purpose Boring") ]) ]%string.

(** The category chosen when none is supplied (lines 180-186). *)
Definition auto_category (duty material : string) : string :=
  if (duty =? "heavy")%string || (material =? "titanium")%string
  then "cnc_5axis"
  else if (duty =? "medium")%string then "cnc_3axis"
  else "conventional".

Definition select_machine (operation duty material : string)
    (machine_category : option string) : string * string :=
  let category :=
    match machine_category with
    | Some c => if truthy c then c else auto_category duty material
    | None => auto_category duty material
    end in
  let machine_name :=
    get_default (get_default machine_names operation [])
                category (upper category ++ " Machine")%string in
  (machine_name, category).

(** *** [calculate_man_hours] (lines 572-584) *)

Definition MAN_HOURS_MATRIX : list (string * list (string * Q)) :=
  [ ("turning", [("light", 0.25); ("medium", 0.5); ("heavy", 1.0)]);
    ("milling", [("light", 0.5); ("medium", 1.0); ("heavy", 2.0)]);
    ("drilling", [("light", 0.15); ("medium", 0.3); ("heavy", 0.6)]);
    ("grinding", [("light", 0.3); ("medium", 0.6); ("heavy", 1.2)]);
    ("boring", [("light", 0.4); ("medium", 0.8); ("heavy", 1.5)]);
    ("heat_treatment", [("light", 0.5); ("medium", 1.0); ("heavy", 2.0)]);
    ("welding", [("light", 0.3); ("medium", 0.6); ("heavy", 1.2)]);
    ("surface_treatment", [("light", 0.2); ("medium", 0.4); ("heavy", 0.8)])
  ]%string.

Definition calculate_man_hours (operation duty : string)
    (override : option Q) : Q :=
  let tabulated :=
    get_default (get_default MAN_HOURS_MATRIX operation []) duty 0.5 in
  match override with
  | Some o => if Qeq_bool o 0 then tabulated else o   (* [if override:] *)
  | None => tabulated
  end.

(** *** [calculate_enhanced_costs] (lines 688-780) *)

(** The keyword arguments [nrc_data] can carry for
    [calculate_nrc_amortization]; [None] is an absent key. *)
Record NRCData : Type := {
  nd_tooling_cost : option Q;
  nd_development_cost : option Q;
  nd_cnc_programming_cost : option Q;
  nd_special_process_cost : option Q;
  nd_other_nrc_cost : option Q;
  nd_ordered_quantity : option Z;
  nd_amortize_over_quantity : option Z
}.

(** The keyword arguments of [material_data] for [calculate_material_cost];
    only [is_hal_free_issue] has a default. *)
Record MaterialData : Type := {
  md_material : string;
  md_dimensions : dict;
  md_shape : string;
  md_material_cost_per_kg : Q;
  md_is_hal_free_issue : option bool
}.

Definition is_some {A : Type} (v : option A) : bool :=
  match v with Some _ => true | None => false end.

(** Truthiness of the dictionary [nrc_data]: it has at least one key. *)
Definition nrc_data_truthy (nd : NRCData) : bool :=
  is_some (nd_tooling_cost nd) || is_some (nd_development_cost nd)
  || is_some (nd_cnc_programming_cost nd)
  || is_some (nd_special_process_cost nd)
  || is_some (nd_other_nrc_cost nd) || is_some (nd_ordered_quantity nd)
  || is_some (nd_amortize_over_quantity nd).

Definition or_default {A : Type} (v : option A) (default : A) : A :=
  match v with Some x => x | None => default end.

(** [self.calculate_nrc_amortization( **nrc_data )] *)
Definition call_nrc (nd : NRCData) : NRCResult :=
  calculate_nrc_amortization
    (or_default (nd_tooling_cost nd) 0)
    (or_default (nd_development_cost nd) 0)
    (or_default (nd_cnc_programming_cost nd) 0)
    (or_default (nd_special_process_cost nd) 0)
    (or_default (nd_other_nrc_cost nd) 0)
    (or_default (nd_ordered_quantity nd) 1%Z)
    (nd_amortize_over_quantity nd).

(** [self.calculate_material_cost( **material_data )] *)
Definition call_material (md : MaterialData) : result MaterialCost :=
  calculate_material_cost (md_material md) (md_dimensions md) (md_shape md)
    (md_material_cost_per_kg md)
    (or_default (md_is_hal_free_issue md) false).

Record EnhancedCosts : Type := {
  enh_total_man_hours_per_unit : Q;
  enh_total_machine_cost_per_unit : Q;
  enh_total_labor_cost_per_unit : Q;
  enh_basic_cost_per_unit : Q;
  enh_overheads_per_unit : Q;
  enh_profit_per_unit : Q;
  enh_packing_forwarding_per_unit : Q;
  enh_nrc_per_unit : Q;
  enh_material_cost_per_unit : Q;
  enh_unit_cost_before_extras : Q;
  enh_total_unit_cost : Q;
  enh_total_cost : Q;
  enh_outsourcing_mhr : Q;
  enh_miscellaneous_amount : Q
}.

(** The two accumulators of the loop of lines 715-721. *)
Definition accumulate_operation (acc : Q * Q) (op_data : dict) : Q * Q :=
  let man_hours := get_default op_data "man_hours" 0 in
  let machine_hour_rate := get_default op_data "machine_hour_rate" 0 in
  let wage_rate := get_default op_data "wage_rate" 0 in
  (fst acc + man_hours * machine_hour_rate, snd acc + man_hours * wage_rate).

(** [sum(op.get("man_hours", 0.0) for op in operations_data)] *)
Definition sum_man_hours (operations_data : list dict) : Q :=
  fold_left (fun acc op => acc + get_default op "man_hours" 0)
            operations_data 0.

(** Lines 712-763: the local variables before the returned dictionary
    rounds them. *)
Definition enhanced_components (operations_data : list dict) (quantity : Z)
    (miscellaneous : Q) (nrc_data : option NRCData)
    (material_data : option MaterialData) : result EnhancedCosts :=
  let '(total_machine_cost, total_labor_cost) :=
    fold_left accumulate_operation operations_data (0, 0) in
  let basic_cost := total_machine_cost + total_labor_cost in
  let overheads := total_labor_cost in
  let profit := 0.10 * (basic_cost + overheads) in
  let packing_forwarding := 0.02 * basic_cost in
  let nrc :=
    match nrc_data with
    | Some nd => if nrc_data_truthy nd then nrc_per_unit (call_nrc nd) else 0
    | None => 0
    end in
  material <-
    match material_data with
    | Some md =>
        material_result <- call_material md ;;
        Ok (material_cost_per_unit material_result)
    | None => Ok 0
    end ;;
  let unit := basic_cost + overheads + profit + packing_forwarding in
  let total_unit_cost := unit + nrc + material + miscellaneous in
  let total := total_unit_cost * inject_Z quantity in
  let total_man_hours := sum_man_hours operations_data in
  let avg_machine_hour_rate :=
    if 0 <? total_man_hours then total_machine_cost / total_man_hours
    else 0 in
  let avg_wage_rate :=
    if 0 <? total_man_hours then total_labor_cost / total_man_hours
    else 0 in
  let outsourcing := avg_machine_hour_rate + (2 * avg_wage_rate) in
  Ok {| enh_total_man_hours_per_unit := total_man_hours;
        enh_total_machine_cost_per_unit := total_machine_cost;
        enh_total_labor_cost_per_unit := total_labor_cost;
        enh_basic_cost_per_unit := basic_cost;
        enh_overheads_per_unit := overheads;
        enh_profit_per_unit := profit;
        enh_packing_forwarding_per_unit := packing_forwarding;
        enh_nrc_per_unit := nrc;
        enh_material_cost_per_unit := material;
        enh_unit_cost_before_extras := unit;
        enh_total_unit_cost := total_unit_cost;
        enh_total_cost := total;
        enh_outsourcing_mhr := outsourcing;
        enh_miscellaneous_amount := miscellaneous |}.

(** Lines 765-780: the returned dictionary. *)
Definition enhanced_rounded (c : EnhancedCosts) : EnhancedCosts :=
  {| enh_total_man_hours_per_unit :=
       py_round (enh_total_man_hours_per_unit c) 4;
     enh_total_machine_cost_per_unit :=
       py_round (enh_total_machine_cost_per_unit c) 2;
     enh_total_labor_cost_per_unit :=
       py_round (enh_total_labor_cost_per_unit c) 2;
     enh_basic_cost_per_unit := py_round (enh_basic_cost_per_unit c) 2;
     enh_overheads_per_unit := py_round (enh_overheads_per_unit c) 2;
     enh_profit_per_unit := py_round (enh_profit_per_unit c) 2;
     enh_packing_forwarding_per_unit :=
       py_round (enh_packing_forwarding_per_unit c) 2;
     enh_nrc_per_unit := py_round (enh_nrc_per_unit c) 2;
     enh_material_cost_per_unit :=
       py_round (enh_material_cost_per_unit c) 2;
     enh_unit_cost_before_extras :=
       py_round (enh_unit_cost_before_extras c) 2;
     enh_total_unit_cost := py_round (enh_total_unit_cost c) 2;
     enh_total_cost := py_round (enh_total_cost c) 2;
     enh_outsourcing_mhr := py_round (enh_outsourcing_mhr c) 2;
     enh_miscellaneous_amount :=
       py_round (enh_miscellaneous_amount c) 2 |}.

Definition calculate_enhanced_costs (operations_data : list dict)
    (quantity : Z) (miscellaneous : Q) (nrc_data : option NRCData)
    (material_data : option MaterialData) : result EnhancedCosts :=
  c <- enhanced_components operations_data quantity miscellaneous
                           nrc_data material_data ;;
  Ok (enhanced_rounded c).

End CostCalculationService.

(** * The request schema ([backend/schemas/cost_schemas.py]) *)

Module Schemas.

Inductive MaterialType : Type := ALUMINIUM | STEEL | TITANIUM.

Definition MaterialType_value (m : MaterialType) : string :=
  match m with
  | ALUMINIUM => "aluminium"
  | STEEL => "steel"
  | TITANIUM => "titanium"
  end.

Inductive OperationType : Type :=
| TURNING | MILLING | DRILLING | GRINDING | BORING
| HEAT_TREATMENT | WELDING | SURFACE_TREATMENT.

Definition OperationType_value (o : OperationType) : string :=
  match o with
  | TURNING => "turning"
  | MILLING => "milling"
  | DRILLING => "drilling"
  | GRINDING => "grinding"
  | BORING => "boring"
  | HEAT_TREATMENT => "heat_treatment"
  | WELDING => "welding"
  | SURFACE_TREATMENT => "surface_treatment"
  end.

(** [ComponentDimensions]: [length] is required, the other three fields
    are optional; every field that is present is [> 0] ([Field(gt=0)]). *)
Record ComponentDimensions : Type := {
  diameter : option Q;
  length : Q;
  breadth : option Q;
  height : option Q
}.

Definition positive_if_present (v : option Q) : Prop :=
  match v with
  | Some x => (0 < x)%Q
  | None => True
  end.

Definition well_formed (v : ComponentDimensions) : Prop :=
  positive_if_present (diameter v) /\ (0 < length v)%Q
  /\ positive_if_present (breadth v) /\ positive_if_present (height v).

Definition is_none {A : Type} (v : option A) : bool :=
  match v with
  | None => true
  | Some _ => false
  end.

Definition is_not_none {A : Type} (v : option A) : bool := negb (is_none v).

(** [CostEstimationRequest.validate_dimensions_by_operation] (lines 85-126);
    [operation] is [info.data.get('operation_type')]. *)
Definition validate_dimensions_by_operation (operation : option OperationType)
    (v : ComponentDimensions) : result ComponentDimensions :=
  match operation with
  | None => Ok v
  | Some operation =>
      let value := OperationType_value operation in
      let round_operations := ["turning"; "boring"] in
      let rectangular_operations :=
        ["milling"; "grinding"; "surface_treatment"] in
      if str_in value round_operations then
        if is_none (diameter v) then
          Raise (ValueError ("For " ++ value
                             ++ " operation, 'diameter' is required"))
        else if is_not_none (breadth v) || is_not_none (height v) then
          Raise (ValueError ("For " ++ value
            ++ " operation, only 'diameter' and 'length' are needed (round part)"))
        else Ok v
      else if str_in value rectangular_operations then
        if is_none (breadth v) || is_none (height v) then
          Raise (ValueError ("For " ++ value
            ++ " operation, 'length', 'breadth', and 'height' are required"))
        else if is_not_none (diameter v) then
          Raise (ValueError ("For " ++ value
            ++ " operation, only 'length', 'breadth', and 'height' are needed (rectangular part)"))
        else Ok v
      else
        let has_round := is_not_none (diameter v) in
        let has_rectangular :=
          is_not_none (breadth v) && is_not_none (height v) in
        if negb (has_round || has_rectangular) then
          Raise (ValueError ("For " ++ value
            ++ " operation, provide either (diameter + length) for round parts OR (length + breadth + height) for rectangular parts"))
        else if has_round && has_rectangular then
          Raise (ValueError ("For " ++ value
            ++ " operation, provide EITHER round dimensions (diameter + length) OR rectangular dimensions (length + breadth + height), not both"))
        else Ok v
  end.

Record CostEstimationRequest : Type := {
  material : MaterialType;
  operation_type : OperationType;
  dimensions : ComponentDimensions;
  machine_name : string;
  man_hours_per_unit : Q;
  duty_category : option DutyCategory;
  miscellaneous_amount : option Q
}.

(** [CostBreakdown]: the dictionary of [calculate_costs] without its
    [total_cost] entry. *)
Record CostBreakdown : Type := {
  cb_man_hours_per_unit : Q;
  cb_machine_hour_rate : Q;
  cb_wage_rate : Q;
  cb_basic_cost_per_unit : Q;
  cb_overheads_per_unit : Q;
  cb_profit_per_unit : Q;
  cb_packing_forwarding_per_unit : Q;
  cb_unit_cost : Q;
  cb_total_unit_cost_with_misc : Q;
  cb_outsourcing_mhr : Q;
  cb_miscellaneous_amount : Q
}.

(** [CostEstimationResponse], without the textual [calculation_steps]. *)
Record CostEstimationResponse : Type := {
  resp_duty_category : DutyCategory;
  resp_selected_machine : CostCalculationService.MachineDetails;
  resp_machine_category : string;
  resp_shape : string;
  resp_dimensions : dict;
  resp_volume : Q;
  resp_cost_breakdown : CostBreakdown;
  resp_material : MaterialType;
  resp_operation_type : OperationType
}.

End Schemas.

(** * The estimation route ([backend/routes/cost_estimation.py]) *)

Module Routes.

Import CostCalculationService Schemas.
Local Open Scope Q_scope.

(** [str(e)] for the exceptions that can reach the route. *)
Definition exn_str (e : exn) : string :=
  match e with
  | ValueError msg => msg
  | KeyError key => "'" ++ key ++ "'"
  | OperationalError => "OperationalError"
  | HTTPException _ detail => detail
  end.

Definition pop_total_cost (c : Costs) : CostBreakdown :=
  {| cb_man_hours_per_unit := CostCalculationService.man_hours_per_unit c;
     cb_machine_hour_rate := machine_hour_rate c;
     cb_wage_rate := wage_rate c;
     cb_basic_cost_per_unit := basic_cost_per_unit c;
     cb_overheads_per_unit := overheads_per_unit c;
     cb_profit_per_unit := profit_per_unit c;
     cb_packing_forwarding_per_unit := packing_forwarding_per_unit c;
     cb_unit_cost := unit_cost c;
     cb_total_unit_cost_with_misc := total_unit_cost_with_misc c;
     cb_outsourcing_mhr := outsourcing_mhr c;
     cb_miscellaneous_amount := CostCalculationService.miscellaneous_amount c |}.

(** [x or 0.0] on an optional amount *)
Definition or_zero (x : option Q) : Q :=
  match x with
  | Some v => if Qeq_bool v 0 then 0 else v
  | None => 0
  end.

(** [calculate_cost_estimation] (lines 88-230) *)
Definition calculate_cost_estimation (py_float : string -> option Q)
    (db : Session) (request : CostEstimationRequest)
    : result CostEstimationResponse :=
  (* Step 1 *)
  machine_details <-
    match get_machine_details db (Schemas.machine_name request) with
    | Raise (ValueError msg) => Raise (HTTPException 404 msg)
    | r => r
    end ;;
  let machine_name := details_name machine_details in
  (* Step 2 *)
  let machine_category := determine_machine_category machine_name in
  (* shape detection *)
  let dims := dimensions request in
  shape_dims_volume <-
    match diameter dims with
    | Some d =>
        Ok ("round",
            [("diameter", d); ("length", length dims)],
            3.14159 * (d / 2) ^ 2 * length dims)
    | None =>
        match breadth dims, height dims with
        | Some b, Some h =>
            Ok ("rectangular",
                [("length", length dims); ("breadth", b); ("height", h)],
                length dims * b * h)
        | _, _ =>
            Raise (HTTPException 400
              ("Invalid dimensions. Provide either (diameter + length) "
               ++ "for round parts OR (length + breadth + height) "
               ++ "for rectangular parts"))
        end
    end ;;
  let '(shape, dimensions_dict, volume) := shape_dims_volume in
  (* Step 3 *)
  duty <-
    match duty_category request with
    | Some d => Ok d
    | None =>
        determine_duty_category shape dimensions_dict
          (MaterialType_value (material request))
          (OperationType_value (operation_type request))
    end ;;
  (* Step 4 *)
  machine_hour_rate <-
    match get_machine_hour_rate_with_fallback py_float db
            (OperationType_value (operation_type request))
            (duty_value duty) machine_name with
    | Ok b => Ok b
    | Raise e => Raise (HTTPException 400 (exn_str e))
    end ;;
  (* Step 5 *)
  let wage_rate := get_wage_rate machine_name in
  (* Step 6 *)
  let man_hours := Schemas.man_hours_per_unit request in
  (* Step 7 *)
  let cost_breakdown :=
    calculate_costs man_hours machine_hour_rate wage_rate 1
                    (or_zero (Schemas.miscellaneous_amount request)) in
  Ok {| resp_duty_category := duty;
        resp_selected_machine := machine_details;
        resp_machine_category := machine_category;
        resp_shape := shape;
        resp_dimensions := dimensions_dict;
        resp_volume := py_round volume 2;
        resp_cost_breakdown := pop_total_cost cost_breakdown;
        resp_material := material request;
        resp_operation_type := operation_type request |}.

(** [quick_estimate] (lines 386-439) *)

Record QuickEstimate : Type := {
  qe_machine : string;
  qe_duty : string;
  qe_quantity : Z;
  qe_unit_cost : Q;
  qe_total_cost : Q;
  qe_details : Costs
}.

Definition quick_estimate (py_float : string -> option Q) (db : Session)
    (operation duty : string) (quantity : Z) : result QuickEstimate :=
  let '(machine_name, machine_category) :=
    select_machine operation duty "steel" None in
  machine_details <-
    match get_machine_details db machine_name with
    | Raise (ValueError msg) => Raise (HTTPException 404 msg)
    | r => r
    end ;;
  machine_hour_rate <-
    match get_machine_hour_rate_with_fallback py_float db
            operation duty machine_name with
    | Ok b => Ok b
    | Raise e => Raise (HTTPException 400 (exn_str e))
    end ;;
  let wage_rate := get_wage_rate machine_name in
  let man_hours := calculate_man_hours operation duty None in
  let cost_breakdown :=
    calculate_costs man_hours machine_hour_rate wage_rate quantity 0 in
  Ok {| qe_machine := machine_name;
        qe_duty := duty;
        qe_quantity := quantity;
        qe_unit_cost := unit_cost cost_breakdown;
        qe_total_cost := total_cost cost_breakdown;
        qe_details := cost_breakdown |}.

(** A float division, which raises on a zero divisor. *)
Inductive arith (A : Type) : Type :=
| Computed (a : A)
| ZeroDivisionError.

Arguments Computed {A} a.
Arguments ZeroDivisionError {A}.

Definition py_div (x y : Q) : arith Q :=
  if Qeq_bool y 0 then ZeroDivisionError else Computed (x / y).

(** The numeric entries of the dictionaries the two MHR calculators
    return. *)
Record MHRReport : Type := {
  rep_machine_hour_rate : Q;
  rep_available_hours : Q;
  rep_downtime_rate : Q;
  rep_downtime_hours : Q;
  rep_utilization_hours : Q;
  rep_power_charges : Q;
  rep_depreciation_per_hour : Q;
  rep_machine_utilization_cost : Q
}.

(** [calculate_complete_mhr] (lines 294-339 of [routes/cost_estimation.py]) *)
Definition calculate_complete_mhr (investment_cost power_rating_kw : Q)
    (machine_category : string) (available_hours_per_annum : option Q)
    : arith MHRReport :=
  let available_hours :=
    (* [request.available_hours_per_annum or service.ANNUAL_WORKING_HOURS] *)
    match available_hours_per_annum with
    | Some h => if Qeq_bool h 0 then ANNUAL_WORKING_HOURS else h
    | None => ANNUAL_WORKING_HOURS
    end in
  let downtime_rate :=
    if (machine_category =? "conventional")%string
    then CONVENTIONAL_DOWNTIME_RATE
    else CNC_DOWNTIME_RATE in
  let downtime_hours := available_hours * downtime_rate in
  let utilization_hours := available_hours - downtime_hours in
  let power_charges := power_rating_kw * POWER_RATE_PER_UNIT in
  match py_div (investment_cost * ANNUAL_DEPRECIATION_RATE)
               utilization_hours with
  | ZeroDivisionError => ZeroDivisionError
  | Computed depreciation_per_hour =>
      let machine_utilization_cost := depreciation_per_hour + power_charges in
      let mhr := machine_utilization_cost * (1 + MAINTENANCE_RATE) in
      Computed
        {| rep_machine_hour_rate := py_round mhr 2;
           rep_available_hours := available_hours;
           rep_downtime_rate := downtime_rate;
           rep_downtime_hours := py_round downtime_hours 2;
           rep_utilization_hours := py_round utilization_hours 2;
           rep_power_charges := py_round power_charges 2;
           rep_depreciation_per_hour := py_round depreciation_per_hour 2;
           rep_machine_utilization_cost :=
             py_round machine_utilization_cost 2 |}
  end.

(** [calculate_mhr_from_inputs] (lines 65-118 of [routes/mhr.py]), without
    the textual [calculation_steps]. *)
Definition calculate_mhr_from_inputs (investment_cost power_rating_kw : Q)
    (available_hours_per_annum : Q) (machine_category : string)
    : arith MHRReport :=
  let downtime_rate :=
    if (PyStr.lower machine_category =? "conventional")%string
    then CONVENTIONAL_DOWNTIME_RATE
    else CNC_DOWNTIME_RATE in
  let downtime_hours := available_hours_per_annum * downtime_rate in
  let utilization_hours := available_hours_per_annum - downtime_hours in
  let power_charges_per_hour := power_rating_kw * POWER_RATE_PER_UNIT in
  match py_div (investment_cost * ANNUAL_DEPRECIATION_RATE)
               utilization_hours with
  | ZeroDivisionError => ZeroDivisionError
  | Computed depreciation_per_hour =>
      let machine_utilization_cost_per_hour :=
        depreciation_per_hour + power_charges_per_hour in
      let total_mhr :=
        machine_utilization_cost_per_hour * (1 + MAINTENANCE_RATE) in
      Computed
        {| rep_machine_hour_rate := py_round total_mhr 2;
           rep_available_hours := available_hours_per_annum;
           rep_downtime_rate := downtime_rate;
           rep_downtime_hours := py_round downtime_hours 2;
           rep_utilization_hours := py_round utilization_hours 2;
           rep_power_charges := py_round power_charges_per_hour 2;
           rep_depreciation_per_hour := py_round depreciation_per_hour 2;
           rep_machine_utilization_cost :=
             py_round machine_utilization_cost_per_hour 2 |}
  end.

End Routes.

(** * Vocabulary of the statements *)

Module Vocabulary.

Import PyStr CostCalculationService Schemas Routes.
Local Open Scope Q_scope.

(** The defaults of the fallback, by machine category. *)
Definition fallback_investment (category : string) : Q :=
  if (category =? "conventional")%string then 1000000
  else if (category =? "cnc_3axis")%string then 3000000
  else 5000000.

Definition fallback_power_kw (category : string) : Q :=
  if (category =? "conventional")%string then 15
  else if (category =? "cnc_3axis")%string then 20
  else 25.

Definition category_downtime (category : string) : Q :=
  if (category =? "conventional")%string then 0.07 else 0.15.

(** A tier yields nothing when it falls through or raises. *)
Definition yields_nothing (r : result (option Q)) : Prop :=
  forall b, r <> Ok (Some b).

(** The per-unit amount of the non-recurring costs in the wording
    "total / amortize_over_quantity if that quantity is supplied and > 0,
    else total / ordered_quantity; 0 if the divisor is <= 0". *)
Definition nrc_per_unit_as_worded (total : Q) (ordered_quantity : Z)
    (amortize_over_quantity : option Z) : Q :=
  let divisor :=
    match amortize_over_quantity with
    | Some n => if (0 <? n)%Z then n else ordered_quantity
    | None => ordered_quantity
    end in
  if (divisor <=? 0)%Z then 0 else total / inject_Z divisor.

(** The divisor [calculate_nrc_amortization] chooses. *)
Definition chosen_divisor (ordered_quantity : Z)
    (amortize_over_quantity : option Z) : Z :=
  match amortize_over_quantity with
  | Some n => if (n =? 0)%Z then ordered_quantity else n
  | None => ordered_quantity
  end.

(** The request of the worked scenario: turning of a steel bar of diameter
    50 and length 200 on the "CNC Lathe", half a man-hour, no duty given,
    the default miscellaneous amount. *)
Definition scenario_request : CostEstimationRequest :=
  {| material := STEEL;
     operation_type := TURNING;
     dimensions := {| diameter := Some 50; length := 200;
                      breadth := None; height := None |};
     machine_name := "CNC Lathe";
     man_hours_per_unit := 0.5;
     duty_category := None;
     miscellaneous_amount := Some 0 |}.

(** A store whose only content is the machine of the scenario. *)
Definition scenario_db : Session :=
  {| operation_type_table := [];
     machines_table := [ {| Machine_id := 1; Machine_name := "CNC Lathe";
                            Machine_op_id := Some 1%Z |} ];
     duties_table := [];
     mhr_table := [];
     fails := fun _ => false |}.

(** The figures of the scenario in the wording of the specification. *)
Definition scenario_as_worded (py_float : string -> option Q) (db : Session)
    : Prop :=
  determine_duty_category "round" [("diameter", 50); ("length", 200)]%string
                          "steel" "turning" = Ok medium
  /\ _methodology_inputs "turning" "medium"
                         (determine_machine_category "CNC Lathe")
     = Some (6000000, 15, 2400, 0.15)
  /\ get_wage_rate "CNC Lathe" == 100
  /\ exists resp,
       calculate_cost_estimation py_float db scenario_request = Ok resp
       /\ resp_duty_category resp = medium
       /\ cb_machine_hour_rate (resp_cost_breakdown resp) == 369.12
       /\ cb_wage_rate (resp_cost_breakdown resp) == 100
       /\ cb_basic_cost_per_unit (resp_cost_breakdown resp) == 234.56
       /\ cb_overheads_per_unit (resp_cost_breakdown resp) == 50
       /\ cb_profit_per_unit (resp_cost_breakdown resp) == 28.46
       /\ cb_packing_forwarding_per_unit (resp_cost_breakdown resp) == 4.69
       /\ cb_unit_cost (resp_cost_breakdown resp) == 317.71
       /\ cb_outsourcing_mhr (resp_cost_breakdown resp) == 569.12.

(** When the dimension rules of an operation are violated. *)
Definition violates_dimension_rules (op : OperationType)
    (v : ComponentDimensions) : Prop :=
  match op with
  | TURNING | BORING =>
      diameter v = None \/ breadth v <> None \/ height v <> None
  | MILLING | GRINDING | SURFACE_TREATMENT =>
      breadth v = None \/ height v = None \/ diameter v <> None
  | DRILLING | WELDING | HEAT_TREATMENT =>
      let round_set := diameter v <> None in
      let rectangular_set := breadth v <> None /\ height v <> None in
      (round_set /\ rectangular_set) \/ (~ round_set /\ ~ rectangular_set)
  end.

(** The fields an operation requires and the request lacks. *)
Definition missing_fields (op : OperationType) (v : ComponentDimensions)
    : list string :=
  match op with
  | TURNING | BORING => if is_none (diameter v) then ["diameter"] else []
  | MILLING | GRINDING | SURFACE_TREATMENT =>
      (if is_none (breadth v) then ["breadth"] else [])
      ++ (if is_none (height v) then ["height"] else [])
  | DRILLING | WELDING | HEAT_TREATMENT => []
  end.

(** The fields an operation forbids and the request carries. *)
Definition forbidden_fields (op : OperationType) (v : ComponentDimensions)
    : list string :=
  match op with
  | TURNING | BORING =>
      (if is_not_none (breadth v) then ["breadth"] else [])
      ++ (if is_not_none (height v) then ["height"] else [])
  | MILLING | GRINDING | SURFACE_TREATMENT =>
      if is_not_none (diameter v) then ["diameter"] else []
  | DRILLING | WELDING | HEAT_TREATMENT => []
  end.

(** The fields an operation admits. *)
Definition permitted_fields (op : OperationType) : list string :=
  match op with
  | TURNING | BORING => ["diameter"; "length"]
  | MILLING | GRINDING | SURFACE_TREATMENT => ["length"; "breadth"; "height"]
  | DRILLING | WELDING | HEAT_TREATMENT =>
      ["diameter"; "length"; "breadth"; "height"]
  end.

(** A key of a dictionary that carries a positive number. *)
Definition positive_at (k : string) (d : dict) : Prop :=
  exists v, dict_get k d = Some v /\ 0 < v.

Definition present_at (k : string) (d : dict) : Prop :=
  exists v, dict_get k d = Some v.

(** The dimension set a shape needs: diameter and length for a round part,
    length, breadth and height otherwise. *)
Definition complete_dimension_set (shape : string) (d : dict) : Prop :=
  if (shape =? "round")%string
  then present_at "diameter" d /\ present_at "length" d
  else present_at "length" d /\ present_at "breadth" d
       /\ present_at "height" d.

Definition valid_dimension_set (shape : string) (d : dict) : Prop :=
  if (shape =? "round")%string
  then positive_at "diameter" d /\ positive_at "length" d
  else positive_at "length" d /\ positive_at "breadth" d
       /\ positive_at "height" d.

(** [d'] has the keys of [d], none with a smaller value. *)
Definition dims_le (d d' : dict) : Prop :=
  forall k,
    match dict_get k d, dict_get k d' with
    | Some x, Some y => x <= y
    | None, None => True
    | _, _ => False
    end.

(** [s] is [t] with some of its letters in upper case. *)
Inductive case_variant : string -> string -> Prop :=
| cv_empty : case_variant "" ""
| cv_keep (c : ascii) (s t : string) :
    case_variant s t -> case_variant (String c s) (String c t)
| cv_upper (c : ascii) (s t : string) :
    case_variant s t -> case_variant (String (upper_char c) s) (String c t).

Fixpoint all_space (w : string) : Prop :=
  match w with
  | EmptyString => True
  | String c r => isspace c = true /\ all_space r
  end.

(** A spelling of "titanium" in any letter case, between white space. *)
Definition spells_titanium (m : string) : Prop :=
  exists w1 t w2,
    m = (w1 ++ t ++ w2)%string
    /\ all_space w1 /\ all_space w2 /\ case_variant t "titanium".

Fixpoint all_lower (t : string) : Prop :=
  match t with
  | EmptyString => True
  | String c r => islower c = true /\ all_lower r
  end.

Fixpoint no_space (t : string) : Prop :=
  match t with
  | EmptyString => True
  | String c r => isspace c = false /\ no_space r
  end.

(** A test on two sizes that keeps holding when the sizes shrink. *)
Definition down_closed (P : Q -> Q -> bool) : Prop :=
  forall x y x' y', x <= x' -> y <= y' -> P x' y' = true -> P x y = true.

(** A store with one configuration record for turning, medium duty, on the
    "CNC Lathe", and one for drilling, light duty, on the "Bench Drill". *)
Definition configured_db : Session :=
  {| operation_type_table :=
       [ {| OperationType_id := 1; OperationType_operation_name := "Turning" |};
         {| OperationType_id := 2; OperationType_operation_name := "Drilling" |} ];
     machines_table :=
       [ {| Machine_id := 1; Machine_name := "CNC Lathe";
            Machine_op_id := Some 1%Z |};
         {| Machine_id := 2; Machine_name := "Bench Drill";
            Machine_op_id := Some 2%Z |} ];
     duties_table :=
       [ {| Duty_id := 1; Duty_name := "Medium duty" |};
         {| Duty_id := 2; Duty_name := "Light duty" |} ];
     mhr_table :=
       [ {| MHR_op_type_id := Some 1%Z; MHR_duty_id := Some 1%Z;
            MHR_machine_id := Some 1%Z;
            MHR_investment_cost := Some "1000000";
            MHR_elect_power_rating := Some "10";
            MHR_available_hrs_per_annum := None;
            MHR_machine_hr_rate := Some "999" |};
         {| MHR_op_type_id := Some 2%Z; MHR_duty_id := Some 2%Z;
            MHR_machine_id := Some 2%Z;
            MHR_investment_cost := Some "n/a";
            MHR_elect_power_rating := Some "10";
            MHR_available_hrs_per_annum := None;
            MHR_machine_hr_rate := Some " 999 " |} ];
     fails := fun _ => false |}.

(** The same store with every query failing. *)
Definition failing_db : Session :=
  {| operation_type_table := operation_type_table configured_db;
     machines_table := machines_table configured_db;
     duties_table := duties_table configured_db;
     mhr_table := mhr_table configured_db;
     fails := fun _ => true |}.

(** A reading of the three numerals that occur in [configured_db]. *)
Definition numeral (s : string) : option Q :=
  if (s =? "1000000")%string then Some 1000000
  else if (s =? "10")%string then Some 10
  else if (s =? "999")%string then Some 999
  else None.

Definition steel_bar : dict := [("diameter", 50); ("length", 200)]%string.

Definition thicker_bar : dict := [("diameter", 120); ("length", 200)]%string.

(** The four machine categories. *)
Definition known_category (c : string) : Prop :=
  In c ["conventional"; "cnc_3axis"; "cnc_5axis"; "spm"]%string.

(** No keyword of [determine_machine_category] occurs in the lower-cased
    name. *)
Definition no_category_keyword (machine_name : string) : Prop :=
  contains "cnc" (lower machine_name) = false
  /\ contains "precision" (lower machine_name) = false
  /\ contains "spm" (lower machine_name) = false
  /\ contains "special" (lower machine_name) = false.

(** The record's normalised operation and duty names are the requested
    ones (the test of lines 496-499). *)
Definition record_matches (db : Session) (op_norm duty_norm : string)
    (rec : MHR) : bool :=
  (_norm (option_map OperationType_operation_name
                     (operation_by_id db (MHR_op_type_id rec)))
   =? op_norm)%string
  && (_norm (option_map Duty_name (duty_by_id db (MHR_duty_id rec)))
      =? duty_norm)%string.

(** No relationship attribute fails to load. *)
Definition relationships_load (db : Session) : Prop :=
  forall which rec, fails db (Relationship which rec) = false.

(** Every number of a dictionary is non-negative. *)
Definition non_negative_values (d : dict) : Prop :=
  forall k v, dict_get k d = Some v -> 0 <= v.

(** The materials of the density table. *)
Definition tabulated_material (m : string) : Prop :=
  In m ["aluminium"; "steel"; "titanium"; "copper"; "brass"]%string.

(** The strings on which [str.isascii] holds: every character is below 128.
    On them the case mappings of [PyStr] are those of Python. *)
Fixpoint isascii (s : string) : bool :=
  match s with
  | EmptyString => true
  | String c s' => (nat_of_ascii c <? 128)%nat && isascii s'
  end.

(** [op.get("man_hours", 0.0)] of one operation of a request. *)
Definition op_man_hours (op : dict) : Q := get_default op "man_hours" 0.

(** The text of the estimation route's own error for a dimension set that
    is neither round nor rectangular. *)
Definition INVALID_DIMENSIONS : string :=
  "Invalid dimensions. Provide either (diameter + length) "
  ++ "for round parts OR (length + breadth + height) "
  ++ "for rectangular parts".

End Vocabulary.

(** * Properties *)

Import PyStr CostCalculationService Schemas Routes Vocabulary.

Local Open Scope Q_scope.

(** ** Rounding *)

Lemma round_half_even_compat (x y : Q) :
  x == y -> round_half_even x = round_half_even y.
Proof.
  intros E. unfold round_half_even.
  rewrite (Qfloor_comp _ _ E).
  assert (C : (x - inject_Z (Qfloor y) ?= 1 # 2)
              = (y - inject_Z (Qfloor y) ?= 1 # 2)).
  { apply Qcompare_comp; [rewrite E|]; reflexivity. }
  rewrite C. reflexivity.
Qed.

Lemma py_round_compat (x y : Q) (n : nat) :
  x == y -> py_round x n = py_round y n.
Proof.
  intros E. unfold py_round. f_equal.
  apply round_half_even_compat. rewrite E. reflexivity.
Qed.

Lemma py_round_zero (x : Q) (n : nat) : x == 0 -> py_round x n == 0.
Proof.
  intros E. rewrite (py_round_compat x 0 n E).
  unfold py_round, Qeq. simpl. reflexivity.
Qed.

(** The rounded value lies within half a unit of the last kept digit. *)
Lemma round_half_even_close (q : Q) :
  Qabs (inject_Z (round_half_even q) - q) <= 1 # 2.
Proof.
  unfold round_half_even.
  pose proof (Qfloor_le q) as L.
  pose proof (Qlt_floor q) as U.
  rewrite inject_Z_plus in U. change (inject_Z 1) with 1 in U.
  set (f := inject_Z (Qfloor q)) in *.
  destruct (q - f ?= 1 # 2) eqn:C.
  - apply Qeq_alt in C.
    destruct (Z.even (Qfloor q)).
    + fold f. apply Qabs_case; intros; lra.
    + rewrite inject_Z_plus. fold f. change (inject_Z 1) with 1.
      apply Qabs_case; intros; lra.
  - apply Qlt_alt in C. fold f. apply Qabs_case; intros; lra.
  - apply Qgt_alt in C. rewrite inject_Z_plus. fold f.
    change (inject_Z 1) with 1. apply Qabs_case; intros; lra.
Qed.

(** [round(x, n)] is within half a unit of the n-th decimal of [x]. *)
Lemma py_round_close (x : Q) (n : nat) :
  Qabs (py_round x n - x) <= 1 # (2 * pow10 n).
Proof.
  unfold py_round.
  pose proof (round_half_even_close (x * inject_Z (Zpos (pow10 n)))) as H.
  apply Qabs_Qle_condition in H. destruct H as [H1 H2].
  apply Qabs_Qle_condition.
  set (r := round_half_even (x * inject_Z (Zpos (pow10 n)))) in *.
  set (s := pow10 n) in *.
  assert (Er : r # s == inject_Z r * (1 # s)).
  { unfold Qeq, Qmult, inject_Z. simpl. ring. }
  assert (Eh : 1 # (2 * s) == (1 # 2) * (1 # s)).
  { unfold Qeq, Qmult. simpl. reflexivity. }
  assert (Es : inject_Z (Zpos s) * (1 # s) == 1).
  { unfold Qeq, Qmult, inject_Z. simpl. lia. }
  assert (Pt : 0 < 1 # s) by reflexivity.
  rewrite Er, Eh.
  set (t := 1 # s) in *. set (S := inject_Z (Zpos s)) in *.
  set (R := inject_Z r) in *.
  assert (Ex : x == x * S * t).
  { rewrite <- Qmult_assoc, Es. ring. }
  split.
  - assert (M : - (1 # 2) * t <= (R - x * S) * t)
      by (apply Qmult_le_compat_r; lra).
    rewrite Ex at 1. lra.
  - assert (M : (R - x * S) * t <= (1 # 2) * t)
      by (apply Qmult_le_compat_r; lra).
    rewrite Ex at 1. lra.
Qed.

(** ** The cost formulas *)

(** C1. For all man-hours A, machine hour rate B, wage rate C, quantity q and
    miscellaneous amount m, [calculate_costs] computes before the output
    rounding: D = A*(B+C), OH = C*A, profit = 0.10*(D+OH), packing and
    forwarding = 0.02*D, unit cost = D+OH+profit+PF, total unit cost with
    miscellaneous = unit cost + m, total cost = that * q and outsourcing
    MHR = B + 2*C; the returned dictionary holds these values rounded to two
    decimals. *)
Theorem calculate_costs_formulas (A B C : Q) (q : Z) (m : Q) :
  let raw := cost_components A B C q m in
  let out := calculate_costs A B C q m in
  let D := basic_cost_per_unit raw in
  let OH := overheads_per_unit raw in
  let profit := profit_per_unit raw in
  let PF := packing_forwarding_per_unit raw in
  D = A * (B + C)
  /\ OH = C * A
  /\ profit = 0.10 * (D + OH)
  /\ PF = 0.02 * D
  /\ unit_cost raw = D + OH + profit + PF
  /\ total_unit_cost_with_misc raw = unit_cost raw + m
  /\ total_cost raw = total_unit_cost_with_misc raw * inject_Z q
  /\ outsourcing_mhr raw = B + 2 * C
  /\ basic_cost_per_unit out = py_round D 2
  /\ overheads_per_unit out = py_round OH 2
  /\ profit_per_unit out = py_round profit 2
  /\ packing_forwarding_per_unit out = py_round PF 2
  /\ unit_cost out = py_round (unit_cost raw) 2
  /\ total_unit_cost_with_misc out = py_round (total_unit_cost_with_misc raw) 2
  /\ total_cost out = py_round (total_cost raw) 2
  /\ outsourcing_mhr out = py_round (B + 2 * C) 2.
Proof.
  cbv zeta. unfold calculate_costs, rounded, cost_components. simpl.
  repeat split.
Qed.

(** The unit cost in closed form. *)
Lemma unit_cost_closed_form (A B C : Q) (q : Z) (m : Q) :
  unit_cost (cost_components A B C q m) == A * (1.12 * B + 2.22 * C).
Proof.
  unfold cost_components. simpl. field.
Qed.

(** ** The machine hour rate resolver *)

Section Resolver.

Variable py_float : string -> option Q.
Variable db : Session.

(** A key of the static table is looked up successfully. *)
Lemma methodology_lookup (operation duty machine_cat : string)
    (entry : Q * Q * Q * Q) :
  In ((lower (strip operation), lower (strip duty),
       _category_bucket machine_cat), entry) methodology_table ->
  _methodology_inputs operation duty machine_cat = Some entry.
Proof.
  unfold _methodology_inputs.
  generalize (lower (strip operation)) (lower (strip duty))
             (_category_bucket machine_cat).
  intros k1 k2 k3 H. simpl in H.
  repeat (destruct H as [H | H];
          [injection H as <- <- <- <-; reflexivity |]).
  contradiction.
Qed.

(** A rate found in the static table is what the resolver returns. *)
Lemma methodology_rate_returned (operation duty machine_name : string)
    (machine_id op_type_id duty_id : option Z) (b : Q) :
  methodology_rate operation duty machine_name = Some b ->
  get_machine_hour_rate py_float db operation duty machine_name
                        machine_id op_type_id duty_id = Ok b.
Proof.
  intros H. unfold get_machine_hour_rate, first_try. rewrite H. reflexivity.
Qed.

(** C3. Whenever the key (operation, duty, category bucket) of a request is
    present in the static methodology table, [get_machine_hour_rate] returns
    investment*0.10/(available_hours*(1-downtime)) + kW*5 computed from that
    entry, with no maintenance multiplier, whatever the store contains and
    whatever identifiers are passed. *)
Theorem methodology_entry_wins (operation duty machine_name : string)
    (machine_id op_type_id duty_id : option Z) (inv kw avail downtime : Q) :
  In ((lower (strip operation), lower (strip duty),
       _category_bucket (determine_machine_category machine_name)),
      (inv, kw, avail, downtime)) methodology_table ->
  get_machine_hour_rate py_float db operation duty machine_name
                        machine_id op_type_id duty_id
  = Ok (inv * 0.10 / (avail * (1 - downtime)) + kw * 5).
Proof.
  intros H. apply methodology_lookup in H.
  apply methodology_rate_returned.
  unfold methodology_rate. rewrite H. reflexivity.
Qed.

(** The resolver raises nothing but its own [ValueError]. *)
Lemma get_machine_hour_rate_cases (operation duty machine_name : string)
    (machine_id op_type_id duty_id : option Z) :
  (exists b, get_machine_hour_rate py_float db operation duty machine_name
               machine_id op_type_id duty_id = Ok b)
  \/ get_machine_hour_rate py_float db operation duty machine_name
        machine_id op_type_id duty_id = Raise (ValueError MHR_NOT_CONFIGURED).
Proof.
  unfold get_machine_hour_rate.
  destruct (first_try _ _ _ _ _ _ _ _) as [[b|]|e];
    [left; eexists; reflexivity | |];
    (destruct (second_try _ _ _ _ _) as [[b|]|e'];
     [left; eexists; reflexivity | right; reflexivity | right; reflexivity]).
Qed.

Lemma determine_machine_category_values (machine_name : string) :
  In (determine_machine_category machine_name)
     ["cnc_5axis"; "cnc_3axis"; "spm"; "conventional"]%string.
Proof.
  unfold determine_machine_category.
  repeat match goal with
         | |- context [if ?c then _ else _] => destruct c
         end; simpl; auto.
Qed.

(** C4. Whenever [get_machine_hour_rate] fails to resolve a rate,
    [get_machine_hour_rate_with_fallback] returns
    (investment*0.10/(2400*(1-downtime)) + kW*5) * 1.05 with the defaults of
    the machine category (conventional 1,000,000 and 15 kW, cnc_3axis
    3,000,000 and 20 kW, otherwise 5,000,000 and 25 kW; downtime 7% for
    conventional and 15% otherwise); and it never raises. *)
Theorem fallback_rate (operation duty machine_name : string) :
  let category := determine_machine_category machine_name in
  (exists b, get_machine_hour_rate_with_fallback py_float db
               operation duty machine_name = Ok b)
  /\ (forall e,
        get_machine_hour_rate py_float db operation duty machine_name
                              None None None = Raise e ->
        get_machine_hour_rate_with_fallback py_float db
          operation duty machine_name
        = Ok ((fallback_investment category * 0.10
               / (2400 * (1 - category_downtime category))
               + fallback_power_kw category * 5) * 1.05)).
Proof.
  intros category.
  assert (F : forall e,
        get_machine_hour_rate py_float db operation duty machine_name
                              None None None = Raise e ->
        get_machine_hour_rate_with_fallback py_float db
          operation duty machine_name
        = Ok ((fallback_investment category * 0.10
               / (2400 * (1 - category_downtime category))
               + fallback_power_kw category * 5) * 1.05)).
  { intros e E.
    unfold get_machine_hour_rate_with_fallback.
    destruct (get_machine_hour_rate_cases operation duty machine_name
                                          None None None) as [[b Hb] | Hv].
    - rewrite Hb in E. discriminate.
    - rewrite Hv. fold category.
      pose proof (determine_machine_category_values machine_name) as V.
      fold category in V. simpl in V.
      destruct V as [<- | [<- | [<- | [<- | []]]]]; reflexivity. }
  split; [| exact F].
  destruct (get_machine_hour_rate_cases operation duty machine_name
                                        None None None) as [[b Hb] | Hv].
  - exists b. unfold get_machine_hour_rate_with_fallback. rewrite Hb.
    reflexivity.
  - eexists. apply (F _ Hv).
Qed.

(** C8 (as amended). [get_machine_hour_rate] raises exactly when the static
    table, the record found by identifiers and the scan of the configuration
    records all yield nothing; what it raises is always the same
    [ValueError] with a fixed text, so a failing query inside the second and
    third tier never reaches the caller. *)
Theorem get_machine_hour_rate_raises_iff (operation duty machine_name : string)
    (machine_id op_type_id duty_id : option Z) :
  let r := get_machine_hour_rate py_float db operation duty machine_name
                                 machine_id op_type_id duty_id in
  ((exists e, r = Raise e) <->
   (methodology_rate operation duty machine_name = None
    /\ yields_nothing (exact_record_rate py_float db operation duty
                         machine_name machine_id op_type_id duty_id)
    /\ yields_nothing (second_try py_float db operation duty machine_name)))
  /\ (forall e, r = Raise e -> e = ValueError MHR_NOT_CONFIGURED)
  /\ ((exists b, r = Ok b) \/ r = Raise (ValueError MHR_NOT_CONFIGURED)).
Proof.
  intros r. subst r. unfold get_machine_hour_rate, first_try, yields_nothing.
  destruct (methodology_rate operation duty machine_name) as [b1|].
  - split; [split|split].
    + intros [e E]. discriminate.
    + intros [E _]. discriminate.
    + intros e E. discriminate.
    + left. eexists. reflexivity.
  - destruct (exact_record_rate _ _ _ _ _ _ _ _) as [[b2|]|e2].
    + split; [split|split].
      * intros [e E]. discriminate.
      * intros (_ & N & _). exfalso. apply (N b2). reflexivity.
      * intros e E. discriminate.
      * left. eexists. reflexivity.
    + destruct (second_try _ _ _ _ _) as [[b3|]|e3].
      * split; [split|split].
        -- intros [e E]. discriminate.
        -- intros (_ & _ & N). exfalso. apply (N b3). reflexivity.
        -- intros e E. discriminate.
        -- left. eexists. reflexivity.
      * split; [split|split].
        -- intros _. repeat split; intros b E; discriminate.
        -- intros _. eexists. reflexivity.
        -- intros e E. injection E as <-. reflexivity.
        -- right. reflexivity.
      * split; [split|split].
        -- intros _. repeat split; intros b E; discriminate.
        -- intros _. eexists. reflexivity.
        -- intros e E. injection E as <-. reflexivity.
        -- right. reflexivity.
    + destruct (second_try _ _ _ _ _) as [[b3|]|e3].
      * split; [split|split].
        -- intros [e E]. discriminate.
        -- intros (_ & _ & N). exfalso. apply (N b3). reflexivity.
        -- intros e E. discriminate.
        -- left. eexists. reflexivity.
      * split; [split|split].
        -- intros _. repeat split; intros b E; discriminate.
        -- intros _. eexists. reflexivity.
        -- intros e E. injection E as <-. reflexivity.
        -- right. reflexivity.
      * split; [split|split].
        -- intros _. repeat split; intros b E; discriminate.
        -- intros _. eexists. reflexivity.
        -- intros e E. injection E as <-. reflexivity.
        -- right. reflexivity.
Qed.

End Resolver.

(** ** Non-recurring costs *)

(** C5, the input at which the wording and the code part: an amortization
    quantity of -5 with 10 units ordered. The code keeps -5 as the divisor
    and returns 0 per unit; the wording divides by the ordered quantity. *)
Lemma nrc_negative_amortization_counterexample :
  nrc_per_unit (calculate_nrc_amortization 100 0 0 0 0 10 (Some (-5)%Z)) == 0
  /\ amortization_quantity
       (calculate_nrc_amortization 100 0 0 0 0 10 (Some (-5)%Z)) = (-5)%Z
  /\ py_round (nrc_per_unit_as_worded (100 + 0 + 0 + 0 + 0) 10
                                      (Some (-5)%Z)) 2 == 10
  /\ ~ nrc_per_unit (calculate_nrc_amortization 100 0 0 0 0 10 (Some (-5)%Z))
       == py_round (nrc_per_unit_as_worded (100 + 0 + 0 + 0 + 0) 10
                                          (Some (-5)%Z)) 2.
Proof.
  repeat split; try reflexivity.
  vm_compute. discriminate.
Qed.

(** C5 (as amended). [calculate_nrc_amortization] returns the sum of the five
    components as [total_nrc]; the divisor is [amortize_over_quantity] when
    it is supplied and not 0, otherwise [ordered_quantity]; [nrc_per_unit] is
    total / divisor when the divisor is > 0 and 0 when it is <= 0 (so a
    supplied negative quantity gives 0); all monetary outputs are rounded to
    2 decimals. *)
Theorem nrc_amortization_amended (tooling development cnc special other : Q)
    (ordered_quantity : Z) (amortize_over_quantity : option Z) :
  let r := calculate_nrc_amortization tooling development cnc special other
             ordered_quantity amortize_over_quantity in
  let total := tooling + development + cnc + special + other in
  let divisor := chosen_divisor ordered_quantity amortize_over_quantity in
  total_nrc r = py_round total 2
  /\ amortization_quantity r = divisor
  /\ ((0 < divisor)%Z ->
      nrc_per_unit r = py_round (total / inject_Z divisor) 2)
  /\ ((divisor <= 0)%Z -> nrc_per_unit r == 0)
  /\ (forall n, amortize_over_quantity = Some n -> (0 < n)%Z ->
      nrc_per_unit r = py_round (total / inject_Z n) 2)
  /\ (forall n, amortize_over_quantity = Some n -> (n < 0)%Z ->
      nrc_per_unit r == 0)
  /\ (amortize_over_quantity = None \/ amortize_over_quantity = Some 0%Z ->
      (0 < ordered_quantity)%Z ->
      nrc_per_unit r = py_round (total / inject_Z ordered_quantity) 2)
  /\ tooling_cost r = py_round tooling 2
  /\ development_cost r = py_round development 2
  /\ cnc_programming_cost r = py_round cnc 2
  /\ special_process_cost r = py_round special 2
  /\ other_nrc_cost r = py_round other 2.
Proof.
  cbv zeta.
  assert (P : (0 < chosen_divisor ordered_quantity amortize_over_quantity)%Z ->
              nrc_per_unit
                (calculate_nrc_amortization tooling development cnc special
                   other ordered_quantity amortize_over_quantity)
              = py_round ((tooling + development + cnc + special + other)
                          / inject_Z (chosen_divisor ordered_quantity
                                        amortize_over_quantity)) 2).
  { intros H. unfold calculate_nrc_amortization. simpl.
    fold (chosen_divisor ordered_quantity amortize_over_quantity).
    apply Z.gtb_lt in H. rewrite H. reflexivity. }
  assert (N : (chosen_divisor ordered_quantity amortize_over_quantity <= 0)%Z ->
              nrc_per_unit
                (calculate_nrc_amortization tooling development cnc special
                   other ordered_quantity amortize_over_quantity) == 0).
  { intros H. unfold calculate_nrc_amortization. simpl.
    fold (chosen_divisor ordered_quantity amortize_over_quantity).
    destruct (Z.gtb_spec (chosen_divisor ordered_quantity
                            amortize_over_quantity) 0) as [G | G];
      [lia |].
    apply py_round_zero. reflexivity. }
  repeat split; try reflexivity; try assumption.
  - intros n E Hn. rewrite P; unfold chosen_divisor; rewrite E;
      destruct (Z.eqb_spec n 0); try lia; reflexivity.
  - intros n E Hn. apply N. unfold chosen_divisor. rewrite E.
    destruct (Z.eqb_spec n 0); lia.
  - intros [E | E] Ho; rewrite P; unfold chosen_divisor; rewrite E;
      simpl; try reflexivity; assumption.
Qed.

(** ** Material cost *)

(** C10. When the material is not a free issue and (shape, dimensions) fits
    neither the round pattern (shape "round" with diameter and length) nor
    the rectangular pattern (shape "rectangular" with length, breadth and
    height), [calculate_material_cost] raises nothing: the volume is 0 and
    the cost per unit and the weight it returns are 0. *)
Theorem material_cost_unmatched_geometry (material : string)
    (dimensions : dict) (shape : string) (material_cost_per_kg : Q) :
  ~ (shape = "round"%string /\ dict_in "diameter" dimensions = true
     /\ dict_in "length" dimensions = true) ->
  ~ (shape = "rectangular"%string /\ dict_in "length" dimensions = true
     /\ dict_in "breadth" dimensions = true
     /\ dict_in "height" dimensions = true) ->
  exists r,
    calculate_material_cost material dimensions shape
                            material_cost_per_kg false = Ok r
    /\ material_cost_per_unit r == 0
    /\ material_weight_kg r == 0
    /\ (exists v, volume_cm3 r = Some v /\ v == 0)
    /\ is_free_issue r = false.
Proof.
  intros NR NQ. unfold calculate_material_cost.
  assert (R : ((shape =? "round")%string
               && all_in ["diameter"; "length"]%string dimensions) = false).
  { apply not_true_is_false. intros H. apply NR.
    apply andb_true_iff in H as [H1 H2]. apply String.eqb_eq in H1.
    unfold all_in in H2. simpl in H2.
    apply andb_true_iff in H2 as [H2 H3].
    apply andb_true_iff in H3 as [H3 _]. auto. }
  assert (S : ((shape =? "rectangular")%string
               && all_in ["length"; "breadth"; "height"]%string dimensions)
              = false).
  { apply not_true_is_false. intros H. apply NQ.
    apply andb_true_iff in H as [H1 H2]. apply String.eqb_eq in H1.
    unfold all_in in H2. simpl in H2.
    apply andb_true_iff in H2 as [H2 H3].
    apply andb_true_iff in H3 as [H3 H4].
    apply andb_true_iff in H4 as [H4 _]. auto. }
  rewrite R, S. simpl. eexists. split; [reflexivity |]. simpl.
  split; [apply py_round_zero; field |].
  split; [apply py_round_zero; field |].
  split; [| reflexivity].
  eexists. split; [reflexivity |]. apply py_round_zero. field.
Qed.

(** ** The worked scenario *)

(** C2, the figures of the wording do not hold: the table gives 4500
    available hours for (turning, medium, cnc), not 2400. *)
Lemma scenario_counterexample :
  ~ scenario_as_worded (fun _ => None) scenario_db.
Proof.
  intros (_ & H & _). vm_compute in H. discriminate.
Qed.

Lemma machine_found_name (db : Session) (name : string) (m : Machine) :
  query_machine_by_name db name = Ok (Some m) -> Machine_name m = name.
Proof.
  unfold query_machine_by_name, run.
  destruct (fails db (MachineByName name)); [discriminate |].
  intros H. injection H as H. apply find_some in H as [_ H].
  apply String.eqb_eq in H. exact H.
Qed.

(** C2 (as amended). For turning of a steel bar of diameter 50 and length 200
    on the "CNC Lathe" with 0.5 man-hours, no duty given and no miscellaneous
    amount: the duty is medium; the table entry for (turning, medium, cnc) is
    investment 6,000,000, 15 kW, 4500 available hours, downtime 0.15, hence
    utilization 3825, power charges 75, depreciation 156.86 and B = 231.86
    after rounding; the wage rate is 100; and the breakdown is D = 165.93,
    OH = 50.00, profit = 21.59, PF = 3.32, unit cost = 240.84, outsourcing
    MHR = 431.86. *)
Theorem scenario_amended (py_float : string -> option Q) (db : Session)
    (m : Machine) :
  query_machine_by_name db "CNC Lathe" = Ok (Some m) ->
  determine_duty_category "round" [("diameter", 50); ("length", 200)]%string
                          "steel" "turning" = Ok medium
  /\ determine_machine_category "CNC Lathe" = "cnc_3axis"%string
  /\ _category_bucket "cnc_3axis" = "cnc"%string
  /\ _methodology_inputs "turning" "medium"
                         (determine_machine_category "CNC Lathe")
     = Some (6000000, 15, 4500, 0.15)
  /\ 4500 * (1 - 0.15) == 3825
  /\ 15 * POWER_RATE_PER_UNIT == 75
  /\ py_round (6000000 * ANNUAL_DEPRECIATION_RATE / 3825) 2 == 156.86
  /\ (exists b,
        get_machine_hour_rate_with_fallback py_float db
          "turning" "medium" "CNC Lathe" = Ok b
        /\ b == 6000000 * 0.10 / 3825 + 75
        /\ py_round b 2 == 231.86)
  /\ get_wage_rate "CNC Lathe" == 100
  /\ exists resp,
       calculate_cost_estimation py_float db scenario_request = Ok resp
       /\ resp_duty_category resp = medium
       /\ resp_machine_category resp = "cnc_3axis"%string
       /\ cb_man_hours_per_unit (resp_cost_breakdown resp) == 0.5
       /\ cb_machine_hour_rate (resp_cost_breakdown resp) == 231.86
       /\ cb_wage_rate (resp_cost_breakdown resp) == 100
       /\ cb_basic_cost_per_unit (resp_cost_breakdown resp) == 165.93
       /\ cb_overheads_per_unit (resp_cost_breakdown resp) == 50
       /\ cb_profit_per_unit (resp_cost_breakdown resp) == 21.59
       /\ cb_packing_forwarding_per_unit (resp_cost_breakdown resp) == 3.32
       /\ cb_unit_cost (resp_cost_breakdown resp) == 240.84
       /\ cb_total_unit_cost_with_misc (resp_cost_breakdown resp) == 240.84
       /\ cb_outsourcing_mhr (resp_cost_breakdown resp) == 431.86.
Proof.
  intros Hm.
  assert (T : forall mid oid did,
             get_machine_hour_rate py_float db "turning" "medium" "CNC Lathe"
                                   mid oid did
             = Ok (6000000 * ANNUAL_DEPRECIATION_RATE / (4500 * (1 - 0.15))
                   + 15 * POWER_RATE_PER_UNIT)).
  { intros. apply methodology_rate_returned. reflexivity. }
  assert (F : get_machine_hour_rate_with_fallback py_float db
                "turning" "medium" "CNC Lathe"
              = Ok (6000000 * ANNUAL_DEPRECIATION_RATE / (4500 * (1 - 0.15))
                    + 15 * POWER_RATE_PER_UNIT)).
  { unfold get_machine_hour_rate_with_fallback. rewrite T. reflexivity. }
  split; [reflexivity |].
  split; [reflexivity |].
  split; [reflexivity |].
  split; [reflexivity |].
  split; [reflexivity |].
  split; [reflexivity |].
  split; [reflexivity |].
  split.
  { eexists. split; [exact F |]. split; reflexivity. }
  split; [reflexivity |].
  pose proof (machine_found_name _ _ _ Hm) as Hn.
  unfold calculate_cost_estimation, get_machine_details.
  change (Schemas.machine_name scenario_request) with "CNC Lathe"%string.
  rewrite Hm. cbn [bind details_name]. rewrite Hn.
  change (dimensions scenario_request)
    with {| diameter := Some 50; length := 200;
            breadth := None; height := None |}.
  cbn [diameter bind].
  change (duty_category scenario_request) with (@None DutyCategory).
  cbv iota.
  change (determine_duty_category "round"
            [("diameter"%string, 50); ("length"%string, length _)]
            (MaterialType_value (material scenario_request))
            (OperationType_value (operation_type scenario_request)))
    with (@Ok DutyCategory medium).
  cbn [bind duty_value].
  change (OperationType_value (operation_type scenario_request))
    with "turning"%string.
  rewrite F. cbn [bind].
  eexists. split; [reflexivity |].
  cbn [resp_duty_category resp_machine_category resp_cost_breakdown].
  split; [reflexivity |].
  split; [reflexivity |].
  repeat split; vm_compute; reflexivity.
Qed.

(** ** Validation of the dimensions *)

(** C6, an input at which the error does not name the forbidden field:
    turning with a breadth. The message lists the fields that are needed
    and mentions neither "breadth" nor "height". *)
Lemma validation_counterexample :
  validate_dimensions_by_operation (Some TURNING)
    {| diameter := Some 50; length := 200;
       breadth := Some 10; height := None |}
  = Raise (ValueError
      "For turning operation, only 'diameter' and 'length' are needed (round part)")
  /\ forbidden_fields TURNING
       {| diameter := Some 50; length := 200;
          breadth := Some 10; height := None |} = ["breadth"%string]
  /\ contains "breadth"
       "For turning operation, only 'diameter' and 'length' are needed (round part)"
     = false.
Proof.
  repeat split.
Qed.

Ltac settle_fields :=
  repeat match goal with
         | H : In _ _ |- _ => simpl in H
         | H : _ \/ _ |- _ => destruct H as [H | H]
         | H : False |- _ => contradiction
         | H : _ = ?f |- _ => is_var f; subst f
         end;
  try reflexivity; try discriminate.

(** C6 (as amended). The validation of the dimensions fails exactly when:
    turning or boring lacks the diameter or has a breadth or a height;
    milling, grinding or surface treatment lacks the breadth or the height or
    has a diameter; drilling, welding or heat treatment has both or neither of
    the round set and the rectangular set. Every other dimension set is
    accepted unchanged. The error is a [ValueError] whose text names the
    operation and every required field that is missing; when no required
    field is missing it names the fields the operation admits, and it never
    names a forbidden field that is present. *)
Theorem validation_amended (op : OperationType) (v : ComponentDimensions) :
  (violates_dimension_rules op v <->
   exists msg,
     validate_dimensions_by_operation (Some op) v = Raise (ValueError msg))
  /\ (~ violates_dimension_rules op v ->
      validate_dimensions_by_operation (Some op) v = Ok v)
  /\ (forall e,
        validate_dimensions_by_operation (Some op) v = Raise e ->
        exists msg,
          e = ValueError msg
          /\ contains (OperationType_value op) msg = true
          /\ (forall f, In f (missing_fields op v) -> contains f msg = true)
          /\ (missing_fields op v = [] ->
              forall f, In f (permitted_fields op) -> contains f msg = true)
          /\ (forall f, In f (forbidden_fields op v) ->
              contains f msg = false)).
Proof.
  split; [| split].
  - destruct op; destruct v as [[d|] l [b|] [h|]];
      unfold violates_dimension_rules; cbn;
      (split;
       [ intros H; try (eexists; reflexivity);
         exfalso; intuition (discriminate || congruence)
       | intros [msg E]; try discriminate;
         intuition (discriminate || congruence) ]).
  - destruct op; destruct v as [[d|] l [b|] [h|]];
      unfold violates_dimension_rules; cbn;
      intros H; try reflexivity;
      exfalso; apply H; intuition (discriminate || congruence).
  - destruct op; destruct v as [[d|] l [b|] [h|]]; cbn;
      intros e E; try discriminate;
      injection E as <-; eexists; (split; [reflexivity |]);
      (split; [reflexivity |]);
      (split; [intros f Hf; settle_fields |]);
      (split; [intros Hn f Hf; settle_fields |]);
      intros f Hf; settle_fields.
Qed.

(** ** The error of the resolver *)

(** C8, the error does not identify the triple: two different unresolved
    triples raise the same [ValueError], and its text contains none of the
    three values of the first of them. *)
Lemma unresolved_error_counterexample :
  get_machine_hour_rate (fun _ => None) scenario_db
    "drilling" "light" "Bench Drill" None None None
  = Raise (ValueError MHR_NOT_CONFIGURED)
  /\ get_machine_hour_rate (fun _ => None) scenario_db
       "welding" "heavy" "Arc Welder" None None None
     = Raise (ValueError MHR_NOT_CONFIGURED)
  /\ contains "drilling" MHR_NOT_CONFIGURED = false
  /\ contains "light" MHR_NOT_CONFIGURED = false
  /\ contains "Bench Drill" MHR_NOT_CONFIGURED = false.
Proof.
  repeat split.
Qed.

(** ** Normalisation of the material *)

Lemma lower_char_of_lower (c : ascii) :
  islower c = true -> lower_char c = c.
Proof.
  destruct c as [[] [] [] [] [] [] [] []]; vm_compute;
    intros; try discriminate; reflexivity.
Qed.

Lemma lower_char_upper_char (c : ascii) :
  islower c = true -> lower_char (upper_char c) = c.
Proof.
  destruct c as [[] [] [] [] [] [] [] []]; vm_compute;
    intros; try discriminate; reflexivity.
Qed.

Lemma letter_not_space (c : ascii) :
  islower c = true -> isspace c = false /\ isspace (upper_char c) = false.
Proof.
  destruct c as [[] [] [] [] [] [] [] []]; vm_compute;
    intros; try discriminate; split; reflexivity.
Qed.

Lemma case_variant_lower (s t : string) :
  case_variant s t -> all_lower t -> lower s = t.
Proof.
  induction 1 as [| c s t V IH | c s t V IH]; simpl.
  - reflexivity.
  - intros [L A]. rewrite (lower_char_of_lower c L), (IH A). reflexivity.
  - intros [L A]. rewrite (lower_char_upper_char c L), (IH A). reflexivity.
Qed.

Lemma case_variant_no_space (s t : string) :
  case_variant s t -> all_lower t -> no_space s.
Proof.
  induction 1 as [| c s t V IH | c s t V IH]; simpl.
  - trivial.
  - intros [L A]. split; [apply (letter_not_space c L) | apply (IH A)].
  - intros [L A]. split; [apply (letter_not_space c L) | apply (IH A)].
Qed.

Lemma lstrip_spaces (w x : string) :
  all_space w -> lstrip_by isspace (w ++ x) = lstrip_by isspace x.
Proof.
  induction w as [| c w IH]; simpl.
  - reflexivity.
  - intros [C A]. rewrite C. apply (IH A).
Qed.

Lemma rstrip_spaces (w : string) :
  all_space w -> rstrip_by isspace w = EmptyString.
Proof.
  induction w as [| c w IH]; simpl.
  - reflexivity.
  - intros [C A]. rewrite (IH A), C. reflexivity.
Qed.

Lemma rstrip_word (t w : string) :
  no_space t -> all_space w -> rstrip_by isspace (t ++ w) = t.
Proof.
  intros N A. induction t as [| c t IH]; simpl.
  - apply (rstrip_spaces w A).
  - destruct N as [C N]. rewrite (IH N).
    destruct t; [rewrite C |]; reflexivity.
Qed.

Lemma lstrip_word (t w : string) :
  no_space t -> all_space w ->
  rstrip_by isspace (lstrip_by isspace (t ++ w)) = t.
Proof.
  intros N A. destruct t as [| c t].
  - simpl. clear N. induction w as [| c w IH]; simpl.
    + reflexivity.
    + destruct A as [C A]. rewrite C. apply (IH A).
  - change (lstrip_by isspace (String c t ++ w))
      with (if isspace c then lstrip_by isspace (t ++ w)
            else String c (t ++ w)).
    destruct N as [C N]. rewrite C.
    apply (rstrip_word (String c t) w); [split; assumption | assumption].
Qed.

Lemma strip_padded_word (w1 t w2 : string) :
  all_space w1 -> all_space w2 -> no_space t ->
  strip (w1 ++ t ++ w2) = t.
Proof.
  intros A1 A2 N. unfold strip.
  rewrite (lstrip_spaces w1 _ A1). apply (lstrip_word t w2 N A2).
Qed.

Lemma spells_titanium_normalised (m : string) :
  spells_titanium m -> lower (strip m) = "titanium"%string.
Proof.
  intros (w1 & t & w2 & -> & A1 & A2 & V).
  assert (L : all_lower "titanium") by (simpl; repeat split).
  rewrite (strip_padded_word w1 t w2 A1 A2 (case_variant_no_space _ _ V L)).
  apply (case_variant_lower _ _ V L).
Qed.

(** ** The duty classification *)

Lemma Qltb_spec (x y : Q) : reflect (x < y) (x <? y).
Proof.
  unfold Qltb. destruct (Qle_bool y x) eqn:E; constructor.
  - apply Qle_bool_iff in E. apply Qle_not_lt. exact E.
  - apply Qnot_le_lt. intros H. apply Qle_bool_iff in H. congruence.
Qed.

Lemma Qleb_spec (x y : Q) : reflect (x <= y) (x <=? y).
Proof.
  destruct (Qle_bool x y) eqn:E; constructor.
  - apply Qle_bool_iff. exact E.
  - intros H. apply Qle_bool_iff in H. congruence.
Qed.

Lemma below_both_strict (a b : Q) :
  down_closed (fun x y => (x <? a) && (y <? b)).
Proof.
  intros x y x' y' Hx Hy H. apply andb_true_iff in H as [H1 H2].
  destruct (Qltb_spec x' a); [| discriminate].
  destruct (Qltb_spec y' b); [| discriminate].
  apply andb_true_iff. split.
  - destruct (Qltb_spec x a); [reflexivity | exfalso; lra].
  - destruct (Qltb_spec y b); [reflexivity | exfalso; lra].
Qed.

Lemma below_both (a b : Q) :
  down_closed (fun x y => (x <=? a) && (y <=? b)).
Proof.
  intros x y x' y' Hx Hy H. apply andb_true_iff in H as [H1 H2].
  destruct (Qleb_spec x' a); [| discriminate].
  destruct (Qleb_spec y' b); [| discriminate].
  apply andb_true_iff. split.
  - destruct (Qleb_spec x a); [reflexivity | exfalso; lra].
  - destruct (Qleb_spec y b); [reflexivity | exfalso; lra].
Qed.

Lemma below_one (a : Q) : down_closed (fun x _ => x <=? a).
Proof.
  intros x y x' y' Hx Hy H.
  destruct (Qleb_spec x' a); [| discriminate].
  destruct (Qleb_spec x a); [reflexivity | exfalso; lra].
Qed.

Lemma below_one_strict (a : Q) : down_closed (fun x _ => x <? a).
Proof.
  intros x y x' y' Hx Hy H.
  destruct (Qltb_spec x' a); [| discriminate].
  destruct (Qltb_spec x a); [reflexivity | exfalso; lra].
Qed.

(** Two nested tests that are closed downwards classify monotonically. *)
Lemma thresholds_monotone (P1 P2 : Q -> Q -> bool) (x y x' y' : Q) :
  down_closed P1 -> down_closed P2 -> x <= x' -> y <= y' ->
  duty_le (if P1 x y then light else if P2 x y then medium else heavy)
          (if P1 x' y' then light else if P2 x' y' then medium else heavy).
Proof.
  intros D1 D2 Hx Hy. unfold duty_le.
  destruct (P1 x' y') eqn:E1.
  - rewrite (D1 _ _ _ _ Hx Hy E1). simpl. lia.
  - destruct (P2 x' y') eqn:E2.
    + rewrite (D2 _ _ _ _ Hx Hy E2). destruct (P1 x y); simpl; lia.
    + destruct (P1 x y); [| destruct (P2 x y)]; simpl; lia.
Qed.

Lemma py_max3_monotone (a b c a' b' c' : Q) :
  a <= a' -> b <= b' -> c <= c' -> py_max3 a b c <= py_max3 a' b' c'.
Proof.
  intros Ha Hb Hc. unfold py_max3.
  destruct (Qltb_spec a b), (Qltb_spec a' b');
    match goal with
    | |- context [Qltb ?m c] => destruct (Qltb_spec m c)
    end;
    match goal with
    | |- context [Qltb ?m c'] => destruct (Qltb_spec m c')
    end; lra.
Qed.

Lemma adjust_duty_monotone (b b' : DutyCategory) (op mat : string) :
  duty_le b b' -> duty_le (adjust_duty b op mat) (adjust_duty b' op mat).
Proof.
  unfold adjust_duty.
  destruct (str_in mat _), (mat =? "titanium")%string, (str_in op _);
    destruct b, b'; unfold duty_le; vm_compute; intros H E;
    first [discriminate E | exact (H eq_refl)].
Qed.

Lemma adjust_duty_titanium (b : DutyCategory) (op : string) :
  adjust_duty b op "titanium" = heavy.
Proof.
  unfold adjust_duty. destruct (str_in op _); destruct b; reflexivity.
Qed.

Lemma dims_le_lookup (d d' : dict) (k : string) (x : Q) :
  dims_le d d' -> dict_get k d = Some x ->
  exists y, dict_get k d' = Some y /\ x <= y.
Proof.
  intros L H. specialize (L k). rewrite H in L.
  destruct (dict_get k d') as [y|]; [| contradiction].
  exists y. split; [reflexivity | exact L].
Qed.

Ltac by_thresholds :=
  match goal with
  | |- duty_le (if (?x <? ?a) && (?y <? ?b) then _
                else if (_ <=? ?a2) && (_ <=? ?b2) then _ else _) _ =>
      apply (thresholds_monotone (fun u v => (u <? a) && (v <? b))
                                 (fun u v => (u <=? a2) && (v <=? b2)) x y);
      auto using below_both_strict, below_both
  | |- duty_le (if (?x <=? ?a) && (?y <=? ?b) then _
                else if (_ <=? ?a2) && (_ <=? ?b2) then _ else _) _ =>
      apply (thresholds_monotone (fun u v => (u <=? a) && (v <=? b))
                                 (fun u v => (u <=? a2) && (v <=? b2)) x y);
      auto using below_both
  end.

Lemma geometry_round_monotone (d d' : dict) (op mat : string)
    (dv lv dv' lv' : Q) :
  dict_get "diameter" d = Some dv -> dict_get "length" d = Some lv ->
  dict_get "diameter" d' = Some dv' -> dict_get "length" d' = Some lv' ->
  dv <= dv' -> lv <= lv' ->
  exists b b',
    base_by_geometry "round" d op mat = Ok (Some b)
    /\ base_by_geometry "round" d' op mat = Ok (Some b')
    /\ duty_le b b'.
Proof.
  intros Hd Hl Hd' Hl' Ld Ll.
  unfold base_by_geometry, all_in, dict_in, subscript.
  change (("round" =? "rectangular")%string) with false.
  change (("round" =? "round")%string) with true.
  cbn [forallb andb]. rewrite Hd, Hl, Hd', Hl'. cbn [andb bind].
  do 2 eexists. split; [reflexivity |]. split; [reflexivity |].
  destruct (str_in op _);
    [ destruct (mat =? "aluminium")%string;
      [| destruct (mat =? "steel")%string;
         [| destruct (mat =? "titanium")%string ] ] | ];
    by_thresholds.
Qed.

Lemma geometry_rectangular_monotone (d d' : dict) (op mat : string)
    (lv bv hv lv' bv' hv' : Q) :
  dict_get "length" d = Some lv -> dict_get "breadth" d = Some bv ->
  dict_get "height" d = Some hv ->
  dict_get "length" d' = Some lv' -> dict_get "breadth" d' = Some bv' ->
  dict_get "height" d' = Some hv' ->
  lv <= lv' -> bv <= bv' -> hv <= hv' ->
  exists b b',
    base_by_geometry "rectangular" d op mat = Ok (Some b)
    /\ base_by_geometry "rectangular" d' op mat = Ok (Some b')
    /\ duty_le b b'.
Proof.
  intros Hl Hb Hh Hl' Hb' Hh' Ll Lb Lh.
  unfold base_by_geometry, all_in, dict_in, subscript.
  change (("rectangular" =? "rectangular")%string) with true.
  cbn [forallb andb]. rewrite Hl, Hb, Hh, Hl', Hb', Hh'. cbn [andb bind].
  do 2 eexists. split; [reflexivity |]. split; [reflexivity |].
  apply (thresholds_monotone (fun u _ => u <=? 750) (fun u _ => u <=? 1500)
                             (py_max3 lv bv hv) 0 (py_max3 lv' bv' hv') 0);
    auto using below_one, py_max3_monotone. lra.
Qed.

Lemma geometry_unsupported (shape : string) (d : dict) (op mat : string) :
  (shape =? "round")%string = false ->
  (shape =? "rectangular")%string = false ->
  base_by_geometry shape d op mat = Ok None.
Proof.
  intros R S. unfold base_by_geometry. rewrite R, S. reflexivity.
Qed.

Lemma material_factor_positive (mat : string) :
  0 < get_default material_factor_table mat 1.0.
Proof.
  unfold get_default, material_factor_table. cbn [find fst snd].
  repeat match goal with
         | |- context [if ?c then _ else _] => destruct c
         end; reflexivity.
Qed.

Lemma operation_factor_positive (op : string) :
  0 < get_default operation_factor_table op 1.0.
Proof.
  unfold get_default, operation_factor_table. cbn [find fst snd].
  repeat match goal with
         | |- context [if ?c then _ else _] => destruct c
         end; reflexivity.
Qed.

Lemma volume_returns (shape : string) (d : dict) (op mat : string)
    (lv bv hv : Q) :
  (shape =? "round")%string = false ->
  dict_get "length" d = Some lv -> dict_get "breadth" d = Some bv ->
  dict_get "height" d = Some hv ->
  base_by_volume shape d op mat
  = Ok (let score := (lv * bv * hv / 1000000)
                     * get_default material_factor_table mat 1.0
                     * get_default operation_factor_table op 1.0 in
        if score <? 5 then light
        else if score <? 20 then medium
        else heavy).
Proof.
  intros R Hl Hb Hh. unfold base_by_volume, subscript.
  rewrite R, Hl, Hb, Hh. reflexivity.
Qed.

Lemma product_monotone (a b c a' b' c' : Q) :
  0 < a -> 0 < b -> 0 < c -> a <= a' -> b <= b' -> c <= c' ->
  a * b * c <= a' * b' * c'.
Proof.
  intros Pa Pb Pc La Lb Lc.
  assert (H1 : a * b <= a' * b').
  { apply Qle_trans with (a * b').
    - rewrite !(Qmult_comm a). apply Qmult_le_compat_r; lra.
    - apply Qmult_le_compat_r; lra. }
  apply Qle_trans with (a * b * c').
  - rewrite !(Qmult_comm (a * b)). apply Qmult_le_compat_r; [lra |].
    apply Qmult_le_0_compat; lra.
  - apply Qmult_le_compat_r; lra.
Qed.

Lemma volume_monotone (shape : string) (d d' : dict) (op mat : string)
    (lv bv hv lv' bv' hv' : Q) :
  (shape =? "round")%string = false ->
  dict_get "length" d = Some lv -> dict_get "breadth" d = Some bv ->
  dict_get "height" d = Some hv ->
  dict_get "length" d' = Some lv' -> dict_get "breadth" d' = Some bv' ->
  dict_get "height" d' = Some hv' ->
  0 < lv -> 0 < bv -> 0 < hv ->
  lv <= lv' -> bv <= bv' -> hv <= hv' ->
  exists b b',
    base_by_volume shape d op mat = Ok b
    /\ base_by_volume shape d' op mat = Ok b'
    /\ duty_le b b'.
Proof.
  intros R Hl Hb Hh Hl' Hb' Hh' Pl Pb Ph Ll Lb Lh.
  rewrite (volume_returns shape d op mat lv bv hv R Hl Hb Hh).
  rewrite (volume_returns shape d' op mat lv' bv' hv' R Hl' Hb' Hh').
  do 2 eexists. split; [reflexivity |]. split; [reflexivity |].
  cbv zeta.
  pose proof (material_factor_positive mat) as Pm.
  pose proof (operation_factor_positive op) as Po.
  pose proof (product_monotone lv bv hv lv' bv' hv' Pl Pb Ph Ll Lb Lh) as V.
  set (mf := get_default material_factor_table mat 1.0) in *.
  set (f := get_default operation_factor_table op 1.0) in *.
  match goal with
  | |- duty_le (if ?s <? 5 then _ else _) (if ?s' <? 5 then _ else _) =>
      apply (thresholds_monotone (fun u _ => u <? 5) (fun u _ => u <? 20)
                                 s 0 s' 0);
        auto using below_one_strict; [| lra]
  end.
  apply Qmult_le_compat_r; [| lra].
  apply Qmult_le_compat_r; [| lra].
  apply Qmult_le_compat_r; [exact V | vm_compute; discriminate].
Qed.

(** C7. For every material, operation and shape with its valid dimension
    set, [determine_duty_category] is monotone in the size: when no dimension
    decreases (in particular when one of diameter, length, breadth, height
    grows and the others stay), it returns for both parts and the duty of
    the larger part is not lower in the order light < medium < heavy. *)
Theorem duty_monotone_in_size (shape material operation : string)
    (d d' : dict) :
  valid_dimension_set shape d -> dims_le d d' ->
  exists c c',
    determine_duty_category shape d material operation = Ok c
    /\ determine_duty_category shape d' material operation = Ok c'
    /\ duty_le c c'.
Proof.
  intros V L. unfold determine_duty_category.
  set (op := lower (strip operation)). set (mat := lower (strip material)).
  unfold valid_dimension_set in V.
  destruct (shape =? "round")%string eqn:R.
  - apply String.eqb_eq in R. subst shape.
    destruct V as [(dv & Hd & Pd) (lv & Hl & Pl)].
    destruct (dims_le_lookup d d' _ _ L Hd) as (dv' & Hd' & Ld).
    destruct (dims_le_lookup d d' _ _ L Hl) as (lv' & Hl' & Ll).
    destruct (geometry_round_monotone d d' op mat dv lv dv' lv'
                Hd Hl Hd' Hl' Ld Ll) as (b & b' & E & E' & Lb).
    rewrite E, E'. cbn [bind].
    do 2 eexists. split; [reflexivity |]. split; [reflexivity |].
    apply adjust_duty_monotone. exact Lb.
  - destruct V as [(lv & Hl & Pl) [(bv & Hb & Pb) (hv & Hh & Ph)]].
    destruct (dims_le_lookup d d' _ _ L Hl) as (lv' & Hl' & Ll).
    destruct (dims_le_lookup d d' _ _ L Hb) as (bv' & Hb' & Lb).
    destruct (dims_le_lookup d d' _ _ L Hh) as (hv' & Hh' & Lh).
    destruct (shape =? "rectangular")%string eqn:S.
    + apply String.eqb_eq in S. subst shape.
      destruct (geometry_rectangular_monotone d d' op mat
                  lv bv hv lv' bv' hv' Hl Hb Hh Hl' Hb' Hh' Ll Lb Lh)
        as (b & b' & E & E' & Le).
      rewrite E, E'. cbn [bind].
      do 2 eexists. split; [reflexivity |]. split; [reflexivity |].
      apply adjust_duty_monotone. exact Le.
    + rewrite !(geometry_unsupported shape _ op mat R S). cbn [bind].
      destruct (volume_monotone shape d d' op mat lv bv hv lv' bv' hv'
                  R Hl Hb Hh Hl' Hb' Hh' Pl Pb Ph Ll Lb Lh)
        as (b & b' & E & E' & Le).
      rewrite E, E'. cbn [bind].
      do 2 eexists. split; [reflexivity |]. split; [reflexivity |].
      apply adjust_duty_monotone. exact Le.
Qed.

Lemma dims_le_refl (d : dict) : dims_le d d.
Proof.
  intros k. destruct (dict_get k d); [apply Qle_refl | exact I].
Qed.

(** With its dimension set complete, the classification returns. *)
Lemma determine_duty_category_returns (shape material operation : string)
    (d : dict) :
  complete_dimension_set shape d ->
  exists c, determine_duty_category shape d material operation = Ok c.
Proof.
  intros C. unfold determine_duty_category.
  set (op := lower (strip operation)). set (mat := lower (strip material)).
  unfold complete_dimension_set in C.
  destruct (shape =? "round")%string eqn:R.
  - apply String.eqb_eq in R. subst shape.
    destruct C as [(dv & Hd) (lv & Hl)].
    destruct (geometry_round_monotone d d op mat dv lv dv lv
                Hd Hl Hd Hl (Qle_refl _) (Qle_refl _)) as (b & _ & E & _).
    rewrite E. cbn [bind]. eexists. reflexivity.
  - destruct C as [(lv & Hl) [(bv & Hb) (hv & Hh)]].
    destruct (shape =? "rectangular")%string eqn:S.
    + apply String.eqb_eq in S. subst shape.
      destruct (geometry_rectangular_monotone d d op mat
                  lv bv hv lv bv hv Hl Hb Hh Hl Hb Hh
                  (Qle_refl _) (Qle_refl _) (Qle_refl _)) as (b & _ & E & _).
      rewrite E. cbn [bind]. eexists. reflexivity.
    + rewrite (geometry_unsupported shape _ op mat R S). cbn [bind].
      rewrite (volume_returns shape d op mat lv bv hv R Hl Hb Hh).
      cbn [bind]. eexists. reflexivity.
Qed.

(** C9. For a material spelled "titanium" in any letter case and between any
    white space, [determine_duty_category] never returns light or medium:
    whatever it returns is heavy, and with the dimension set of the shape
    complete it does return heavy, for every shape and operation. *)
Theorem titanium_is_heavy (shape material operation : string) (d : dict) :
  spells_titanium material ->
  (forall c, determine_duty_category shape d material operation = Ok c ->
             c = heavy)
  /\ (complete_dimension_set shape d ->
      determine_duty_category shape d material operation = Ok heavy).
Proof.
  intros T. apply spells_titanium_normalised in T.
  assert (A : forall c,
             determine_duty_category shape d material operation = Ok c ->
             c = heavy).
  { intros c. unfold determine_duty_category. rewrite T.
    destruct (base_by_geometry _ _ _ _) as [[b|]|e]; cbn [bind].
    - intros E. injection E as <-. apply adjust_duty_titanium.
    - destruct (base_by_volume _ _ _ _) as [b|e]; cbn [bind].
      + intros E. injection E as <-. apply adjust_duty_titanium.
      + discriminate.
    - discriminate. }
  split; [exact A |].
  intros C.
  destruct (determine_duty_category_returns shape material operation d C)
    as (c & E).
  rewrite E. f_equal. apply (A c E).
Qed.

(** * The statements at concrete inputs *)

(** The record found by identifiers yields the rate computed from its cost
    drivers; a record whose drivers do not parse yields its stored rate,
    found by the scan when no identifier is given. *)
Example exact_record_example :
  get_machine_hour_rate numeral configured_db "boring" "medium" "CNC Lathe"
                        (Some 1%Z) (Some 1%Z) (Some 1%Z)
  = Ok (1000000 * 0.10 / (2400 * (1 - 0.15)) + 10 * 5).
Proof. reflexivity. Qed.

Example scan_example :
  get_machine_hour_rate numeral configured_db " Drilling" "light_duty"
                        "bench drill press" None None None
  = Ok 999.
Proof. reflexivity. Qed.

Example failing_store_example :
  get_machine_hour_rate numeral failing_db " Drilling" "light_duty"
                        "bench drill press" None None None
  = Raise (ValueError MHR_NOT_CONFIGURED).
Proof. reflexivity. Qed.

Lemma scenario_amended_witness :
  query_machine_by_name scenario_db "CNC Lathe"
  = Ok (Some {| Machine_id := 1; Machine_name := "CNC Lathe";
                Machine_op_id := Some 1%Z |})
  /\ exists resp,
       calculate_cost_estimation (fun _ => None) scenario_db scenario_request
       = Ok resp
       /\ cb_machine_hour_rate (resp_cost_breakdown resp) == 231.86
       /\ cb_unit_cost (resp_cost_breakdown resp) == 240.84.
Proof.
  split; [reflexivity |].
  destruct (scenario_amended (fun _ => None) scenario_db _ eq_refl)
    as (_ & _ & _ & _ & _ & _ & _ & _ & _ & resp & E & _ & _ & _ & B & _ & _
        & _ & _ & _ & U & _).
  exists resp. split; [exact E |]. split; [exact B | exact U].
Defined.

Lemma methodology_entry_wins_witness :
  In ((lower (strip " Turning"), lower (strip "MEDIUM"),
       _category_bucket (determine_machine_category "CNC Lathe")),
      (6000000, 15, 4500, 0.15)) methodology_table
  /\ get_machine_hour_rate numeral configured_db " Turning" "MEDIUM"
       "CNC Lathe" (Some 1%Z) (Some 1%Z) (Some 1%Z)
     = Ok (6000000 * 0.10 / (4500 * (1 - 0.15)) + 15 * 5).
Proof.
  assert (H : In ((lower (strip " Turning"), lower (strip "MEDIUM"),
                   _category_bucket (determine_machine_category "CNC Lathe")),
                  (6000000, 15, 4500, 0.15)) methodology_table).
  { simpl. do 3 right. left. reflexivity. }
  split; [exact H |].
  apply (methodology_entry_wins numeral configured_db " Turning" "MEDIUM"
           "CNC Lathe" (Some 1%Z) (Some 1%Z) (Some 1%Z) _ _ _ _ H).
Defined.

Lemma fallback_rate_witness :
  get_machine_hour_rate numeral failing_db "drilling" "light" "Bench Drill"
                        None None None
  = Raise (ValueError MHR_NOT_CONFIGURED)
  /\ get_machine_hour_rate_with_fallback numeral failing_db
       "drilling" "light" "Bench Drill"
     = Ok ((1000000 * 0.10 / (2400 * (1 - 0.07)) + 15 * 5) * 1.05).
Proof.
  split; [reflexivity |].
  exact (proj2 (fallback_rate numeral failing_db
                  "drilling" "light" "Bench Drill") _ eq_refl).
Defined.

Lemma get_machine_hour_rate_raises_iff_witness :
  (methodology_rate "drilling" "light" "Bench Drill" = None
   /\ yields_nothing (exact_record_rate numeral failing_db "drilling" "light"
                        "Bench Drill" (Some 2%Z) None None)
   /\ yields_nothing (second_try numeral failing_db "drilling" "light"
                                 "Bench Drill"))
  /\ exists e,
       get_machine_hour_rate numeral failing_db "drilling" "light"
                             "Bench Drill" (Some 2%Z) None None = Raise e.
Proof.
  assert (H : methodology_rate "drilling" "light" "Bench Drill" = None
              /\ yields_nothing (exact_record_rate numeral failing_db
                                   "drilling" "light" "Bench Drill"
                                   (Some 2%Z) None None)
              /\ yields_nothing (second_try numeral failing_db
                                   "drilling" "light" "Bench Drill")).
  { split; [reflexivity |].
    split; intros b E; vm_compute in E; discriminate E. }
  split; [exact H |].
  exact (proj2 (proj1 (get_machine_hour_rate_raises_iff numeral failing_db
                         "drilling" "light" "Bench Drill"
                         (Some 2%Z) None None)) H).
Defined.

Lemma nrc_amortization_amended_witness :
  (-5 < 0)%Z
  /\ nrc_per_unit (calculate_nrc_amortization 100 0 0 0 0 10 (Some (-5)%Z))
     == 0.
Proof.
  split; [reflexivity |].
  destruct (nrc_amortization_amended 100 0 0 0 0 10 (Some (-5)%Z))
    as (_ & _ & _ & _ & _ & H & _).
  apply (H (-5)%Z eq_refl). reflexivity.
Defined.

Lemma validation_amended_witness :
  validate_dimensions_by_operation (Some MILLING)
    {| diameter := Some 50; length := 200; breadth := None; height := None |}
  = Raise (ValueError
      "For milling operation, 'length', 'breadth', and 'height' are required")
  /\ exists msg,
       ValueError
         "For milling operation, 'length', 'breadth', and 'height' are required"
       = ValueError msg
       /\ contains "milling" msg = true
       /\ (forall f, In f ["breadth"; "height"]%string ->
                     contains f msg = true)
       /\ (["breadth"; "height"]%string = [] ->
           forall f, In f ["length"; "breadth"; "height"]%string ->
                     contains f msg = true)
       /\ (forall f, In f ["diameter"]%string -> contains f msg = false).
Proof.
  split; [reflexivity |].
  exact (proj2 (proj2 (validation_amended MILLING
           {| diameter := Some 50; length := 200;
              breadth := None; height := None |})) _ eq_refl).
Defined.

Lemma duty_monotone_in_size_witness :
  valid_dimension_set "round" steel_bar
  /\ dims_le steel_bar thicker_bar
  /\ exists c c',
       determine_duty_category "round" steel_bar "steel" "turning" = Ok c
       /\ determine_duty_category "round" thicker_bar "steel" "turning"
          = Ok c'
       /\ duty_le c c'.
Proof.
  assert (V : valid_dimension_set "round" steel_bar).
  { split; eexists; split; reflexivity. }
  assert (L : dims_le steel_bar thicker_bar).
  { intros k. unfold steel_bar, thicker_bar. simpl.
    destruct (k =? "diameter")%string; [discriminate |].
    destruct (k =? "length")%string; [discriminate | exact I]. }
  split; [exact V |]. split; [exact L |].
  exact (duty_monotone_in_size "round" "steel" "turning"
                               steel_bar thicker_bar V L).
Defined.

Lemma titanium_is_heavy_witness :
  spells_titanium "  TiTaNiUM "
  /\ complete_dimension_set "round" steel_bar
  /\ determine_duty_category "round" steel_bar "  TiTaNiUM " "grinding"
     = Ok heavy.
Proof.
  assert (T : spells_titanium "  TiTaNiUM ").
  { exists "  "%string, "TiTaNiUM"%string, " "%string.
    split; [reflexivity |].
    split; [simpl; auto |].
    split; [simpl; auto |].
    apply (cv_upper "t"). apply cv_keep. apply (cv_upper "t").
    apply cv_keep. apply (cv_upper "n"). apply cv_keep.
    apply (cv_upper "u"). apply (cv_upper "m"). apply cv_empty. }
  assert (C : complete_dimension_set "round" steel_bar).
  { split; eexists; reflexivity. }
  split; [exact T |]. split; [exact C |].
  exact (proj2 (titanium_is_heavy "round" "  TiTaNiUM " "grinding"
                                  steel_bar T) C).
Defined.

Lemma material_cost_unmatched_geometry_witness :
  ~ ("rectangular"%string = "round"%string
     /\ dict_in "diameter" steel_bar = true
     /\ dict_in "length" steel_bar = true)
  /\ ~ ("rectangular"%string = "rectangular"%string
        /\ dict_in "length" steel_bar = true
        /\ dict_in "breadth" steel_bar = true
        /\ dict_in "height" steel_bar = true)
  /\ exists r,
       calculate_material_cost "steel" steel_bar "rectangular" 85 false = Ok r
       /\ material_cost_per_unit r == 0
       /\ material_weight_kg r == 0
       /\ (exists v, volume_cm3 r = Some v /\ v == 0)
       /\ is_free_issue r = false.
Proof.
  assert (R : ~ ("rectangular"%string = "round"%string
                 /\ dict_in "diameter" steel_bar = true
                 /\ dict_in "length" steel_bar = true)).
  { intros [E _]. discriminate E. }
  assert (S : ~ ("rectangular"%string = "rectangular"%string
                 /\ dict_in "length" steel_bar = true
                 /\ dict_in "breadth" steel_bar = true
                 /\ dict_in "height" steel_bar = true)).
  { intros (_ & _ & E & _). vm_compute in E. discriminate E. }
  split; [exact R |]. split; [exact S |].
  exact (material_cost_unmatched_geometry "steel" steel_bar "rectangular"
                                          85 R S).
Defined.

(** * Further properties of the code *)

(** ** Machine category, wage rate and machine selection *)

Lemma lower_char_idempotent (c : ascii) :
  lower_char (lower_char c) = lower_char c.
Proof.
  destruct c as [[] [] [] [] [] [] [] []]; reflexivity.
Qed.

Lemma lower_char_after_upper (c : ascii) :
  (nat_of_ascii c <? 128)%nat = true ->
  lower_char (upper_char c) = lower_char c.
Proof.
  destruct c as [[] [] [] [] [] [] [] []]; intros A;
    first [reflexivity | discriminate A].
Qed.

Lemma lower_idempotent (s : string) : lower (lower s) = lower s.
Proof.
  induction s as [| c s IH]; simpl; [reflexivity |].
  rewrite lower_char_idempotent, IH. reflexivity.
Qed.

Lemma lower_after_upper (s : string) :
  isascii s = true -> lower (upper s) = lower s.
Proof.
  induction s as [| c s IH]; cbn [isascii lower upper]; [reflexivity |].
  intros A. apply andb_true_iff in A as [Ac As].
  rewrite (lower_char_after_upper c Ac), (IH As). reflexivity.
Qed.

(** X1. For a machine name made of ASCII characters the category does not
    depend on the letter case: the name in upper case and the name in lower
    case are classified like the name itself. *)
Theorem machine_category_ignores_case (machine_name : string) :
  isascii machine_name = true ->
  determine_machine_category (upper machine_name)
  = determine_machine_category machine_name
  /\ determine_machine_category (lower machine_name)
     = determine_machine_category machine_name.
Proof.
  intros A. unfold determine_machine_category.
  rewrite (lower_after_upper _ A), lower_idempotent. split; reflexivity.
Qed.

Lemma machine_category_ignores_case_witness :
  isascii "Special Purpose Lathe" = true
  /\ determine_machine_category (upper "Special Purpose Lathe")
     = determine_machine_category "Special Purpose Lathe"
  /\ determine_machine_category (lower "Special Purpose Lathe")
     = determine_machine_category "Special Purpose Lathe".
Proof.
  split; [reflexivity |].
  exact (machine_category_ignores_case "Special Purpose Lathe" eq_refl).
Defined.

(** X2. The wage rate is 75 exactly for the names that carry none of the
    keywords "cnc", "precision", "spm", "special" (in any letter case), and
    100 for every other name. *)
Theorem wage_rate_by_keywords (machine_name : string) :
  (no_category_keyword machine_name -> get_wage_rate machine_name == 75)
  /\ (~ no_category_keyword machine_name -> get_wage_rate machine_name == 100)
  /\ (get_wage_rate machine_name == 75 \/ get_wage_rate machine_name == 100).
Proof.
  unfold no_category_keyword, get_wage_rate, determine_machine_category.
  set (l := lower machine_name).
  destruct (contains "cnc" l); destruct (contains "precision" l);
    destruct (contains "spm" l); destruct (contains "special" l);
    cbn [orb];
    try destruct (contains "5" l || contains "five" l
                  || contains "5 axis" l || contains "5-axis" l);
    (split; [| split]);
    try (intros (H1 & H2 & H3 & H4); discriminate);
    try (intros H; exfalso; apply H; repeat split; reflexivity);
    try (intros _; vm_compute; reflexivity);
    try (left; vm_compute; reflexivity);
    try (right; vm_compute; reflexivity).
Qed.

Lemma wage_rate_by_keywords_witness :
  no_category_keyword "Bench Drill" /\ get_wage_rate "Bench Drill" == 75.
Proof.
  assert (H : no_category_keyword "Bench Drill") by (repeat split).
  split; [exact H |].
  exact (proj1 (wage_rate_by_keywords "Bench Drill") H).
Defined.

Ltac case_string x lit :=
  let E := fresh "E" in
  destruct (String.eqb_spec x lit) as [E | E]; [subst x |].

(** X3. For a supplied category, the machine [select_machine] names is
    classified back into that category by [determine_machine_category],
    except for cnc_5axis on turning, drilling, grinding and boring, where the
    name it picks belongs to another category. *)
Theorem select_machine_category_round_trip
    (operation duty material category : string) :
  known_category category ->
  (determine_machine_category
     (fst (select_machine operation duty material (Some category)))
   = category
   <-> ~ (category = "cnc_5axis"%string
          /\ In operation ["turning"; "drilling"; "grinding"; "boring"]%string)).
Proof.
  intros K. unfold known_category in K. simpl in K.
  unfold select_machine, machine_names, get_default. cbn [find fst snd].
  case_string operation "turning"%string;
    [| case_string operation "milling"%string;
       [| case_string operation "drilling"%string;
          [| case_string operation "grinding"%string;
             [| case_string operation "boring"%string ] ] ] ];
    destruct K as [<- | [<- | [<- | [<- | []]]]];
    (split;
     [ intros H;
       first [ discriminate H
             | intros [C I]; first [ discriminate C
                                   | simpl in I; intuition congruence ] ]
     | intros H;
       first [ reflexivity
             | exfalso; apply H; split; [reflexivity | simpl; tauto] ] ]).
Qed.

Lemma select_machine_category_round_trip_witness :
  known_category "spm"
  /\ determine_machine_category
       (fst (select_machine "grinding" "heavy" "steel" (Some "spm"%string)))
     = "spm"%string.
Proof.
  assert (K : known_category "spm").
  { unfold known_category. simpl. do 3 right. left. reflexivity. }
  split; [exact K |].
  apply (proj2 (select_machine_category_round_trip
                  "grinding" "heavy" "steel" "spm" K)).
  intros [C _]. discriminate C.
Defined.

(** Without a supplied category [select_machine] never picks "spm": it
    picks cnc_5axis when the duty is "heavy" or the material is "titanium",
    cnc_3axis when the duty is "medium", and conventional for every other
    duty string; an empty category string counts as none. *)
Theorem select_machine_automatic (operation duty material : string) :
  snd (select_machine operation duty material None)
  = snd (select_machine operation duty material (Some ""%string))
  /\ In (snd (select_machine operation duty material None))
        ["cnc_5axis"; "cnc_3axis"; "conventional"]%string
  /\ (snd (select_machine operation duty material None) = "cnc_5axis"%string
      <-> duty = "heavy"%string \/ material = "titanium"%string)
  /\ (snd (select_machine operation duty material None) = "cnc_3axis"%string
      <-> duty = "medium"%string /\ material <> "titanium"%string).
Proof.
  unfold select_machine, auto_category. cbn [snd truthy].
  split; [reflexivity |].
  destruct (String.eqb_spec duty "heavy") as [Hh | Hh];
    destruct (String.eqb_spec material "titanium") as [Ht | Ht];
    destruct (String.eqb_spec duty "medium") as [Hm | Hm];
    cbn [orb]; simpl In;
    (split; [tauto |]);
    (split; split; intros H;
     first [ reflexivity | discriminate H | tauto | congruence
           | (destruct H; congruence) | (subst; discriminate) ]).
Qed.

(** ** Man-hours *)

(** X4. Without an effective override (none given, or 0) the man-hours of
    [calculate_man_hours] lie between 0.15 and 2 for every operation and
    duty string, and they are 0.5 whenever the operation is not one of the
    eight of the matrix or the duty is not light, medium or heavy; an
    override other than 0 is returned unchanged. *)
Theorem man_hours_range (operation duty : string) (o : Q) :
  0.15 <= calculate_man_hours operation duty None <= 2
  /\ (~ In operation ["turning"; "milling"; "drilling"; "grinding"; "boring";
                      "heat_treatment"; "welding"; "surface_treatment"]%string
      \/ ~ In duty ["light"; "medium"; "heavy"]%string ->
      calculate_man_hours operation duty None = 0.5)
  /\ (o == 0 ->
      calculate_man_hours operation duty (Some o)
      = calculate_man_hours operation duty None)
  /\ (~ o == 0 -> calculate_man_hours operation duty (Some o) = o).
Proof.
  split; [| split; [| split]].
  - unfold calculate_man_hours, MAN_HOURS_MATRIX, get_default.
    cbn [find fst snd].
    repeat match goal with
           | |- context [(operation =? ?l)%string] =>
               destruct (operation =? l)%string
           end;
    cbn [find fst snd];
    repeat match goal with
           | |- context [(duty =? ?l)%string] =>
               destruct (duty =? l)%string
           end;
    split; vm_compute; discriminate.
  - intros U. unfold calculate_man_hours, MAN_HOURS_MATRIX, get_default.
    cbn [find fst snd].
    repeat match goal with
           | |- context [(operation =? ?l)%string] =>
               destruct (String.eqb_spec operation l)
           end;
    cbn [find fst snd];
    repeat match goal with
           | |- context [(duty =? ?l)%string] =>
               destruct (String.eqb_spec duty l)
           end;
    try reflexivity;
    exfalso; destruct U as [U | U]; apply U; subst; simpl; auto 10.
  - intros E. unfold calculate_man_hours.
    apply Qeq_bool_iff in E. rewrite E. reflexivity.
  - intros N. unfold calculate_man_hours.
    destruct (Qeq_bool o 0) eqn:E; [| reflexivity].
    apply Qeq_bool_iff in E. contradiction.
Qed.

Lemma man_hours_range_witness :
  (~ In "lapping" ["turning"; "milling"; "drilling"; "grinding"; "boring";
                   "heat_treatment"; "welding"; "surface_treatment"]%string
   \/ ~ In "light" ["light"; "medium"; "heavy"]%string)
  /\ calculate_man_hours "lapping" "light" None = 0.5
  /\ ~ 3 == 0
  /\ calculate_man_hours "turning" "light" (Some 3) = 3.
Proof.
  assert (U : ~ In "lapping"%string
                ["turning"; "milling"; "drilling"; "grinding"; "boring";
                 "heat_treatment"; "welding"; "surface_treatment"]%string
              \/ ~ In "light"%string ["light"; "medium"; "heavy"]%string).
  { left. simpl.
    intros [H | [H | [H | [H | [H | [H | [H | [H | []]]]]]]]];
      discriminate H. }
  assert (N : ~ 3 == 0) by (intros H; discriminate H).
  split; [exact U |].
  split; [exact (proj1 (proj2 (man_hours_range "lapping" "light" 3)) U) |].
  split; [exact N |].
  exact (proj2 (proj2 (proj2 (man_hours_range "turning" "light" 3))) N).
Defined.

(** X5. For every operation string the tabulated man-hours do not decrease
    from light to medium to heavy duty. *)
Theorem man_hours_monotone_in_duty (operation : string) :
  calculate_man_hours operation "light" None
  <= calculate_man_hours operation "medium" None
  /\ calculate_man_hours operation "medium" None
     <= calculate_man_hours operation "heavy" None.
Proof.
  unfold calculate_man_hours, MAN_HOURS_MATRIX, get_default.
  cbn [find fst snd].
  repeat match goal with
         | |- context [(operation =? ?l)%string] =>
             destruct (operation =? l)%string
         end;
  split; vm_compute; discriminate.
Qed.

(** ** The duty classification: errors and adjustments *)

(** X6. [determine_duty_category] returns only when the dimension set of
    the shape is complete (diameter and length for "round"; length, breadth
    and height for every other shape). A "round" part without a diameter
    raises [KeyError] for "diameter"; any other shape raises [KeyError] for
    "length" when the length is missing, and for "breadth" when the length
    is there and the breadth is missing. *)
Theorem duty_category_key_errors (shape material operation : string)
    (d : dict) :
  (forall c, determine_duty_category shape d material operation = Ok c ->
             complete_dimension_set shape d)
  /\ (shape = "round"%string -> dict_get "diameter" d = None ->
      determine_duty_category shape d material operation
      = Raise (KeyError "diameter"))
  /\ (shape <> "round"%string -> dict_get "length" d = None ->
      determine_duty_category shape d material operation
      = Raise (KeyError "length"))
  /\ (shape <> "round"%string -> dict_get "length" d <> None ->
      dict_get "breadth" d = None ->
      determine_duty_category shape d material operation
      = Raise (KeyError "breadth")).
Proof.
  split; [| split; [| split]].
  - intros c Hc. revert Hc. unfold complete_dimension_set, present_at.
    destruct (shape =? "round")%string eqn:R.
    + apply String.eqb_eq in R. subst shape.
      destruct (dict_get "diameter" d) as [dv|] eqn:Hd;
        destruct (dict_get "length" d) as [lv|] eqn:Hl;
        try (intros _; split; eexists; reflexivity);
        unfold determine_duty_category, base_by_geometry, base_by_volume,
          all_in, dict_in, subscript;
        change (("round" =? "rectangular")%string) with false;
        change (("round" =? "round")%string) with true;
        cbn [forallb]; rewrite ?Hd, ?Hl; cbn [andb bind];
        intros Hc; discriminate Hc.
    + destruct (dict_get "length" d) as [lv|] eqn:Hl;
        destruct (dict_get "breadth" d) as [bv|] eqn:Hb;
        destruct (dict_get "height" d) as [hv|] eqn:Hh;
        try (intros _; repeat split; eexists; reflexivity);
        unfold determine_duty_category, base_by_geometry, base_by_volume,
          all_in, dict_in, subscript;
        rewrite R; cbn [forallb]; rewrite ?Hl, ?Hb, ?Hh;
        destruct (shape =? "rectangular")%string; cbn [andb bind];
        intros Hc; discriminate Hc.
  - intros -> Hd.
    unfold determine_duty_category, base_by_geometry, base_by_volume,
      all_in, dict_in, subscript.
    change (("round" =? "rectangular")%string) with false.
    change (("round" =? "round")%string) with true.
    cbn [forallb]. rewrite Hd. cbn [andb bind]. reflexivity.
  - intros R Hl. apply String.eqb_neq in R.
    unfold determine_duty_category, base_by_geometry, base_by_volume,
      all_in, dict_in, subscript.
    rewrite R. cbn [forallb]. rewrite Hl.
    destruct (shape =? "rectangular")%string; cbn [andb bind]; reflexivity.
  - intros R Hl Hb. apply String.eqb_neq in R.
    destruct (dict_get "length" d) as [lv|] eqn:El; [| contradiction].
    unfold determine_duty_category, base_by_geometry, base_by_volume,
      all_in, dict_in, subscript.
    rewrite R. cbn [forallb]. rewrite El, Hb.
    destruct (shape =? "rectangular")%string; cbn [andb bind]; reflexivity.
Qed.

Lemma duty_category_key_errors_witness :
  "rectangular"%string <> "round"%string
  /\ dict_get "length" [("length", 200)]%string <> None
  /\ dict_get "breadth" [("length", 200)]%string = None
  /\ determine_duty_category "rectangular" [("length", 200)]%string
                             "steel" "milling"
     = Raise (KeyError "breadth").
Proof.
  assert (R : "rectangular"%string <> "round"%string)
    by (intros H; discriminate H).
  assert (L : dict_get "length" [("length", 200)]%string <> None)
    by (intros H; discriminate H).
  split; [exact R |]. split; [exact L |]. split; [reflexivity |].
  exact (proj2 (proj2 (proj2
           (duty_category_key_errors "rectangular" "steel" "milling"
                                     [("length", 200)]%string)))
           R L eq_refl).
Defined.

Lemma adjust_duty_not_below (b : DutyCategory) (op mat : string) :
  duty_le b (adjust_duty b op mat).
Proof.
  unfold adjust_duty.
  destruct (str_in mat _), (mat =? "titanium")%string, (str_in op _);
    destruct b; unfold duty_le; vm_compute; intros E; discriminate E.
Qed.

Lemma adjust_duty_not_light (b : DutyCategory) (op mat : string) :
  str_in mat ["steel"; "titanium"]%string = true
  \/ str_in op ["heat_treatment"; "welding"]%string = true ->
  adjust_duty b op mat <> light.
Proof.
  unfold adjust_duty.
  destruct (str_in mat _), (mat =? "titanium")%string, (str_in op _);
    destruct b; intros [H | H]; try discriminate H;
    vm_compute; intros E; discriminate E.
Qed.

(** X7. The duty [determine_duty_category] returns is never below the duty
    its size thresholds give: the material and operation adjustments only
    raise it. *)
Theorem duty_adjustment_never_lowers (shape material operation : string)
    (d : dict) (b c : DutyCategory) :
  base_by_geometry shape d (lower (strip operation)) (lower (strip material))
  = Ok (Some b) ->
  determine_duty_category shape d material operation = Ok c ->
  duty_le b c.
Proof.
  intros B. unfold determine_duty_category. rewrite B. cbn [bind].
  intros E. injection E as <-. apply adjust_duty_not_below.
Qed.

Lemma duty_adjustment_never_lowers_witness :
  base_by_geometry "round" steel_bar (lower (strip " Welding"))
                   (lower (strip "Steel")) = Ok (Some light)
  /\ determine_duty_category "round" steel_bar "Steel" " Welding" = Ok heavy
  /\ duty_le light heavy.
Proof.
  split; [reflexivity |]. split; [reflexivity |].
  exact (duty_adjustment_never_lowers "round" "Steel" " Welding" steel_bar
                                      light heavy eq_refl eq_refl).
Defined.

(** X8. A steel or titanium part, and any part for heat treatment or
    welding, is never classified as light (material and operation compared
    after stripping and lower-casing). *)
Theorem hard_work_is_never_light (shape material operation : string)
    (d : dict) :
  In (lower (strip material)) ["steel"; "titanium"]%string
  \/ In (lower (strip operation)) ["heat_treatment"; "welding"]%string ->
  determine_duty_category shape d material operation <> Ok light.
Proof.
  intros H. unfold determine_duty_category.
  set (op := lower (strip operation)) in *.
  set (mat := lower (strip material)) in *.
  assert (S : str_in mat ["steel"; "titanium"]%string = true
              \/ str_in op ["heat_treatment"; "welding"]%string = true).
  { destruct H as [H | H]; [left | right]; simpl in H;
      destruct H as [<- | [<- | []]]; reflexivity. }
  destruct (base_by_geometry _ _ _ _) as [[b|]|e]; cbn [bind].
  - intros E. injection E as E. exact (adjust_duty_not_light b op mat S E).
  - destruct (base_by_volume _ _ _ _) as [b|e]; cbn [bind].
    + intros E. injection E as E. exact (adjust_duty_not_light b op mat S E).
    + discriminate.
  - discriminate.
Qed.

Lemma hard_work_is_never_light_witness :
  (In (lower (strip " STEEL ")) ["steel"; "titanium"]%string
   \/ In (lower (strip "turning")) ["heat_treatment"; "welding"]%string)
  /\ determine_duty_category "round" [("diameter", 1); ("length", 1)]%string
       " STEEL " "turning" <> Ok light.
Proof.
  assert (H : In (lower (strip " STEEL ")) ["steel"; "titanium"]%string
              \/ In (lower (strip "turning"))
                    ["heat_treatment"; "welding"]%string).
  { left. simpl. left. reflexivity. }
  split; [exact H |].
  exact (hard_work_is_never_light "round" " STEEL " "turning"
           [("diameter", 1); ("length", 1)]%string H).
Defined.

(** X9. Every material other than steel and titanium is classified like
    aluminium, for every shape, dimension set and operation. *)
Theorem other_materials_like_aluminium (shape material operation : string)
    (d : dict) :
  lower (strip material) <> "steel"%string ->
  lower (strip material) <> "titanium"%string ->
  determine_duty_category shape d material operation
  = determine_duty_category shape d "aluminium" operation.
Proof.
  intros NS NT. unfold determine_duty_category.
  change (lower (strip "aluminium")) with "aluminium"%string.
  set (op := lower (strip operation)). set (mat := lower (strip material)) in *.
  apply String.eqb_neq in NS. apply String.eqb_neq in NT.
  assert (G : base_by_geometry shape d op mat
              = base_by_geometry shape d op "aluminium").
  { unfold base_by_geometry. rewrite NS, NT.
    change (("aluminium" =? "aluminium")%string) with true.
    destruct (mat =? "aluminium")%string; reflexivity. }
  assert (V : base_by_volume shape d op mat
              = base_by_volume shape d op "aluminium").
  { unfold base_by_volume.
    assert (F : get_default material_factor_table mat 1.0
                = get_default material_factor_table "aluminium" 1.0).
    { unfold get_default, material_factor_table. cbn [find fst snd].
      rewrite NS, NT. destruct (mat =? "aluminium")%string; reflexivity. }
    rewrite F. reflexivity. }
  assert (A : forall b, adjust_duty b op mat = adjust_duty b op "aluminium").
  { intros b. unfold adjust_duty, str_in. cbn [existsb].
    rewrite NS, NT. reflexivity. }
  rewrite G, V.
  destruct (base_by_geometry shape d op "aluminium") as [[b|]|e];
    cbn [bind]; [rewrite A; reflexivity | | reflexivity].
  destruct (base_by_volume shape d op "aluminium") as [b|e]; cbn [bind];
    [rewrite A; reflexivity | reflexivity].
Qed.

Lemma other_materials_like_aluminium_witness :
  lower (strip "Brass") <> "steel"%string
  /\ lower (strip "Brass") <> "titanium"%string
  /\ determine_duty_category "round" steel_bar "Brass" "turning"
     = determine_duty_category "round" steel_bar "aluminium" "turning".
Proof.
  assert (NS : lower (strip "Brass") <> "steel"%string)
    by (intros H; discriminate H).
  assert (NT : lower (strip "Brass") <> "titanium"%string)
    by (intros H; discriminate H).
  split; [exact NS |]. split; [exact NT |].
  exact (other_materials_like_aluminium "round" "Brass" "turning"
                                        steel_bar NS NT).
Defined.

Lemma thresholds_tighter (P1 P2 P1' P2' : bool) :
  (P1' = true -> P1 = true) -> (P2' = true -> P2 = true) ->
  duty_le (if P1 then light else if P2 then medium else heavy)
          (if P1' then light else if P2' then medium else heavy).
Proof.
  unfold duty_le.
  destruct P1, P2, P1', P2'; simpl; intros H1 H2;
    try lia; try (specialize (H1 eq_refl); discriminate);
    try (specialize (H2 eq_refl); discriminate).
Qed.

Lemma strict_pair_weaker (x y a b a' b' : Q) :
  a' <= a -> b' <= b ->
  (x <? a') && (y <? b') = true -> (x <? a) && (y <? b) = true.
Proof.
  intros Ha Hb H. apply andb_true_iff in H as [H1 H2].
  destruct (Qltb_spec x a'); [| discriminate].
  destruct (Qltb_spec y b'); [| discriminate].
  apply andb_true_iff. split.
  - destruct (Qltb_spec x a); [reflexivity | exfalso; lra].
  - destruct (Qltb_spec y b); [reflexivity | exfalso; lra].
Qed.

Lemma pair_weaker (x y a b a' b' : Q) :
  a' <= a -> b' <= b ->
  (x <=? a') && (y <=? b') = true -> (x <=? a) && (y <=? b) = true.
Proof.
  intros Ha Hb H. apply andb_true_iff in H as [H1 H2].
  destruct (Qleb_spec x a'); [| discriminate].
  destruct (Qleb_spec y b'); [| discriminate].
  apply andb_true_iff. split.
  - destruct (Qleb_spec x a); [reflexivity | exfalso; lra].
  - destruct (Qleb_spec y b); [reflexivity | exfalso; lra].
Qed.

Lemma duty_le_refl (b : DutyCategory) : duty_le b b.
Proof. unfold duty_le. lia. Qed.

Lemma duty_le_heavy (b : DutyCategory) : duty_le b heavy.
Proof. destruct b; unfold duty_le; simpl; lia. Qed.

Lemma adjust_aluminium_steel (a b : DutyCategory) (op : string) :
  duty_le a b ->
  duty_le (adjust_duty a op "aluminium") (adjust_duty b op "steel").
Proof.
  unfold adjust_duty.
  destruct (str_in op _); destruct a, b; unfold duty_le; vm_compute;
    intros H E; first [discriminate E | exact (H eq_refl)].
Qed.

(** X10. For every shape with its valid dimension set and every operation,
    the duty does not decrease from aluminium to steel to titanium. *)
Theorem duty_monotone_in_material (shape operation : string) (d : dict) :
  valid_dimension_set shape d ->
  exists a s t,
    determine_duty_category shape d "aluminium" operation = Ok a
    /\ determine_duty_category shape d "steel" operation = Ok s
    /\ determine_duty_category shape d "titanium" operation = Ok t
    /\ duty_le a s /\ duty_le s t.
Proof.
  intros V.
  assert (C : complete_dimension_set shape d).
  { unfold valid_dimension_set, complete_dimension_set, positive_at,
      present_at in *.
    destruct (shape =? "round")%string.
    - destruct V as [(x & Hx & _) (y & Hy & _)]. split; eauto.
    - destruct V as [(x & Hx & _) [(y & Hy & _) (z & Hz & _)]].
      repeat split; eauto. }
  destruct (determine_duty_category_returns shape "titanium" operation d C)
    as (t & Et).
  assert (AS : exists a s,
             determine_duty_category shape d "aluminium" operation = Ok a
             /\ determine_duty_category shape d "steel" operation = Ok s
             /\ duty_le a s).
  { unfold determine_duty_category.
    change (lower (strip "aluminium")) with "aluminium"%string.
    change (lower (strip "steel")) with "steel"%string.
    set (op := lower (strip operation)).
    unfold valid_dimension_set, positive_at in V.
    destruct (shape =? "round")%string eqn:R.
    - apply String.eqb_eq in R. subst shape.
      destruct V as [(dv & Hd & Pd) (lv & Hl & Pl)].
      unfold base_by_geometry, all_in, dict_in, subscript.
      change (("round" =? "rectangular")%string) with false.
      change (("round" =? "round")%string) with true.
      cbn [forallb andb]. rewrite Hd, Hl. cbn [andb bind].
      change (("aluminium" =? "aluminium")%string) with true.
      change (("steel" =? "aluminium")%string) with false.
      change (("steel" =? "steel")%string) with true.
      cbv iota.
      do 2 eexists. split; [reflexivity |]. split; [reflexivity |].
      apply adjust_aluminium_steel.
      destruct (str_in op _).
      + apply thresholds_tighter.
        * apply strict_pair_weaker; lra.
        * apply pair_weaker; lra.
      + apply duty_le_refl.
    - destruct V as [(lv & Hl & Pl) [(bv & Hb & Pb) (hv & Hh & Ph)]].
      destruct (shape =? "rectangular")%string eqn:S.
      + apply String.eqb_eq in S. subst shape.
        unfold base_by_geometry, all_in, dict_in, subscript.
        change (("rectangular" =? "rectangular")%string) with true.
        cbn [forallb andb]. rewrite Hl, Hb, Hh. cbn [andb bind].
        do 2 eexists. split; [reflexivity |]. split; [reflexivity |].
        apply adjust_aluminium_steel. apply duty_le_refl.
      + rewrite !(geometry_unsupported shape _ op _ R S). cbn [bind].
        rewrite !(volume_returns shape d op _ lv bv hv R Hl Hb Hh).
        cbn [bind]. do 2 eexists.
        split; [reflexivity |]. split; [reflexivity |].
        apply adjust_aluminium_steel. cbv zeta.
        pose proof (operation_factor_positive op) as Po.
        set (f := get_default operation_factor_table op 1.0) in *.
        change (get_default material_factor_table "aluminium" 1.0)
          with 1.0.
        change (get_default material_factor_table "steel" 1.0) with 3.0.
        assert (Pv : 0 <= lv * bv * hv / 1000000).
        { apply Qle_shift_div_l; [reflexivity |].
          rewrite Qmult_0_l.
          apply Qmult_le_0_compat; [apply Qmult_le_0_compat |]; lra. }
        set (v := lv * bv * hv / 1000000) in *.
        match goal with
        | |- duty_le (if ?x <? 5 then _ else _) (if ?y <? 5 then _ else _) =>
            apply (thresholds_monotone (fun u _ => u <? 5)
                                       (fun u _ => u <? 20) x 0 y 0);
              auto using below_one_strict; [| lra]
        end.
        apply Qmult_le_compat_r; [| lra].
        assert (Hv : v * 1.0 == v) by ring.
        assert (Hw : v * 3.0 == 3 * v) by ring.
        rewrite Hv, Hw. lra. }
  destruct AS as (a & s0 & Ea & Es & Las).
  exists a, s0, t. repeat split; try assumption.
  assert (T : t = heavy).
  { revert Et. unfold determine_duty_category.
    change (lower (strip "titanium")) with "titanium"%string.
    destruct (base_by_geometry _ _ _ _) as [[b|]|e]; cbn [bind].
    - intros E. injection E as <-. apply adjust_duty_titanium.
    - destruct (base_by_volume _ _ _ _) as [b|e]; cbn [bind];
        [| discriminate].
      intros E. injection E as <-. apply adjust_duty_titanium.
    - discriminate. }
  rewrite T. apply duty_le_heavy.
Qed.

Lemma duty_monotone_in_material_witness :
  valid_dimension_set "round" steel_bar
  /\ exists a s t,
       determine_duty_category "round" steel_bar "aluminium" "boring" = Ok a
       /\ determine_duty_category "round" steel_bar "steel" "boring" = Ok s
       /\ determine_duty_category "round" steel_bar "titanium" "boring"
          = Ok t
       /\ duty_le a s /\ duty_le s t.
Proof.
  assert (V : valid_dimension_set "round" steel_bar).
  { split; eexists; split; reflexivity. }
  split; [exact V |].
  exact (duty_monotone_in_material "round" "boring" steel_bar V).
Defined.

(** ** The tiers of the resolver *)

(** X11. The static table applies exactly to turning and milling at light,
    medium or heavy duty (operation and duty stripped and lower-cased) on a
    machine whose category is not "spm"; for every other request the first
    tier yields nothing. *)
Theorem methodology_tier_applies (operation duty machine_name : string) :
  (exists b, methodology_rate operation duty machine_name = Some b)
  <-> (In (lower (strip operation)) ["turning"; "milling"]%string
       /\ In (lower (strip duty)) ["light"; "medium"; "heavy"]%string
       /\ determine_machine_category machine_name <> "spm"%string).
Proof.
  unfold methodology_rate, _methodology_inputs.
  generalize (lower (strip operation)) as k1.
  generalize (lower (strip duty)) as k2.
  intros k2 k1.
  pose proof (determine_machine_category_values machine_name) as V.
  simpl in V.
  destruct V as [<- | [<- | [<- | [<- | []]]]];
    match goal with
    | |- context [_category_bucket ?c] =>
        let b := eval vm_compute in (_category_bucket c) in
        change (_category_bucket c) with b
    end;
    unfold methodology_table; cbn [find fst snd key_eqb option_map];
    destruct (String.eqb_spec k1 "turning") as [-> | N1];
    try destruct (String.eqb_spec k1 "milling") as [-> | N2];
    destruct (String.eqb_spec k2 "light") as [-> | M1];
    try destruct (String.eqb_spec k2 "medium") as [-> | M2];
    try destruct (String.eqb_spec k2 "heavy") as [-> | M3];
    cbn;
    (split;
     [ intros [b H]; first [ discriminate H
                           | repeat split; simpl; auto 10; discriminate ]
     | intros (H1 & H2 & H3); simpl in H1, H2;
       first [ eexists; reflexivity
             | exfalso; intuition congruence ] ]).
Qed.

(** X12. In the static table the rate grows with the duty, for every
    operation and machine it applies to, and for the same operation and duty
    a machine of the cnc bucket costs more than a conventional one. *)
Theorem methodology_rate_ordered (operation duty : string)
    (machine_name other_machine : string) (a b c x y : Q) :
  (methodology_rate operation "light" machine_name = Some a ->
   methodology_rate operation "medium" machine_name = Some b ->
   methodology_rate operation "heavy" machine_name = Some c ->
   a < b /\ b < c)
  /\ (determine_machine_category machine_name = "conventional"%string ->
      determine_machine_category other_machine <> "conventional"%string ->
      methodology_rate operation duty machine_name = Some x ->
      methodology_rate operation duty other_machine = Some y ->
      x < y).
Proof.
  split.
  - unfold methodology_rate, _methodology_inputs.
    change (lower (strip "light")) with "light"%string.
    change (lower (strip "medium")) with "medium"%string.
    change (lower (strip "heavy")) with "heavy"%string.
    generalize (lower (strip operation)) as k1. intros k1.
    pose proof (determine_machine_category_values machine_name) as V.
    simpl in V.
    destruct V as [<- | [<- | [<- | [<- | []]]]];
      match goal with
      | |- context [_category_bucket ?c] =>
          let b := eval vm_compute in (_category_bucket c) in
          change (_category_bucket c) with b
      end;
      unfold methodology_table; cbn [find fst snd key_eqb option_map];
      destruct (String.eqb_spec k1 "turning") as [-> | N1];
      try destruct (String.eqb_spec k1 "milling") as [-> | N2];
      cbn; intros Ha Hb Hc; try discriminate;
      injection Ha as <-; injection Hb as <-; injection Hc as <-;
      split; reflexivity.
  - intros C1 C2. unfold methodology_rate, _methodology_inputs.
    rewrite C1.
    generalize (lower (strip operation)) as k1.
    generalize (lower (strip duty)) as k2. intros k2 k1.
    pose proof (determine_machine_category_values other_machine) as V.
    simpl in V.
    destruct V as [E | [E | [E | [E | []]]]]; rewrite <- E in *;
      try (exfalso; apply C2; reflexivity);
      match goal with
      | |- context [_category_bucket ?c] =>
          let b := eval vm_compute in (_category_bucket c) in
          change (_category_bucket c) with b
      end;
      change (_category_bucket "conventional") with "conventional"%string;
      unfold methodology_table; cbn [find fst snd key_eqb option_map];
      destruct (String.eqb_spec k1 "turning") as [-> | N1];
      try destruct (String.eqb_spec k1 "milling") as [-> | N2];
      destruct (String.eqb_spec k2 "light") as [-> | M1];
      try destruct (String.eqb_spec k2 "medium") as [-> | M2];
      try destruct (String.eqb_spec k2 "heavy") as [-> | M3];
      cbn; intros Hx Hy; try discriminate;
      injection Hx as <-; injection Hy as <-; reflexivity.
Qed.

Lemma methodology_rate_ordered_witness :
  methodology_rate "Turning" "light" "Conventional Lathe"
  = Some (2000000 * 0.10 / (3600 * (1 - 0.07)) + 5 * 5)
  /\ methodology_rate "Turning" "medium" "Conventional Lathe"
     = Some (3000000 * 0.10 / (3600 * (1 - 0.07)) + 8 * 5)
  /\ methodology_rate "Turning" "heavy" "Conventional Lathe"
     = Some (5000000 * 0.10 / (3600 * (1 - 0.07)) + 12 * 5)
  /\ 2000000 * 0.10 / (3600 * (1 - 0.07)) + 5 * 5
     < 3000000 * 0.10 / (3600 * (1 - 0.07)) + 8 * 5
  /\ 3000000 * 0.10 / (3600 * (1 - 0.07)) + 8 * 5
     < 5000000 * 0.10 / (3600 * (1 - 0.07)) + 12 * 5.
Proof.
  split; [reflexivity |]. split; [reflexivity |]. split; [reflexivity |].
  exact (proj1 (methodology_rate_ordered "Turning" "light"
                  "Conventional Lathe" "CNC Lathe" _ _ _ 0 0)
               eq_refl eq_refl eq_refl).
Defined.

Lemma methodology_tier_applies_witness :
  (In (lower (strip " Milling")) ["turning"; "milling"]%string
   /\ In (lower (strip "HEAVY")) ["light"; "medium"; "heavy"]%string
   /\ determine_machine_category "5 axis cnc" <> "spm"%string)
  /\ exists b, methodology_rate " Milling" "HEAVY" "5 axis cnc" = Some b.
Proof.
  assert (H : In (lower (strip " Milling")) ["turning"; "milling"]%string
              /\ In (lower (strip "HEAVY"))
                    ["light"; "medium"; "heavy"]%string
              /\ determine_machine_category "5 axis cnc" <> "spm"%string).
  { split; [simpl; auto |]. split; [simpl; auto |].
    intros E. discriminate E. }
  split; [exact H |].
  exact (proj2 (methodology_tier_applies " Milling" "HEAVY" "5 axis cnc") H).
Defined.

(** X13. Without a machine identifier the lookup by identifiers never
    yields: whatever operation and duty identifiers are passed and whichever
    queries fail, [get_machine_hour_rate] returns what the static table and
    the scan of the configuration records give. This is how
    [get_machine_hour_rate_with_fallback] calls it. *)
Theorem no_machine_id_skips_exact_lookup (py_float : string -> option Q)
    (db : Session) (operation duty machine_name : string)
    (op_type_id duty_id : option Z) :
  yields_nothing (exact_record_rate py_float db operation duty machine_name
                                    None op_type_id duty_id)
  /\ get_machine_hour_rate py_float db operation duty machine_name
                           None op_type_id duty_id
     = match methodology_rate operation duty machine_name with
       | Some b => Ok b
       | None =>
           match second_try py_float db operation duty machine_name with
           | Ok (Some b) => Ok b
           | _ => Raise (ValueError MHR_NOT_CONFIGURED)
           end
       end.
Proof.
  assert (Y : yields_nothing
                (exact_record_rate py_float db operation duty machine_name
                                   None op_type_id duty_id)).
  { intros b. unfold exact_record_rate.
    destruct op_type_id as [o|].
    - cbn [bind]. destruct duty_id as [i|];
        [| destruct (_resolve_duty_id db duty)]; discriminate.
    - destruct (truthy operation).
      + destruct (query_operation_by_name db (lower (strip operation)))
          as [[r|]|e]; cbn [bind option_map];
          try discriminate;
          destruct duty_id as [i|];
          try destruct (_resolve_duty_id db duty); discriminate.
      + cbn [bind]. discriminate. }
  split; [exact Y |].
  unfold get_machine_hour_rate, first_try.
  destruct (methodology_rate operation duty machine_name) as [b|];
    [reflexivity |].
  destruct (exact_record_rate py_float db operation duty machine_name
                              None op_type_id duty_id) as [[b|]|e] eqn:E.
  - exfalso. apply (Y b). reflexivity.
  - destruct (second_try _ _ _ _ _) as [[b|]|e]; reflexivity.
  - destruct (second_try _ _ _ _ _) as [[b|]|e']; reflexivity.
Qed.

(** The scan from any state of its two loop variables. *)
Lemma scan_candidates_from (db : Session) (op_norm duty_norm machine_norm : string)
    (L : relationships_load db) (candidates : list MHR) :
  forall (best : option MHR) (best_score : Z),
  exists r,
    scan_candidates db op_norm duty_norm machine_norm candidates
                    best best_score = Ok r
    /\ (r = best
        \/ exists rec, r = Some rec /\ In rec candidates
                       /\ record_matches db op_norm duty_norm rec = true)
    /\ ((forall rec, In rec candidates ->
                     record_matches db op_norm duty_norm rec = false) ->
        r = best)
    /\ ((best_score < 0)%Z ->
        (exists rec, In rec candidates
                     /\ record_matches db op_norm duty_norm rec = true) ->
        r <> None).
Proof.
  induction candidates as [| rec rest IH]; intros best best_score.
  - exists best. simpl. split; [reflexivity |]. split; [left; reflexivity |].
    split; [reflexivity |]. intros _ (rec & [] & _).
  - cbn [scan_candidates]. unfold rel_operation_type, rel_duty, rel_machine, run.
    rewrite !L. cbn [bind].
    assert (M : record_matches db op_norm duty_norm rec
                = negb (negb (_norm (option_map OperationType_operation_name
                                (operation_by_id db (MHR_op_type_id rec)))
                              =? op_norm)%string
                        || negb (_norm (option_map Duty_name
                                   (duty_by_id db (MHR_duty_id rec)))
                                 =? duty_norm)%string)).
    { unfold record_matches.
      destruct (_ =? op_norm)%string; destruct (_ =? duty_norm)%string;
        reflexivity. }
    destruct (negb _ || negb _) eqn:C; simpl in M.
    + destruct (IH best best_score) as (r & E & W & N & S).
      exists r. split; [exact E |]. split; [| split].
      * destruct W as [W | (x & Hx & Ix & Mx)]; [left; exact W |].
        right. exists x. repeat split; try assumption. right. exact Ix.
      * intros A. apply N. intros x Ix. apply A. right. exact Ix.
      * intros Hs (x & [<- | Ix] & Mx); [congruence |].
        apply S; [exact Hs |]. exists x. split; assumption.
    + match goal with
      | |- context [if (?sc >? best_score)%Z then _ else _] =>
          set (score := sc);
          assert (Sc : (0 <= score)%Z)
            by (subst score;
                repeat match goal with
                       | |- context [if ?c then _ else _] => destruct c
                       end; lia)
      end.
      destruct (score >? best_score)%Z eqn:G.
      * destruct (score =? 2)%Z.
        -- exists (Some rec). split; [reflexivity |].
           split; [right; exists rec; repeat split; [left; reflexivity | exact M] |].
           split; [| intros _ _; discriminate].
           intros A. rewrite (A rec (or_introl eq_refl)) in M. discriminate.
        -- destruct (IH (Some rec) score) as (r & E & W & N & S).
           exists r. split; [exact E |]. split; [| split].
           ++ right. destruct W as [-> | (x & Hx & Ix & Mx)].
              ** exists rec. repeat split; [left; reflexivity | exact M].
              ** exists x. repeat split; try assumption. right. exact Ix.
           ++ intros A. rewrite (A rec (or_introl eq_refl)) in M.
              discriminate.
           ++ intros _ _.
              destruct W as [-> | (x & -> & _)]; discriminate.
      * assert (Hb : (0 <= best_score)%Z).
        { destruct (Z.gtb_spec score best_score); [discriminate | lia]. }
        destruct (best_score =? 2)%Z.
        -- exists best. split; [reflexivity |]. split; [left; reflexivity |].
           split; [reflexivity |]. intros Hs. lia.
        -- destruct (IH best best_score) as (r & E & W & N & S).
           exists r. split; [exact E |]. split; [| split].
           ++ destruct W as [W | (x & Hx & Ix & Mx)]; [left; exact W |].
              right. exists x. repeat split; try assumption. right. exact Ix.
           ++ intros A. apply N. intros x Ix. apply A. right. exact Ix.
           ++ intros Hs. lia.
Qed.

(** X14. When the relationship attributes load, the scan of the candidate
    records raises nothing; it returns no record exactly when no candidate has
    the requested normalised operation and duty, and otherwise it returns one
    of the candidates that have them, whatever the machine names are. *)
Theorem scan_candidates_result (db : Session)
    (op_norm duty_norm machine_norm : string) (candidates : list MHR) :
  relationships_load db ->
  exists r,
    scan_candidates db op_norm duty_norm machine_norm candidates None (-1)
    = Ok r
    /\ (r = None <->
        forall rec, In rec candidates ->
                    record_matches db op_norm duty_norm rec = false)
    /\ (forall rec, r = Some rec ->
                    In rec candidates
                    /\ record_matches db op_norm duty_norm rec = true).
Proof.
  intros L.
  destruct (scan_candidates_from db op_norm duty_norm machine_norm L
              candidates None (-1)) as (r & E & W & N & S).
  exists r. split; [exact E |]. split; [split |].
  - intros Hr rec I.
    destruct (record_matches db op_norm duty_norm rec) eqn:M;
      [| reflexivity].
    exfalso. apply S; [lia | exists rec; split; assumption | exact Hr].
  - exact N.
  - intros rec Hr. destruct W as [W | (x & Hx & Ix & Mx)].
    + rewrite W in Hr. discriminate.
    + rewrite Hx in Hr. injection Hr as <-. split; assumption.
Qed.

Lemma scan_candidates_result_witness :
  relationships_load configured_db
  /\ exists r,
       scan_candidates configured_db "drilling" "light" "lathe"
                       (mhr_table configured_db) None (-1) = Ok r
       /\ (r = None <->
           forall rec, In rec (mhr_table configured_db) ->
                       record_matches configured_db "drilling" "light" rec
                       = false)
       /\ (forall rec, r = Some rec ->
                       In rec (mhr_table configured_db)
                       /\ record_matches configured_db "drilling" "light" rec
                          = true).
Proof.
  assert (L : relationships_load configured_db)
    by (intros w rec; reflexivity).
  split; [exact L |].
  exact (scan_candidates_result configured_db "drilling" "light" "lathe"
                                (mhr_table configured_db) L).
Defined.

(** ** Rounding keeps sign and order *)

Lemma round_half_even_monotone (x y : Q) :
  x <= y -> (round_half_even x <= round_half_even y)%Z.
Proof.
  intros L. unfold round_half_even.
  pose proof (Qfloor_resp_le x y L) as F.
  pose proof (Qfloor_le y) as Ly. pose proof (Qlt_floor x) as Ux.
  destruct (Z.eq_dec (Qfloor x) (Qfloor y)) as [E | N].
  - rewrite <- E. set (f := Qfloor x) in *.
    destruct (x - inject_Z f ?= 1 # 2) eqn:Cx;
      destruct (y - inject_Z f ?= 1 # 2) eqn:Cy;
      try (destruct (Z.even f)); try lia;
      first [apply Qeq_alt in Cx | apply Qlt_alt in Cx | apply Qgt_alt in Cx];
      first [apply Qeq_alt in Cy | apply Qlt_alt in Cy | apply Qgt_alt in Cy];
      exfalso; lra.
  - assert (S : (Qfloor x + 1 <= Qfloor y)%Z) by lia.
    destruct (x - inject_Z (Qfloor x) ?= 1 # 2);
      destruct (y - inject_Z (Qfloor y) ?= 1 # 2);
      try (destruct (Z.even (Qfloor x)));
      try (destruct (Z.even (Qfloor y))); lia.
Qed.

Lemma py_round_monotone (x y : Q) (n : nat) :
  x <= y -> py_round x n <= py_round y n.
Proof.
  intros L. unfold py_round, Qle. simpl.
  apply Z.mul_le_mono_nonneg_r; [lia |].
  apply round_half_even_monotone.
  apply Qmult_le_compat_r; [exact L |]. unfold Qle. simpl. lia.
Qed.

Lemma py_round_non_negative (x : Q) (n : nat) : 0 <= x -> 0 <= py_round x n.
Proof.
  intros P. apply Qle_trans with (py_round 0 n).
  - unfold py_round, Qle. simpl. lia.
  - apply py_round_monotone. exact P.
Qed.

(** ** Material cost *)

Lemma guarded_subscripts (keys : list string) (d : dict) (k : string) :
  all_in keys d = true -> In k keys -> exists v, subscript d k = Ok v.
Proof.
  unfold all_in, subscript, dict_in. intros A I.
  rewrite forallb_forall in A. specialize (A k I).
  destruct (dict_get k d) as [v|]; [eexists; reflexivity | discriminate].
Qed.

Lemma density_positive (m : string) : 0 < get_default densities m 7.85.
Proof.
  unfold get_default, densities. cbn [find fst snd].
  repeat match goal with
         | |- context [(m =? ?l)%string] => destruct (m =? l)%string
         end; reflexivity.
Qed.

Lemma material_cost_returns (material : string) (dimensions : dict)
    (shape : string) (material_cost_per_kg : Q) (is_hal_free_issue : bool) :
  exists r,
    calculate_material_cost material dimensions shape material_cost_per_kg
                            is_hal_free_issue = Ok r
    /\ is_free_issue r = is_hal_free_issue.
Proof.
  unfold calculate_material_cost.
  destruct is_hal_free_issue; [eexists; split; reflexivity |].
  destruct ((shape =? "round")%string
            && all_in ["diameter"; "length"]%string dimensions) eqn:R.
  - apply andb_true_iff in R as [_ A].
    destruct (guarded_subscripts _ _ "diameter" A) as (dv & ->);
      [simpl; auto |].
    destruct (guarded_subscripts _ _ "length" A) as (lv & ->);
      [simpl; auto |].
    cbn [bind]. eexists. split; reflexivity.
  - destruct ((shape =? "rectangular")%string
              && all_in ["length"; "breadth"; "height"]%string dimensions)
      eqn:S.
    + apply andb_true_iff in S as [_ A].
      destruct (guarded_subscripts _ _ "length" A) as (lv & ->);
        [simpl; auto |].
      destruct (guarded_subscripts _ _ "breadth" A) as (bv & ->);
        [simpl; auto |].
      destruct (guarded_subscripts _ _ "height" A) as (hv & ->);
        [simpl; auto |].
      cbn [bind]. eexists. split; reflexivity.
    + cbn [bind]. eexists. split; reflexivity.
Qed.

(** X15. [calculate_material_cost] never raises a [KeyError]: it subscripts
    the dimension dictionary only after testing that the keys are there.
    What it returns carries the free-issue flag it was given, and a
    free-issue call returns zero cost and weight whatever the material, the
    shape and the dictionary are. *)
Theorem material_cost_no_key_error (material : string) (dimensions : dict)
    (shape : string) (material_cost_per_kg : Q) (is_hal_free_issue : bool) :
  (forall k,
     calculate_material_cost material dimensions shape material_cost_per_kg
                             is_hal_free_issue <> Raise (KeyError k))
  /\ (forall r,
        calculate_material_cost material dimensions shape
                                material_cost_per_kg is_hal_free_issue = Ok r ->
        is_free_issue r = is_hal_free_issue)
  /\ (exists r,
        calculate_material_cost material dimensions shape
                                material_cost_per_kg true = Ok r
        /\ material_cost_per_unit r == 0
        /\ material_weight_kg r == 0
        /\ is_free_issue r = true).
Proof.
  destruct (material_cost_returns material dimensions shape
              material_cost_per_kg is_hal_free_issue) as (r & E & F).
  split; [| split].
  - intros k H. rewrite E in H. discriminate H.
  - intros r' H. rewrite E in H. injection H as <-. exact F.
  - eexists. split; [reflexivity |]. repeat split; reflexivity.
Qed.

(** X16. With non-negative dimensions and a non-negative price per kg, the
    weight and the cost per unit that [calculate_material_cost] returns are
    non-negative. *)
Theorem material_cost_non_negative (material : string) (dimensions : dict)
    (shape : string) (material_cost_per_kg : Q) (is_hal_free_issue : bool)
    (r : MaterialCost) :
  non_negative_values dimensions -> 0 <= material_cost_per_kg ->
  calculate_material_cost material dimensions shape material_cost_per_kg
                          is_hal_free_issue = Ok r ->
  0 <= material_weight_kg r /\ 0 <= material_cost_per_unit r.
Proof.
  intros NN Pc. unfold calculate_material_cost.
  destruct is_hal_free_issue.
  { intros E. injection E as <-. simpl. split; apply Qle_refl. }
  pose proof (density_positive (lower material)) as Pd.
  set (density := get_default densities (lower material) 7.85) in *.
  assert (K : forall volume_mm3, 0 <= volume_mm3 ->
     0 <= py_round (volume_mm3 / 1000 * density / 1000) 3
     /\ 0 <= py_round (volume_mm3 / 1000 * density / 1000
                       * material_cost_per_kg) 2).
  { intros v Pv.
    assert (W : 0 <= v / 1000 * density / 1000).
    { apply Qle_shift_div_l; [reflexivity |]. rewrite Qmult_0_l.
      apply Qmult_le_0_compat; [| lra].
      apply Qle_shift_div_l; [reflexivity |]. lra. }
    split; apply py_round_non_negative; [exact W |].
    apply Qmult_le_0_compat; assumption. }
  destruct ((shape =? "round")%string
            && all_in ["diameter"; "length"]%string dimensions).
  - unfold subscript.
    destruct (dict_get "diameter" dimensions) as [dv|] eqn:Hd;
      [| discriminate].
    destruct (dict_get "length" dimensions) as [lv|] eqn:Hl;
      [| discriminate].
    cbn [bind]. intros E. injection E as <-.
    cbn [material_weight_kg material_cost_per_unit].
    apply K. apply Qmult_le_0_compat; [| exact (NN _ _ Hl)].
    apply Qmult_le_0_compat; [vm_compute; discriminate |].
    change ((dv / 2) ^ 2) with ((dv / 2) * (dv / 2)).
    apply Qmult_le_0_compat;
      (apply Qle_shift_div_l; [reflexivity |]; rewrite Qmult_0_l;
       exact (NN _ _ Hd)).
  - destruct ((shape =? "rectangular")%string
              && all_in ["length"; "breadth"; "height"]%string dimensions).
    + unfold subscript.
      destruct (dict_get "length" dimensions) as [lv|] eqn:Hl;
        [| discriminate].
      destruct (dict_get "breadth" dimensions) as [bv|] eqn:Hb;
        [| discriminate].
      destruct (dict_get "height" dimensions) as [hv|] eqn:Hh;
        [| discriminate].
      cbn [bind]. intros E. injection E as <-.
      cbn [material_weight_kg material_cost_per_unit].
      apply K. apply Qmult_le_0_compat; [| exact (NN _ _ Hh)].
      apply Qmult_le_0_compat; [exact (NN _ _ Hl) | exact (NN _ _ Hb)].
    + cbn [bind]. intros E. injection E as <-.
      cbn [material_weight_kg material_cost_per_unit].
      apply K. apply Qle_refl.
Qed.

Lemma material_cost_non_negative_witness :
  non_negative_values steel_bar /\ 0 <= 85
  /\ calculate_material_cost "steel" steel_bar "round" 85 false
     = Ok {| material_cost_per_unit := 262.03;
             material_weight_kg := 3.083;
             volume_cm3 := Some 392.699;
             density_g_cm3 := Some 7.85;
             is_free_issue := false |}
  /\ 0 <= 3.083 /\ 0 <= 262.03.
Proof.
  assert (N : non_negative_values steel_bar).
  { intros k v. unfold steel_bar. simpl.
    destruct (k =? "diameter")%string;
      [intros E; injection E as <-; discriminate |].
    destruct (k =? "length")%string;
      [intros E; injection E as <-; discriminate | discriminate]. }
  assert (P : 0 <= 85) by discriminate.
  split; [exact N |]. split; [exact P |]. split; [reflexivity |].
  exact (material_cost_non_negative "steel" steel_bar "round" 85 false _
                                    N P eq_refl).
Defined.

(** X17. The material enters [calculate_material_cost] only through its
    lower-cased name: two materials with the same lower-cased name are priced
    alike, so a name of ASCII characters in upper case is priced like the
    name itself; and every name outside the density table is priced as
    steel. *)
Theorem material_cost_by_density (material material' : string)
    (dimensions : dict) (shape : string) (material_cost_per_kg : Q)
    (is_hal_free_issue : bool) :
  (lower material = lower material' ->
   calculate_material_cost material dimensions shape
                           material_cost_per_kg is_hal_free_issue
   = calculate_material_cost material' dimensions shape
                             material_cost_per_kg is_hal_free_issue)
  /\ (isascii material = true ->
      calculate_material_cost (upper material) dimensions shape
                              material_cost_per_kg is_hal_free_issue
      = calculate_material_cost material dimensions shape
                                material_cost_per_kg is_hal_free_issue)
  /\ (~ tabulated_material (lower material) ->
      calculate_material_cost material dimensions shape
                              material_cost_per_kg is_hal_free_issue
      = calculate_material_cost "steel" dimensions shape
                                material_cost_per_kg is_hal_free_issue).
Proof.
  split; [| split].
  - intros L. unfold calculate_material_cost. rewrite L. reflexivity.
  - intros A. unfold calculate_material_cost.
    rewrite (lower_after_upper _ A). reflexivity.
  - intros N. unfold calculate_material_cost.
    assert (D : get_default densities (lower material) 7.85
                = get_default densities (lower "steel") 7.85).
    { change (lower "steel") with "steel"%string.
      unfold tabulated_material in N. simpl in N.
      unfold get_default, densities. cbn [find fst snd].
      repeat match goal with
             | |- context [(lower material =? ?l)%string] =>
                 destruct (String.eqb_spec (lower material) l) as [Heq | ?];
                   [exfalso; apply N; rewrite Heq; auto 10 |]
             end.
      reflexivity. }
    rewrite D. reflexivity.
Qed.

Lemma material_cost_by_density_witness :
  ~ tabulated_material (lower "Inconel")
  /\ calculate_material_cost "Inconel" steel_bar "round" 85 false
     = calculate_material_cost "steel" steel_bar "round" 85 false.
Proof.
  assert (N : ~ tabulated_material (lower "Inconel")).
  { unfold tabulated_material. simpl.
    intros [H | [H | [H | [H | [H | []]]]]]; discriminate H. }
  split; [exact N |].
  exact (proj2 (proj2 (material_cost_by_density "Inconel" "Inconel"
                         steel_bar "round" 85 false)) N).
Defined.

(** ** Non-recurring costs *)

(** X18. With non-negative cost components, whatever the two quantities are,
    the amortized amount per unit is non-negative and never exceeds the total
    non-recurring cost. *)
Theorem nrc_per_unit_bounded (tooling development cnc special other : Q)
    (ordered_quantity : Z) (amortize_over_quantity : option Z) :
  0 <= tooling -> 0 <= development -> 0 <= cnc -> 0 <= special ->
  0 <= other ->
  0 <= nrc_per_unit (calculate_nrc_amortization tooling development cnc
                       special other ordered_quantity amortize_over_quantity)
  /\ nrc_per_unit (calculate_nrc_amortization tooling development cnc
                     special other ordered_quantity amortize_over_quantity)
     <= total_nrc (calculate_nrc_amortization tooling development cnc
                     special other ordered_quantity amortize_over_quantity).
Proof.
  intros P1 P2 P3 P4 P5. unfold calculate_nrc_amortization. simpl.
  set (total := tooling + development + cnc + special + other).
  assert (Pt : 0 <= total) by (subst total; lra).
  match goal with
  | |- context [(?q >? 0)%Z] => set (quantity := q)
  end.
  destruct (Z.gtb_spec quantity 0) as [G | G].
  - assert (Hq : 1 <= inject_Z quantity).
    { change 1 with (inject_Z 1). rewrite <- Zle_Qle. lia. }
    assert (Hd : 0 <= total / inject_Z quantity /\ total / inject_Z quantity <= total).
    { split.
      - apply Qle_shift_div_l; [lra |]. lra.
      - apply Qle_shift_div_r; [lra |].
        assert (M : total * 1 <= total * inject_Z quantity).
        { rewrite !(Qmult_comm total). apply Qmult_le_compat_r; assumption. }
        lra. }
    split; [apply py_round_non_negative | apply py_round_monotone]; lra.
  - split; [apply py_round_non_negative; lra |].
    apply py_round_monotone. exact Pt.
Qed.

Lemma nrc_per_unit_bounded_witness :
  (0 <= 50000 /\ 0 <= 25000 /\ 0 <= 15000 /\ 0 <= 10000 /\ 0 <= 5000)
  /\ 0 <= nrc_per_unit (calculate_nrc_amortization 50000 25000 15000 10000
                          5000 100 None)
  /\ nrc_per_unit (calculate_nrc_amortization 50000 25000 15000 10000
                     5000 100 None)
     <= total_nrc (calculate_nrc_amortization 50000 25000 15000 10000
                     5000 100 None).
Proof.
  split; [repeat split; discriminate |].
  apply (nrc_per_unit_bounded 50000 25000 15000 10000 5000 100 None);
    discriminate.
Defined.

(** ** Costs of several operations *)

Lemma man_hours_not_positive (operations_data : list dict) :
  (forall op, In op operations_data -> op_man_hours op <= 0) ->
  forall acc : Q, acc <= 0 ->
    fold_left (fun acc op => acc + get_default op "man_hours" 0)
              operations_data acc <= 0.
Proof.
  induction operations_data as [| op rest IH]; intros H acc A.
  - exact A.
  - cbn [fold_left]. apply IH.
    + intros op' I. apply H. right. exact I.
    + pose proof (H op (or_introl eq_refl)) as P. unfold op_man_hours in P.
      lra.
Qed.

(** X19. In every result of [calculate_enhanced_costs] the overheads are the
    total labour cost. When no operation has positive man-hours (an empty
    list, or operations without the key, which count as 0) the average rates
    are not divided out and the outsourcing rate is 0; for an empty list the
    man-hours, the basic cost and the unit cost before extras are 0 too. *)
Theorem enhanced_costs_without_man_hours (operations_data : list dict)
    (quantity : Z) (miscellaneous : Q) (nrc_data : option NRCData)
    (material_data : option MaterialData) (e : EnhancedCosts) :
  calculate_enhanced_costs operations_data quantity miscellaneous
                           nrc_data material_data = Ok e ->
  enh_overheads_per_unit e = enh_total_labor_cost_per_unit e
  /\ ((forall op, In op operations_data -> op_man_hours op <= 0) ->
      enh_outsourcing_mhr e == 0)
  /\ (operations_data = [] ->
      enh_total_man_hours_per_unit e == 0
      /\ enh_basic_cost_per_unit e == 0
      /\ enh_unit_cost_before_extras e == 0).
Proof.
  unfold calculate_enhanced_costs, enhanced_components.
  destruct (fold_left accumulate_operation operations_data (0, 0))
    as [tm tl] eqn:F.
  destruct (match material_data with
            | Some md =>
                material_result <- call_material md ;;
                Ok (material_cost_per_unit material_result)
            | None => Ok 0
            end) as [mat|err]; cbn [bind]; [| discriminate].
  intros E. injection E as <-.
  cbn [enhanced_rounded enh_overheads_per_unit enh_total_labor_cost_per_unit
       enh_outsourcing_mhr enh_total_man_hours_per_unit
       enh_basic_cost_per_unit enh_unit_cost_before_extras].
  split; [reflexivity |]. split.
  - intros H.
    assert (S : sum_man_hours operations_data <= 0).
    { unfold sum_man_hours. apply (man_hours_not_positive _ H). lra. }
    destruct (Qltb_spec 0 (sum_man_hours operations_data)) as [P | _];
      [exfalso; lra |].
    apply py_round_zero. ring.
  - intros ->. simpl in F. injection F as <- <-.
    repeat split; apply py_round_zero; unfold sum_man_hours; simpl; ring.
Qed.

Lemma enhanced_costs_without_man_hours_witness :
  exists e,
    calculate_enhanced_costs [[("wage_rate", 75)]%string] 10 0 None None
    = Ok e
    /\ enh_overheads_per_unit e = enh_total_labor_cost_per_unit e
    /\ (forall op, In op [[("wage_rate", 75)]%string] -> op_man_hours op <= 0)
    /\ enh_outsourcing_mhr e == 0.
Proof.
  assert (H : forall op, In op [[("wage_rate", 75)]%string] ->
                         op_man_hours op <= 0).
  { intros op [<- | []]. discriminate. }
  eexists. split; [reflexivity |].
  destruct (enhanced_costs_without_man_hours [[("wage_rate", 75)]%string]
              10 0 None None _ eq_refl) as (O & Z0 & _).
  split; [exact O |]. split; [exact H | exact (Z0 H)].
Defined.

(** ** The machine lookup and the routes *)

Lemma prefix_of_append (n b : string) : String.prefix n (n ++ b) = true.
Proof.
  induction n as [| c n IH]; simpl; [destruct b; reflexivity |].
  destruct (ascii_dec c c) as [_ | N]; [exact IH | contradiction].
Qed.

Lemma contains_inside (n a b : string) : contains n (a ++ n ++ b) = true.
Proof.
  induction a as [| c a IH].
  - simpl. destruct (n ++ b)%string as [| c r] eqn:E.
    + destruct n; [reflexivity | discriminate].
    + cbn [contains]. rewrite <- E, prefix_of_append. reflexivity.
  - cbn [append contains]. rewrite IH. apply orb_true_r.
Qed.

(** X22. [get_machine_details] compares the name exactly: it returns the
    first row of the machines table whose name equals the requested one,
    raises a [ValueError] whose text contains the requested name when no row
    has it, and lets the error of a failing query through. *)
Theorem machine_details_lookup (db : Session) (machine_name : string) :
  (forall details,
      get_machine_details db machine_name = Ok details ->
      details_name details = machine_name
      /\ exists row, In row (machines_table db)
                     /\ Machine_id row = details_id details
                     /\ Machine_name row = machine_name)
  /\ (fails db (MachineByName machine_name) = false ->
      (forall row, In row (machines_table db) ->
                   Machine_name row <> machine_name) ->
      exists msg,
        get_machine_details db machine_name = Raise (ValueError msg)
        /\ contains machine_name msg = true)
  /\ (fails db (MachineByName machine_name) = true ->
      get_machine_details db machine_name = Raise OperationalError).
Proof.
  unfold get_machine_details, query_machine_by_name, run.
  destruct (fails db (MachineByName machine_name)); cbn [bind].
  - split; [intros details E; discriminate |].
    split; [intros E; discriminate | reflexivity].
  - destruct (find (fun m => (Machine_name m =? machine_name)%string)
                   (machines_table db)) as [row|] eqn:F.
    + apply find_some in F as [I E]. apply String.eqb_eq in E.
      split; [| split].
      * intros details H. injection H as <-. cbn.
        split; [exact E |]. exists row. repeat split; assumption.
      * intros _ A. exfalso. exact (A row I E).
      * discriminate.
    + split; [intros details H; discriminate |].
      split; [| discriminate].
      intros _ _. eexists. split; [reflexivity |].
      apply (contains_inside machine_name "Machine with name '"
                             "' not found").
Qed.

Lemma machine_details_lookup_witness :
  fails scenario_db (MachineByName "cnc lathe") = false
  /\ (forall row, In row (machines_table scenario_db) ->
                  Machine_name row <> "cnc lathe"%string)
  /\ exists msg,
       get_machine_details scenario_db "cnc lathe" = Raise (ValueError msg)
       /\ contains "cnc lathe" msg = true.
Proof.
  assert (A : forall row, In row (machines_table scenario_db) ->
                          Machine_name row <> "cnc lathe"%string).
  { intros row [<- | []] E. discriminate E. }
  split; [reflexivity |]. split; [exact A |].
  exact (proj1 (proj2 (machine_details_lookup scenario_db "cnc lathe"))
               eq_refl A).
Defined.

Lemma fallback_always_returns (py_float : string -> option Q) (db : Session)
    (operation duty machine_name : string) :
  exists b,
    get_machine_hour_rate_with_fallback py_float db
      operation duty machine_name = Ok b.
Proof.
  unfold get_machine_hour_rate_with_fallback.
  destruct (get_machine_hour_rate_cases py_float db operation duty
              machine_name None None None) as [[b ->] | ->].
  - eexists. reflexivity.
  - destruct (determine_machine_category machine_name =? "conventional")%string;
      [| destruct (determine_machine_category machine_name =? "cnc_3axis")%string];
      eexists; reflexivity.
Qed.

Lemma estimation_with_machine (py_float : string -> option Q)
    (db : Session) (request : CostEstimationRequest) (m : Machine) :
  validate_dimensions_by_operation (Some (operation_type request))
                                   (dimensions request)
  = Ok (dimensions request) ->
  query_machine_by_name db (Schemas.machine_name request) = Ok (Some m) ->
  exists resp,
    calculate_cost_estimation py_float db request = Ok resp
    /\ resp_shape resp
       = (if is_none (diameter (dimensions request))
          then "rectangular" else "round")%string
    /\ details_name (resp_selected_machine resp)
       = Schemas.machine_name request
    /\ complete_dimension_set (resp_shape resp) (resp_dimensions resp).
Proof.
  intros V Hm.
  pose proof (machine_found_name _ _ _ Hm) as Hn.
  unfold calculate_cost_estimation, get_machine_details.
  rewrite Hm. cbn [bind details_name].
  assert (S : diameter (dimensions request) <> None
              \/ (diameter (dimensions request) = None
                  /\ breadth (dimensions request) <> None
                  /\ height (dimensions request) <> None)).
  { revert V. unfold validate_dimensions_by_operation.
    destruct (operation_type request);
      destruct (dimensions request) as [[dv|] lv [bv|] [hv|]]; cbn;
      intros V; try discriminate V;
      first [ left; discriminate
            | right; repeat split; discriminate ]. }
  destruct (dimensions request) as [dv lv bv hv] eqn:D. cbn in S.
  cbn [diameter breadth height length].
  assert (Duty : forall shape dims,
             complete_dimension_set shape dims ->
             exists duty,
               match duty_category request with
               | Some d0 => Ok d0
               | None =>
                   determine_duty_category shape dims
                     (MaterialType_value (material request))
                     (OperationType_value (operation_type request))
               end = Ok duty).
  { intros shape dims C. destruct (duty_category request) as [d0|].
    - eexists. reflexivity.
    - apply determine_duty_category_returns. exact C. }
  destruct S as [S | (S1 & S2 & S3)].
  - destruct dv as [dv|]; [| contradiction]. cbn [bind is_none].
    assert (C : complete_dimension_set "round"
                  [("diameter"%string, dv); ("length"%string, lv)]).
    { split; eexists; reflexivity. }
    destruct (Duty _ _ C) as (duty & ->).
    cbn [bind].
    destruct (fallback_always_returns py_float db
                (OperationType_value (operation_type request))
                (duty_value duty) (Machine_name m)) as (b & ->).
    cbn [bind]. eexists. split; [reflexivity |].
    split; [reflexivity |]. split; [exact Hn | exact C].
  - subst dv. destruct bv as [bv|]; [| contradiction].
    destruct hv as [hv|]; [| contradiction]. cbn [bind is_none].
    assert (C : complete_dimension_set "rectangular"
                  [("length"%string, lv); ("breadth"%string, bv);
                   ("height"%string, hv)]).
    { repeat split; eexists; reflexivity. }
    destruct (Duty _ _ C) as (duty & ->).
    cbn [bind].
    destruct (fallback_always_returns py_float db
                (OperationType_value (operation_type request))
                (duty_value duty) (Machine_name m)) as (b & ->).
    cbn [bind]. eexists. split; [reflexivity |].
    split; [reflexivity |]. split; [exact Hn | exact C].
Qed.

(** X23. A request whose dimensions pass [validate_dimensions_by_operation]
    never meets the route's own "Invalid dimensions" error nor a [KeyError]
    of the duty classification; every response the route returns for it is
    for the requested machine, has a round part exactly when a diameter is
    given, and lists the complete dimension set of that shape. *)
Theorem validated_request_dimensions_accepted
    (py_float : string -> option Q) (db : Session)
    (request : CostEstimationRequest) :
  validate_dimensions_by_operation (Some (operation_type request))
                                   (dimensions request)
  = Ok (dimensions request) ->
  calculate_cost_estimation py_float db request
  <> Raise (HTTPException 400 INVALID_DIMENSIONS)
  /\ (forall k,
        calculate_cost_estimation py_float db request <> Raise (KeyError k))
  /\ (forall resp,
        calculate_cost_estimation py_float db request = Ok resp ->
        resp_shape resp
        = (if is_none (diameter (dimensions request))
           then "rectangular" else "round")%string
        /\ details_name (resp_selected_machine resp)
           = Schemas.machine_name request
        /\ complete_dimension_set (resp_shape resp) (resp_dimensions resp)).
Proof.
  intros V.
  destruct (query_machine_by_name db (Schemas.machine_name request))
    as [[m|]|err] eqn:Hm.
  - destruct (estimation_with_machine py_float db request m V Hm)
      as (resp & E & P).
    rewrite E. split; [discriminate |]. split; [intros k; discriminate |].
    intros resp' H. injection H as <-. exact P.
  - unfold calculate_cost_estimation, get_machine_details.
    rewrite Hm. cbn [bind].
    split; [discriminate |]. split; [intros k; discriminate |].
    intros resp H. discriminate H.
  - assert (O : err = OperationalError).
    { revert Hm. unfold query_machine_by_name, run.
      destruct (fails db _); [| discriminate].
      intros H. injection H as <-. reflexivity. }
    subst err. unfold calculate_cost_estimation, get_machine_details.
    rewrite Hm. cbn [bind].
    split; [discriminate |]. split; [intros k; discriminate |].
    intros resp H. discriminate H.
Qed.

Lemma validated_request_dimensions_accepted_witness :
  validate_dimensions_by_operation
    (Some (operation_type scenario_request)) (dimensions scenario_request)
  = Ok (dimensions scenario_request)
  /\ exists resp,
       calculate_cost_estimation numeral scenario_db scenario_request
       = Ok resp
       /\ resp_shape resp = "round"%string
       /\ details_name (resp_selected_machine resp) = "CNC Lathe"%string.
Proof.
  split; [reflexivity |].
  eexists. split; [reflexivity |].
  destruct (proj2 (proj2 (validated_request_dimensions_accepted
                            numeral scenario_db scenario_request eq_refl))
              _ eq_refl) as (S & N & _).
  split; [exact S | exact N].
Defined.

(** X24. When no row of the machines table has the requested name, the
    estimation route answers 404 with a text that contains that name,
    whatever the rest of the request is. *)
Theorem unknown_machine_is_404 (py_float : string -> option Q)
    (db : Session) (request : CostEstimationRequest) :
  query_machine_by_name db (Schemas.machine_name request) = Ok None ->
  exists detail,
    calculate_cost_estimation py_float db request
    = Raise (HTTPException 404 detail)
    /\ contains (Schemas.machine_name request) detail = true.
Proof.
  intros Hm. unfold calculate_cost_estimation, get_machine_details.
  rewrite Hm. cbn [bind]. eexists. split; [reflexivity |].
  apply (contains_inside (Schemas.machine_name request)
                         "Machine with name '" "' not found").
Qed.

Lemma unknown_machine_is_404_witness :
  query_machine_by_name
       {| operation_type_table := []; machines_table := [];
          duties_table := []; mhr_table := []; fails := fun _ => false |}
       (Schemas.machine_name scenario_request) = Ok None
  /\ exists detail,
       calculate_cost_estimation numeral
         {| operation_type_table := []; machines_table := [];
            duties_table := []; mhr_table := []; fails := fun _ => false |}
         scenario_request
       = Raise (HTTPException 404 detail)
       /\ contains "CNC Lathe" detail = true.
Proof.
  split; [reflexivity |].
  exact (unknown_machine_is_404 numeral
           {| operation_type_table := []; machines_table := [];
              duties_table := []; mhr_table := []; fails := fun _ => false |}
           scenario_request eq_refl).
Defined.

(** X25. [quick_estimate] prices the machine that [select_machine] names for
    steel: when the machines table has no row of that name the answer is 404
    with a text that contains the name; every estimate it returns is for
    that machine, the given duty and quantity, with the tabulated man-hours,
    and for a quantity of 1 the total cost is the unit cost. *)
Theorem quick_estimate_for_selected_machine (py_float : string -> option Q)
    (db : Session) (operation duty : string) (quantity : Z) :
  (query_machine_by_name db
     (fst (select_machine operation duty "steel" None)) = Ok None ->
   exists detail,
     quick_estimate py_float db operation duty quantity
     = Raise (HTTPException 404 detail)
     /\ contains (fst (select_machine operation duty "steel" None)) detail
        = true)
  /\ (forall q,
        quick_estimate py_float db operation duty quantity = Ok q ->
        qe_machine q = fst (select_machine operation duty "steel" None)
        /\ qe_duty q = duty
        /\ qe_quantity q = quantity
        /\ CostCalculationService.man_hours_per_unit (qe_details q)
           = py_round (calculate_man_hours operation duty None) 4
        /\ qe_unit_cost q = unit_cost (qe_details q)
        /\ qe_total_cost q = total_cost (qe_details q)
        /\ (quantity = 1%Z -> qe_total_cost q = qe_unit_cost q)).
Proof.
  unfold quick_estimate.
  destruct (select_machine operation duty "steel" None) as [name cat].
  cbn [fst]. unfold get_machine_details. split.
  - intros Hm. rewrite Hm. cbn [bind]. eexists. split; [reflexivity |].
    apply (contains_inside name "Machine with name '" "' not found").
  - intros q.
    destruct (query_machine_by_name db name) as [[m|]|err]; cbn [bind].
    + destruct (get_machine_hour_rate_with_fallback py_float db operation
                  duty name) as [b|err]; cbn [bind]; [| discriminate].
      intros H. injection H as <-.
      cbn [qe_machine qe_duty qe_quantity qe_details qe_total_cost
           qe_unit_cost].
      repeat (split; [reflexivity |]).
      intros ->. unfold calculate_costs, cost_components.
      cbn [rounded total_cost unit_cost total_unit_cost_with_misc].
      apply py_round_compat. change (inject_Z 1) with 1. ring.
    + discriminate.
    + destruct err; discriminate.
Qed.

Lemma quick_estimate_for_selected_machine_witness :
  exists q,
    quick_estimate numeral configured_db "turning" "medium" 1 = Ok q
    /\ qe_machine q = "CNC Lathe"%string
    /\ qe_total_cost q = qe_unit_cost q.
Proof.
  eexists. split; [reflexivity |].
  destruct (proj2 (quick_estimate_for_selected_machine
                     numeral configured_db "turning" "medium" 1)
              _ eq_refl) as (Mq & _ & _ & _ & _ & _ & T).
  split; [exact Mq | exact (T eq_refl)].
Defined.

(** ** The two calculators of the machine hour rate *)

Lemma utilization_not_zero (h rate : Q) :
  ~ h == 0 -> ~ 1 - rate == 0 -> Qeq_bool (h - h * rate) 0 = false.
Proof.
  intros Hh Hr. destruct (Qeq_bool (h - h * rate) 0) eqn:E; [| reflexivity].
  apply Qeq_bool_iff in E.
  assert (P : h * (1 - rate) == 0) by (rewrite <- E; ring).
  apply Qmult_integral in P. destruct P; contradiction.
Qed.

Lemma quotient_non_negative (x y : Q) : 0 <= x -> 0 < y -> 0 <= x / y.
Proof.
  intros X Y. unfold Qdiv. apply Qmult_le_0_compat; [exact X |].
  apply Qlt_le_weak. apply Qinv_lt_0_compat. exact Y.
Qed.

(** X26. [calculate_mhr_from_inputs] raises [ZeroDivisionError] exactly for
    0 available hours. What it returns reports the given hours and a
    downtime rate of 0.07 when the lower-cased category is "conventional"
    and of 0.15 for every other category; with positive hours and a
    non-negative investment and power rating none of its figures is
    negative. *)
Theorem mhr_from_inputs_zero_hours (investment_cost power_rating_kw : Q)
    (available_hours : Q) (machine_category : string) :
  (calculate_mhr_from_inputs investment_cost power_rating_kw
                             available_hours machine_category
   = ZeroDivisionError <-> available_hours == 0)
  /\ (forall r,
        calculate_mhr_from_inputs investment_cost power_rating_kw
                                  available_hours machine_category
        = Computed r ->
        rep_available_hours r = available_hours
        /\ (lower machine_category = "conventional"%string ->
            rep_downtime_rate r = 0.07)
        /\ (lower machine_category <> "conventional"%string ->
            rep_downtime_rate r = 0.15)
        /\ (0 < available_hours -> 0 <= investment_cost ->
            0 <= power_rating_kw ->
            0 <= rep_downtime_hours r
            /\ 0 <= rep_utilization_hours r
            /\ 0 <= rep_power_charges r
            /\ 0 <= rep_depreciation_per_hour r
            /\ 0 <= rep_machine_utilization_cost r
            /\ 0 <= rep_machine_hour_rate r)).
Proof.
  unfold calculate_mhr_from_inputs, py_div.
  set (rate := if (lower machine_category =? "conventional")%string
               then CONVENTIONAL_DOWNTIME_RATE else CNC_DOWNTIME_RATE).
  assert (R : ~ 1 - rate == 0).
  { subst rate.
    destruct (lower machine_category =? "conventional")%string;
      intros H; discriminate H. }
  assert (B : 0 <= rate /\ rate < 1).
  { subst rate.
    destruct (lower machine_category =? "conventional")%string;
      (split; [discriminate | reflexivity]). }
  split.
  - split.
    + intros H.
      destruct (Qeq_bool (available_hours - available_hours * rate) 0)
        eqn:E; [| discriminate H].
      apply Qeq_bool_iff in E.
      assert (P : available_hours * (1 - rate) == 0) by (rewrite <- E; ring).
      apply Qmult_integral in P. destruct P; [assumption | contradiction].
    + intros Z0.
      assert (E : Qeq_bool (available_hours - available_hours * rate) 0
                  = true).
      { apply Qeq_bool_iff. rewrite Z0. ring. }
      rewrite E. reflexivity.
  - intros r.
    destruct (Qeq_bool (available_hours - available_hours * rate) 0);
      [discriminate |].
    intros H. injection H as <-.
    cbn [rep_available_hours rep_downtime_rate rep_downtime_hours
         rep_utilization_hours rep_power_charges rep_depreciation_per_hour
         rep_machine_utilization_cost rep_machine_hour_rate].
    split; [reflexivity |]. split; [| split].
    + intros C. subst rate. rewrite C. reflexivity.
    + intros C. subst rate. apply String.eqb_neq in C. rewrite C.
      reflexivity.
    + intros Hh Hi Hk. destruct B as [B0 B1].
      assert (D : 0 <= available_hours * rate).
      { apply Qmult_le_0_compat; [apply Qlt_le_weak; exact Hh | exact B0]. }
      assert (U : 0 < available_hours - available_hours * rate).
      { assert (P : 0 < available_hours * (1 - rate)).
        { apply Qmult_lt_0_compat; [exact Hh | lra]. }
        lra. }
      assert (P : 0 <= power_rating_kw * POWER_RATE_PER_UNIT).
      { apply Qmult_le_0_compat; [exact Hk | discriminate]. }
      assert (Q0 : 0 <= investment_cost * ANNUAL_DEPRECIATION_RATE
                        / (available_hours - available_hours * rate)).
      { apply quotient_non_negative; [| exact U].
        apply Qmult_le_0_compat; [exact Hi | discriminate]. }
      assert (M : 0 <= investment_cost * ANNUAL_DEPRECIATION_RATE
                       / (available_hours - available_hours * rate)
                       + power_rating_kw * POWER_RATE_PER_UNIT) by lra.
      repeat split; apply py_round_non_negative;
        try assumption; try (apply Qlt_le_weak; exact U).
      apply Qmult_le_0_compat; [exact M | discriminate].
Qed.

Lemma mhr_from_inputs_zero_hours_witness :
  exists r,
    calculate_mhr_from_inputs 1000000 15 2400 "Conventional" = Computed r
    /\ lower "Conventional" = "conventional"%string
    /\ rep_downtime_rate r = 0.07
    /\ 0 <= rep_machine_hour_rate r.
Proof.
  eexists. split; [reflexivity |]. split; [reflexivity |].
  destruct (proj2 (mhr_from_inputs_zero_hours 1000000 15 2400
                     "Conventional") _ eq_refl) as (_ & C & _ & P).
  split; [exact (C eq_refl) |].
  apply P; [reflexivity | discriminate | discriminate].
Defined.

(** X27. [calculate_complete_mhr] never divides by zero: it replaces missing
    and 0 available hours by 2400, so the hours it works with are never 0.
    With given hours other than 0 and a category whose comparison with
    "conventional" does not depend on the letter case it returns the figures
    of [calculate_mhr_from_inputs]; for a category that is "conventional"
    only up to the letter case the two routes apply different downtime
    rates, 0.15 and 0.07. *)
Theorem complete_mhr_never_divides_by_zero
    (investment_cost power_rating_kw : Q) (machine_category : string)
    (available_hours : option Q) :
  (exists r,
     calculate_complete_mhr investment_cost power_rating_kw
                            machine_category available_hours = Computed r
     /\ ~ rep_available_hours r == 0
     /\ (available_hours = None
         \/ (exists h, available_hours = Some h /\ h == 0) ->
         rep_available_hours r = ANNUAL_WORKING_HOURS))
  /\ (forall h,
        ~ h == 0 ->
        (machine_category = "conventional"%string
         <-> lower machine_category = "conventional"%string) ->
        calculate_complete_mhr investment_cost power_rating_kw
                               machine_category (Some h)
        = calculate_mhr_from_inputs investment_cost power_rating_kw
                                    h machine_category)
  /\ (forall h r r',
        lower machine_category = "conventional"%string ->
        machine_category <> "conventional"%string ->
        calculate_complete_mhr investment_cost power_rating_kw
                               machine_category (Some h) = Computed r ->
        calculate_mhr_from_inputs investment_cost power_rating_kw
                                  h machine_category = Computed r' ->
        rep_downtime_rate r = 0.15 /\ rep_downtime_rate r' = 0.07).
Proof.
  split; [| split].
  - unfold calculate_complete_mhr, py_div.
    set (hours := match available_hours with
                  | Some h => if Qeq_bool h 0 then ANNUAL_WORKING_HOURS else h
                  | None => ANNUAL_WORKING_HOURS
                  end).
    set (rate := if (machine_category =? "conventional")%string
                 then CONVENTIONAL_DOWNTIME_RATE else CNC_DOWNTIME_RATE).
    assert (R : ~ 1 - rate == 0).
    { subst rate. destruct (machine_category =? "conventional")%string;
        intros H; discriminate H. }
    assert (N : ~ hours == 0).
    { subst hours. destruct available_hours as [h|];
        [| intros H; discriminate H].
      destruct (Qeq_bool h 0) eqn:E; [intros H; discriminate H |].
      intros H. apply Qeq_bool_iff in H. congruence. }
    rewrite (utilization_not_zero _ _ N R).
    eexists. split; [reflexivity |]. cbn [rep_available_hours].
    split; [exact N |].
    intros [-> | (h & -> & Zh)]; subst hours; [reflexivity |].
    apply Qeq_bool_iff in Zh. rewrite Zh. reflexivity.
  - intros h Nh C. unfold calculate_complete_mhr, calculate_mhr_from_inputs.
    assert (E : Qeq_bool h 0 = false).
    { destruct (Qeq_bool h 0) eqn:E; [| reflexivity].
      apply Qeq_bool_iff in E. contradiction. }
    rewrite E.
    assert (S : (machine_category =? "conventional")%string
                = (lower machine_category =? "conventional")%string).
    { destruct (String.eqb_spec machine_category "conventional") as [A | A];
        destruct (String.eqb_spec (lower machine_category) "conventional")
          as [L | L]; try reflexivity.
      - exfalso. apply L, C, A.
      - exfalso. apply A, C, L. }
    rewrite S. reflexivity.
  - intros h r r' L A. apply String.eqb_neq in A.
    unfold calculate_complete_mhr, calculate_mhr_from_inputs.
    rewrite A, L. change (("conventional" =? "conventional")%string) with true.
    cbv iota.
    destruct (py_div _ _); [| discriminate].
    destruct (py_div _ _); [| intros _ H; discriminate H].
    intros H H'. injection H as <-. injection H' as <-.
    split; reflexivity.
Qed.

Lemma complete_mhr_never_divides_by_zero_witness :
  ~ 1344 == 0
  /\ ("cnc_3axis"%string = "conventional"%string
      <-> lower "cnc_3axis" = "conventional"%string)
  /\ calculate_complete_mhr 1190000 9 "cnc_3axis" (Some 1344)
     = calculate_mhr_from_inputs 1190000 9 1344 "cnc_3axis".
Proof.
  assert (N : ~ 1344 == 0) by (intros H; discriminate H).
  assert (C : "cnc_3axis"%string = "conventional"%string
              <-> lower "cnc_3axis" = "conventional"%string).
  { split; intros H; discriminate H. }
  split; [exact N |]. split; [exact C |].
  exact (proj1 (proj2 (complete_mhr_never_divides_by_zero
                         1190000 9 "cnc_3axis" None)) 1344 N C).
Defined.
